(** * Omnivore RSS export: a shallow embedding of [omnivore_rss_export.py]

    The script reads three environment variables, posts one GraphQL query,
    maps the JSON answer to [Subscription] records, optionally filters the
    never-fetched ones, prints a report and writes an OPML file.

    Part I embeds the program: Python values and exceptions, the datetime
    arithmetic the filter relies on, decoded JSON, the HTTP response, and
    then the functions of the script in source order.  Part II states the
    vocabulary of the specification, and Part III proves the properties. *)

From Stdlib Require Import ZArith String Ascii List Lia Bool DecimalString Permutation.
Import ListNotations.
Open Scope string_scope.
Open Scope Z_scope.
Open Scope list_scope.

Set Implicit Arguments.
Set Warnings "-register-all".

(* ================================================================== *)
(** * Part I. The program                                              *)
(* ================================================================== *)

(** ** Text

    A Python [str] is modelled as a Rocq [string], one [ascii] per
    character.  [s +++ t] is Python's [s + t]. *)

Module Text.

Infix "+++" := String.append (right associativity, at level 60).

(** The characters that cannot be typed inside a string literal here. *)
Definition dq : string := String "034"%char EmptyString.
Definition nl : string := String "010"%char EmptyString.

(** [str(n)] for an [int]. *)
Definition str_int (z : Z) : string := NilZero.string_of_int (Z.to_int z).

(** [str(b)] for a [bool]. *)
Definition str_bool (b : bool) : string := if b then "True" else "False".

(** [sep.join(parts)]. *)
Definition join (sep : string) (parts : list string) : string :=
  String.concat sep parts.

(** [s[:n]]. *)
Definition take (n : nat) (s : string) : string := substring 0 n s.

(** [needle in hay] for two strings: the substring test. *)
Fixpoint contains (needle hay : string) : bool :=
  prefix needle hay ||
  match hay with
  | EmptyString => false
  | String _ rest => contains needle rest
  end.

(** [s.replace(c, by)] for a one-character pattern [c]: every occurrence is
    replaced, left to right. *)
Fixpoint replace_char (c : ascii) (by_ : string) (s : string) : string :=
  match s with
  | EmptyString => EmptyString
  | String a rest =>
      if Ascii.eqb a c then by_ +++ replace_char c by_ rest
      else String a (replace_char c by_ rest)
  end.

(** Truth value of a string: empty is false. *)
Definition truthy (s : string) : bool :=
  match s with EmptyString => false | String _ _ => true end.

(** Truth value of an [Optional[str]]: [None] and the empty string are false. *)
Definition truthy_opt (o : option string) : bool :=
  match o with None => false | Some s => truthy s end.

End Text.
Import Text.

(** ** Decoded JSON

    The value [response.json()] returns: [None], [bool], [int], [float],
    [str], [list] and [dict].  A float is kept as mantissa and exponent,
    the number [m * 2 ^ e] (the program tests it for zero, may use it as
    the key of a dict, and leaves its text to the library); a dict is kept
    as its items in insertion order, keys unique as the decoder leaves
    them. *)

Module Json.

Inductive json : Type :=
| JNull
| JBool (b : bool)
| JInt (n : Z)
| JFloat (m e : Z)
| JStr (s : string)
| JList (items : list json)
| JDict (fields : list (string * json)).

(** [type(v).__name__], used in the interpreter's messages. *)
Definition type_name (v : json) : string :=
  match v with
  | JNull => "NoneType"
  | JBool _ => "bool"
  | JInt _ => "int"
  | JFloat _ _ => "float"
  | JStr _ => "str"
  | JList _ => "list"
  | JDict _ => "dict"
  end.

(** [bool(v)]. *)
Definition truthy (v : json) : bool :=
  match v with
  | JNull => false
  | JBool b => b
  | JInt n => negb (n =? 0)
  | JFloat m _ => negb (m =? 0)
  | JStr s => Text.truthy s
  | JList items => match items with [] => false | _ :: _ => true end
  | JDict fields => match fields with [] => false | _ :: _ => true end
  end.

(** The value stored under a key of a dict. *)
Fixpoint lookup (key : string) (fields : list (string * json)) : option json :=
  match fields with
  | [] => None
  | (k, v) :: rest => if String.eqb k key then Some v else lookup key rest
  end.

(** [v == key] for a string [key]. *)
Definition is_str (key : string) (v : json) : bool :=
  match v with JStr s => String.eqb s key | _ => false end.

End Json.
Import Json.

(** ** HTTP

    What [requests.post] is given and what it hands back.  [decoded] is the
    outcome of [response.json()]: the decoded body, or the decoder's
    complaint when the body is not JSON. *)

Module Http.

Record request : Type := {
  req_url : string;
  req_headers : list (string * string);
  req_json : json
}.

Record response : Type := {
  status_code : Z;
  reason : string;
  url : string;
  headers : list (string * string);
  text : string;
  decoded : string + json
}.

End Http.

(** ** Exceptions and the two computation types *)

Module Py.

(** The three ways a [requests.exceptions.RequestException] arises here. *)
Inductive request_fault : Type :=
| HTTPError          (* raise_for_status on a 4xx or 5xx answer *)
| JSONDecodeError    (* response.json() on a body that is not JSON *)
| ConnectionFault.   (* DNS failure, refused or reset connection, timeout *)

(** The exceptions the program can raise.  Each carries the text [str(e)]
    gives; a [RequestException] also carries its [response] attribute. *)
Inductive exn : Type :=
| RequestException (fault : request_fault) (msg : string) (resp : option Http.response)
| ValueError (msg : string)
| Exception (msg : string)
| TypeError (msg : string)
| KeyError (key : string)
| AttributeError (msg : string)
| OSError (msg : string).

(** [str(e)]. *)
Definition exn_str (e : exn) : string :=
  match e with
  | RequestException _ msg _ => msg
  | ValueError msg => msg
  | Exception msg => msg
  | TypeError msg => msg
  | KeyError key => "'" +++ key +++ "'"
  | AttributeError msg => msg
  | OSError msg => msg
  end.

(** [isinstance(e, requests.exceptions.RequestException)]. *)
Definition is_request_exception (e : exn) : bool :=
  match e with RequestException _ _ _ => true | _ => false end.

(** A computation without side effects: it raises or returns. *)
Definition result (A : Type) : Type := exn + A.

Definition Raise {A : Type} (e : exn) : result A := inl e.
Definition Ok {A : Type} (a : A) : result A := inr a.

Definition rbind {A B : Type} (m : result A) (k : A -> result B) : result B :=
  match m with
  | inl e => inl e
  | inr a => k a
  end.

(** What a run leaves behind: the lines printed, the requests sent, the
    files written (name and content, latest last), and how many times the
    clock was read. *)
Record effects : Type := {
  stdout : list string;
  sent : list Http.request;
  files : list (string * string);
  clock_reads : nat
}.

Definition no_effects : effects :=
  {| stdout := []; sent := []; files := []; clock_reads := 0 |}.

(** A computation with side effects. *)
Definition IO (A : Type) : Type := effects -> effects * result A.

Definition ret {A : Type} (a : A) : IO A := fun s => (s, Ok a).

Definition bind {A B : Type} (m : IO A) (k : A -> IO B) : IO B :=
  fun s =>
    match m s with
    | (s', inl e) => (s', inl e)
    | (s', inr a) => k a s'
    end.

Definition raise {A : Type} (e : exn) : IO A := fun s => (s, Raise e).

Definition lift {A : Type} (r : result A) : IO A := fun s => (s, r).

(** [try: body except: handler]. The handler sees the effects of the body up
    to the raise. *)
Definition try_except {A : Type} (body : IO A) (handler : exn -> IO A) : IO A :=
  fun s =>
    match body s with
    | (s', inl e) => handler e s'
    | (s', inr a) => (s', inr a)
    end.

(** [print(line)]. *)
Definition print (line : string) : IO unit :=
  fun s =>
    ({| stdout := stdout s ++ [line]; sent := sent s;
        files := files s; clock_reads := clock_reads s |}, Ok tt).

(** [for x in xs: body(x)]. *)
Fixpoint for_each {A : Type} (xs : list A) (body : A -> IO unit) : IO unit :=
  match xs with
  | [] => ret tt
  | x :: rest => bind (body x) (fun _ => for_each rest body)
  end.

End Py.
Import Py.

Notation "'let?' x ':=' m 'in' k" := (rbind m (fun x => k))
  (at level 10, x name, m at level 100, k at level 200).
Notation "x <- m ;; k" := (bind m (fun x => k))
  (at level 100, m at next level, right associativity).
Notation "m ;; k" := (bind m (fun _ => k))
  (at level 100, right associativity).

(** ** Operations of Python on decoded JSON

    The operators the fetcher applies to the decoded body, with the
    exception each raises on a value of the wrong type (messages as CPython
    words them; no property depends on their text). *)

Module JsonOps.

(** [key in v]. A dict is asked for the key, a list for an equal element, a
    string for the substring; anything else is not a container. *)
Definition contains_key (key : string) (v : json) : result bool :=
  match v with
  | JDict fields =>
      Ok (match lookup key fields with Some _ => true | None => false end)
  | JList items => Ok (existsb (is_str key) items)
  | JStr s => Ok (Text.contains key s)
  | _ => Raise (TypeError ("argument of type '" +++ type_name v +++ "' is not iterable"))
  end.

(** [v[key]] for a string [key]. *)
Definition subscript (v : json) (key : string) : result json :=
  match v with
  | JDict fields =>
      match lookup key fields with
      | Some x => Ok x
      | None => Raise (KeyError key)
      end
  | JList _ => Raise (TypeError "list indices must be integers or slices, not str")
  | JStr _ => Raise (TypeError "string indices must be integers, not 'str'")
  | _ => Raise (TypeError ("'" +++ type_name v +++ "' object is not subscriptable"))
  end.

(** [v.get(key)]: only a dict has the method; a missing key gives [None]. *)
Definition get (v : json) (key : string) : result json :=
  match v with
  | JDict fields =>
      Ok (match lookup key fields with Some x => x | None => JNull end)
  | _ => Raise (AttributeError ("'" +++ type_name v +++ "' object has no attribute 'get'"))
  end.

(** The items [for sub in v] goes through: the elements of a list, the keys
    of a dict, the characters of a string. *)
Definition iterate (v : json) : result (list json) :=
  match v with
  | JList items => Ok items
  | JDict fields => Ok (map (fun kv => JStr (fst kv)) fields)
  | JStr s => Ok (map (fun c => JStr (String c EmptyString)) (list_ascii_of_string s))
  | _ => Raise (TypeError ("'" +++ type_name v +++ "' object is not iterable"))
  end.

(** [v is None]. *)
Definition is_none (v : json) : bool :=
  match v with JNull => true | _ => false end.

(** [value or default]. *)
Definition or_default (value default : json) : json :=
  if Json.truthy value then value else default.

End JsonOps.
Import JsonOps.

(** ** Dict keys

    What Python takes for the same key of a dict.  Strings are the same key
    when they are equal; booleans, integers and floats when they are equal
    as numbers ([True == 1 == 1.0]), so a number is kept as an odd mantissa
    and an exponent, zero as [0, 0]; a list or a dict cannot be hashed. *)

Module DictKey.

Inductive dict_key : Type :=
| KNone
| KStr (s : string)
| KNum (m e : Z).

(** A positive number as an odd number times a power of two. *)
Fixpoint odd_part (p : positive) : positive * Z :=
  match p with
  | xO q => let (r, k) := odd_part q in (r, k + 1)
  | _ => (p, 0)
  end.

(** The key of the number [m * 2 ^ e]. *)
Definition number (m e : Z) : dict_key :=
  match m with
  | Z0 => KNum 0 0
  | Zpos p => let (r, k) := odd_part p in KNum (Zpos r) (e + k)
  | Zneg p => let (r, k) := odd_part p in KNum (Zneg r) (e + k)
  end.

(** [hash(v)], as far as it tells keys apart; it raises for a list and a
    dict. *)
Definition hash_key (v : json) : result dict_key :=
  match v with
  | JNull => Ok KNone
  | JBool b => Ok (number (if b then 1 else 0) 0)
  | JInt n => Ok (number n 0)
  | JFloat m e => Ok (number m e)
  | JStr s => Ok (KStr s)
  | JList _ | JDict _ => Raise (TypeError ("unhashable type: '" +++ type_name v +++ "'"))
  end.

Definition key_eqb (a b : dict_key) : bool :=
  match a, b with
  | KNone, KNone => true
  | KStr s, KStr t => String.eqb s t
  | KNum m e, KNum n f => (m =? n) && (e =? f)
  | _, _ => false
  end.

End DictKey.
Import DictKey.

(** ** Datetime

    A [datetime] is its wall-clock reading, counted in microseconds from
    0001-01-01T00:00:00, and its [tzinfo]: [None] for a naive value, the
    offset from UTC in microseconds for an aware one (the only kind of zone
    [fromisoformat] attaches).  A [timedelta] is a number of microseconds. *)

Module Datetime.

Record datetime : Type := {
  wall : Z;
  utcoffset : option Z
}.

Definition timedelta : Type := Z.

(** [a - b].  Two naive values differ by their readings, two aware ones by
    their UTC instants; a naive and an aware one cannot be subtracted. *)
Definition sub (a b : datetime) : result timedelta :=
  match utcoffset a, utcoffset b with
  | None, None => Ok (wall a - wall b)
  | Some oa, Some ob => Ok (wall a - wall b + ob - oa)
  | _, _ => Raise (TypeError "can't subtract offset-naive and offset-aware datetimes")
  end.

(** [a == b].  A naive and an aware value are never equal. *)
Definition eqb (a b : datetime) : bool :=
  match utcoffset a, utcoffset b with
  | None, None => wall a =? wall b
  | Some oa, Some ob => wall a - oa =? wall b - ob
  | _, _ => false
  end.

Definition microseconds_per_second : Z := 1000000.

(** [abs(td.total_seconds()) < n] for a whole number [n] of seconds.
    [total_seconds] is the correctly rounded quotient of the microsecond
    count by 10**6; rounding is monotone and fixes the integer [n], and a
    count below [n * 10**6] is a whole microsecond away from it, so the
    comparison of floats agrees with the comparison of the counts. *)
Definition abs_total_seconds_lt (td : timedelta) (n : Z) : bool :=
  Z.abs td <? n * microseconds_per_second.

End Datetime.
Import Datetime.

(** ** What the program takes from outside

    [Library] gathers the functions of the Python standard library whose
    output the script only passes on; [World] is the environment of one
    run. *)

Record Library : Type := {
  (** [datetime.fromisoformat(s)]: the parsed value, or the error raised. *)
  fromisoformat : string -> result datetime;
  (** [d.strftime(format)]. *)
  strftime : datetime -> string -> string;
  (** [json.dumps(v, indent=2)]. *)
  json_dumps : json -> string;
  (** [str(v)], as an f-string formats a decoded JSON value. *)
  str_json : json -> string;
  (** [str(response.headers)]. *)
  str_headers : list (string * string) -> string
}.

Record World : Type := {
  (** [os.getenv(name)] once [load_dotenv()] has run. *)
  getenv : string -> option string;
  (** [args.exclude_unfetched], what argparse makes of the command line (a
      command line argparse rejects ends the process before the [try] and is
      not a run of this model). *)
  args_exclude_unfetched : bool;
  (** [datetime.now()] at its n-th call. *)
  clock : nat -> datetime;
  (** The answer of the network to a POST, or the fault that prevented one. *)
  network : Http.request -> string + Http.response;
  (** [open(filename, 'w')]: [None] when the file opens, else the error text. *)
  open_error : string -> option string
}.

(** [str(v)], what an f-string puts for [{v}]: a string as it is, [None],
    a boolean and an integer as Python writes them, and a float, a list or
    a dict as the library does. *)
Definition py_str (L : Library) (v : json) : string :=
  match v with
  | JNull => "None"
  | JBool b => str_bool b
  | JInt n => str_int n
  | JStr s => s
  | _ => str_json L v
  end.

(** ** The [Subscription] dataclass

    A dataclass does not check its annotations: apart from the four
    timestamps, which [get_subscriptions] parses, a field holds whatever
    value the answer has under its key, [None] for a missing key. *)

Record Subscription : Type := {
  name : json;
  url : json;
  folder : json;
  created_at : option datetime;
  last_fetched_at : option datetime;
  description : json;
  newsletter_email : json;
  refreshed_at : option datetime;
  count : json;
  icon : json;
  is_private : json;
  auto_add_to_library : json;
  fetch_content : json;
  failed_at : option datetime
}.

(** ** [class OmnivoreClient] *)

Record OmnivoreClient : Type := {
  token : string;
  base_url : string;
  headers : list (string * string)
}.

(** [OmnivoreClient.__init__]. *)
Definition new_client (token host graphql_path : string) : OmnivoreClient :=
  {| token := token;
     base_url := "https://" +++ host +++ graphql_path;
     headers := [("Authorization", token); ("Content-Type", "application/json")] |}.

(** The GraphQL document, as the triple-quoted literal spells it. *)
Definition indent (n : nat) (line : string) : string :=
  string_of_list_ascii (repeat " "%char n) +++ line.

Definition query : string :=
  Text.join nl
    ([ EmptyString;
       indent 8 "query GetSubscriptions {";
       indent 12 "subscriptions {";
       indent 16 "... on SubscriptionsSuccess {";
       indent 20 "subscriptions {" ]
     ++ map (indent 24)
       [ "name"; "url"; "folder"; "createdAt"; "lastFetchedAt"; "description";
         "newsletterEmail"; "refreshedAt"; "count"; "icon"; "isPrivate";
         "autoAddToLibrary"; "fetchContent"; "failedAt" ]
     ++ [ indent 20 "}"; indent 16 "}"; indent 12 "}"; indent 8 "}";
          indent 8 EmptyString ]).

Section Program.

Variable L : Library.
Variable W : World.

(** *** Primitive effects *)

(** [requests.post(url, headers=..., json=...)]: the request goes out, and
    the network answers or the call raises. *)
Definition requests_post (url : string) (hdrs : list (string * string))
    (body : json) : IO Http.response :=
  fun s =>
    let req := {| Http.req_url := url; Http.req_headers := hdrs; Http.req_json := body |} in
    let s' := {| stdout := stdout s; sent := sent s ++ [req];
                 files := files s; clock_reads := clock_reads s |} in
    match network W req with
    | inl fault => (s', Raise (RequestException ConnectionFault fault None))
    | inr response => (s', Ok response)
    end.

(** [datetime.now()]. *)
Definition datetime_now : IO datetime :=
  fun s =>
    ({| stdout := stdout s; sent := sent s; files := files s;
        clock_reads := S (clock_reads s) |}, Ok (clock W (clock_reads s))).

(** [with open(filename, 'w', encoding='utf-8') as f: f.write(content)]. *)
Definition write_file (filename content : string) : IO unit :=
  fun s =>
    match open_error W filename with
    | Some msg => (s, Raise (OSError msg))
    | None =>
        ({| stdout := stdout s; sent := sent s;
            files := files s ++ [(filename, content)];
            clock_reads := clock_reads s |}, Ok tt)
    end.

(** [response.raise_for_status()] of the requests library: only the 4xx and
    5xx codes raise. *)
Definition raise_for_status (response : Http.response) : result unit :=
  let code := Http.status_code response in
  if (400 <=? code) && (code <? 500) then
    Raise (RequestException HTTPError
             (str_int code +++ " Client Error: " +++ Http.reason response
                +++ " for url: " +++ Http.url response)
             (Some response))
  else if (500 <=? code) && (code <? 600) then
    Raise (RequestException HTTPError
             (str_int code +++ " Server Error: " +++ Http.reason response
                +++ " for url: " +++ Http.url response)
             (Some response))
  else Ok tt.

(** [response.json()]. *)
Definition response_json (response : Http.response) : result json :=
  match Http.decoded response with
  | inl complaint => Raise (RequestException JSONDecodeError complaint None)
  | inr data => Ok data
  end.

(** *** [get_subscriptions]: the mapping step *)

(** [datetime.fromisoformat(sub[key].replace("Z", "+00:00")) if sub.get(key)
    else None]. *)
Definition parse_timestamp (sub : json) (key : string) : result (option datetime) :=
  let? present := get sub key in
  if Json.truthy present then
    let? raw := subscript sub key in
    match raw with
    | JStr s =>
        let? d := fromisoformat L (replace_char "Z"%char "+00:00" s) in
        Ok (Some d)
    | _ => Raise (AttributeError ("'" +++ type_name raw +++ "' object has no attribute 'replace'"))
    end
  else Ok None.

(** The body of the loop: one item of the answer to one record. *)
Definition to_subscription (sub : json) : result Subscription :=
  let? created_at := parse_timestamp sub "createdAt" in
  let? last_fetched_at := parse_timestamp sub "lastFetchedAt" in
  let? refreshed_at := parse_timestamp sub "refreshedAt" in
  let? failed_at := parse_timestamp sub "failedAt" in
  let? name := subscript sub "name" in
  let? url := get sub "url" in
  let? folder := get sub "folder" in
  let? description := get sub "description" in
  let? newsletter_email := get sub "newsletterEmail" in
  let? count := get sub "count" in
  let? icon := get sub "icon" in
  let? is_private := get sub "isPrivate" in
  let? auto_add_to_library := get sub "autoAddToLibrary" in
  let? fetch_content := get sub "fetchContent" in
  Ok {| name := name; url := url; folder := folder;
        created_at := created_at; last_fetched_at := last_fetched_at;
        description := description; newsletter_email := newsletter_email;
        refreshed_at := refreshed_at; count := count; icon := icon;
        is_private := is_private; auto_add_to_library := auto_add_to_library;
        fetch_content := fetch_content; failed_at := failed_at |}.

(** [subscriptions = []; for sub in items: ...; subscriptions.append(...)]:
    the records of the items in order, or the first exception. *)
Fixpoint to_subscriptions (items : list json) : result (list Subscription) :=
  match items with
  | [] => Ok []
  | sub :: rest =>
      let? subscription := to_subscription sub in
      let? subscriptions := to_subscriptions rest in
      Ok (subscription :: subscriptions)
  end.

(** Lines 83 to 119: from the decoded body to the records. *)
Definition read_body (data : json) : result (list Subscription) :=
  let? has_errors := contains_key "errors" data in
  if has_errors then
    let? errors := subscript data "errors" in
    Raise (Exception ("GraphQL errors: " +++ json_dumps L errors))
  else
    let? payload := subscript data "data" in
    let? result := subscript payload "subscriptions" in
    let? has_codes := contains_key "errorCodes" result in
    if has_codes then
      let? codes := subscript result "errorCodes" in
      Raise (Exception ("Subscription error: " +++ str_json L codes))
    else
      let? listed := subscript result "subscriptions" in
      let? items := iterate listed in
      to_subscriptions items.

(** *** [get_subscriptions] *)

(** The body of the [try]. *)
Definition fetch (self : OmnivoreClient) : IO (list Subscription) :=
  response <- requests_post (base_url self) (headers self)
                (JDict [("query", JStr query)]) ;;
  print ("Status Code: " +++ str_int (Http.status_code response)) ;;
  (if negb (Http.status_code response =? 200) then
     print ("Response Headers: " +++ str_headers L (Http.headers response)) ;;
     print ("Response Text: " +++ Text.take 500 (Http.text response) +++ "...")
   else ret tt) ;;
  lift (raise_for_status response) ;;
  data <- lift (response_json response) ;;
  lift (read_body data).

(** [except requests.exceptions.RequestException as e]: the clause prints
    and raises [e] again; any other exception passes through. *)
Definition on_request_exception (e : exn) : IO (list Subscription) :=
  match e with
  | RequestException _ msg resp =>
      print ("Request failed: " +++ msg) ;;
      match resp with
      | Some response => print ("Error response: " +++ Http.text response)
      | None => ret tt
      end ;;
      raise e
  | _ => raise e
  end.

Definition get_subscriptions (self : OmnivoreClient) : IO (list Subscription) :=
  try_except (fetch self) on_request_exception.

(** *** [export_to_opml] *)

(** [folders], a dict in insertion order: for each entry the identity of
    the key, the key object itself, and the list stored under it. *)
Definition Folders : Type := list (dict_key * json * list Subscription).

(** [key in folders], once the key is hashed. *)
Fixpoint has_key (key : dict_key) (folders : Folders) : bool :=
  match folders with
  | [] => false
  | (k, _, _) :: rest => key_eqb k key || has_key key rest
  end.

(** [folders[key]]: [None] stands for the [KeyError]. *)
Fixpoint getitem (key : dict_key) (folders : Folders) : option (list Subscription) :=
  match folders with
  | [] => None
  | (k, _, bucket) :: rest => if key_eqb k key then Some bucket else getitem key rest
  end.

(** [folders[key] = bucket]: an entry already there keeps its place and its
    key object, a new key goes last. *)
Fixpoint setitem (key : dict_key) (label : json) (bucket : list Subscription)
    (folders : Folders) : Folders :=
  match folders with
  | [] => [(key, label, bucket)]
  | (k, stored, old) :: rest =>
      if key_eqb k key then (k, stored, bucket) :: rest
      else (k, stored, old) :: setitem key label bucket rest
  end.

(** The body of the grouping loop.  [folder not in folders] hashes the
    key, which raises for a list or a dict.  The bucket is a list only the
    dict refers to, so appending to it in place is storing the longer
    list. *)
Definition group_step (folders : Folders) (sub : Subscription) : result Folders :=
  let folder := or_default (folder sub) (JStr "Uncategorized") in
  let? key := hash_key folder in
  let folders :=
    if negb (has_key key folders) then setitem key folder [] folders else folders in
  match getitem key folders with
  | Some bucket => Ok (setitem key folder (bucket ++ [sub]) folders)
  | None => Raise (KeyError (py_str L folder))
  end.

Fixpoint group_loop (subscriptions : list Subscription) (folders : Folders) : result Folders :=
  match subscriptions with
  | [] => Ok folders
  | sub :: rest =>
      let? folders := group_step folders sub in
      group_loop rest folders
  end.

Definition group_by_folder (subscriptions : list Subscription) : result Folders :=
  group_loop subscriptions [].

(** The two f-strings of the writing loop and the closing tag. *)
Definition folder_open (folder : string) : string :=
  "    <outline text=" +++ dq +++ folder +++ dq
    +++ " title=" +++ dq +++ folder +++ dq +++ ">" +++ nl.

Definition leaf (name url : string) : string :=
  "      <outline type=" +++ dq +++ "rss" +++ dq
    +++ " text=" +++ dq +++ name +++ dq
    +++ " title=" +++ dq +++ name +++ dq
    +++ " xmlUrl=" +++ dq +++ url +++ dq +++ "/>" +++ nl.

Definition folder_close : string := "    </outline>" +++ nl.

(** The inner loop body: [if sub.url: opml += ...]. *)
Definition write_leaf (opml : string) (sub : Subscription) : string :=
  if Json.truthy (url sub)
  then opml +++ leaf (py_str L (name sub)) (py_str L (url sub))
  else opml.

(** The outer loop body, for one item of [folders.items()]. *)
Definition write_folder (opml : string) (item : dict_key * json * list Subscription)
    : string :=
  let '(_, folder, subs) := item in
  let opml :=
    if negb (is_str "Uncategorized" folder) then opml +++ folder_open (py_str L folder)
    else opml in
  let opml := fold_left write_leaf subs opml in
  if negb (is_str "Uncategorized" folder) then opml +++ folder_close
  else opml.

(** The text before the loops, given the date of the title. *)
Definition opml_head (date : string) : string :=
  let opml := "<?xml version=" +++ dq +++ "1.0" +++ dq
                +++ " encoding=" +++ dq +++ "UTF-8" +++ dq +++ "?>" +++ nl in
  let opml := opml +++ "<opml version=" +++ dq +++ "2.0" +++ dq +++ ">" +++ nl in
  let opml := opml +++ "  <head>" +++ nl in
  let opml := opml +++ "    <title>Omnivore RSS Subscriptions Export - " +++ date
                +++ "</title>" +++ nl in
  let opml := opml +++ "  </head>" +++ nl in
  opml +++ "  <body>" +++ nl.

(** The string [export_to_opml] writes, given the date of the title. *)
Definition opml_document (date : string) (subscriptions : list Subscription) : result string :=
  let opml := opml_head date in
  let? folders := group_by_folder subscriptions in
  let opml := fold_left write_folder folders opml in
  let opml := opml +++ "  </body>" +++ nl in
  Ok (opml +++ "</opml>").

Definition export_to_opml (self : OmnivoreClient)
    (subscriptions : list Subscription) (filename : string) : IO unit :=
  now <- datetime_now ;;
  opml <- lift (opml_document (strftime L now "%Y-%m-%d") subscriptions) ;;
  write_file filename opml.

(** *** [main] *)

(** The condition of the list comprehension of the filter:
    [not (sub.last_fetched_at is None or (sub.created_at and
    sub.last_fetched_at and abs((sub.last_fetched_at -
    sub.created_at).total_seconds()) < 60))].  A [datetime] is always true,
    so each [and] operand tests presence. *)
Definition fetched_since_creation (sub : Subscription) : result bool :=
  match last_fetched_at sub with
  | None => Ok false
  | Some fetched =>
      match created_at sub with
      | None => Ok true
      | Some created =>
          let? gap := Datetime.sub fetched created in
          Ok (negb (abs_total_seconds_lt gap 60))
      end
  end.

(** [[sub for sub in subscriptions if not (...)]]. *)
Fixpoint filter_unfetched (subscriptions : list Subscription) : result (list Subscription) :=
  match subscriptions with
  | [] => Ok []
  | sub :: rest =>
      let? keep := fetched_since_creation sub in
      let? kept := filter_unfetched rest in
      Ok (if keep then sub :: kept else kept)
  end.

(** [if condition: print(line)]. *)
Definition print_if (condition : bool) (line : string) : IO unit :=
  if condition then print line else ret tt.

(** [if value: print(f"label{value}")]. *)
Definition print_if_true (label : string) (value : json) : IO unit :=
  print_if (Json.truthy value) (label +++ py_str L value).

(** [if value is not None: print(f"label{value}")]. *)
Definition print_if_set (label : string) (value : json) : IO unit :=
  print_if (negb (is_none value)) (label +++ py_str L value).

Definition print_opt_date (label : string) (value : option datetime) : IO unit :=
  match value with
  | Some d => print (label +++ strftime L d "%Y-%m-%d")
  | None => ret tt
  end.

(** The body of the printing loop. *)
Definition report (sub : Subscription) : IO unit :=
  print (nl +++ "Name: " +++ py_str L (name sub)) ;;
  print_if_true "URL: " (url sub) ;;
  print_if_true "Folder: " (folder sub) ;;
  print_if_true "Description: " (description sub) ;;
  print_if_true "Newsletter email: " (newsletter_email sub) ;;
  print_opt_date "Created at: " (created_at sub) ;;
  print_opt_date "Last fetched at: " (last_fetched_at sub) ;;
  print_opt_date "Refreshed at: " (refreshed_at sub) ;;
  print_if_set "Count: " (count sub) ;;
  print_if_true "Icon: " (icon sub) ;;
  print_if_set "Is private: " (is_private sub) ;;
  print_if_set "Auto add to library: " (auto_add_to_library sub) ;;
  print_if_set "Fetch content: " (fetch_content sub) ;;
  print_opt_date "Failed at: " (failed_at sub).

(** Lines 178 to 184: the names of the variables that are not set. *)
Definition missing_vars (token host graphql_path : option string) : list string :=
  let missing_vars := [] in
  let missing_vars :=
    if negb (truthy_opt token) then missing_vars ++ ["OMNIVORE_API_TOKEN"]
    else missing_vars in
  let missing_vars :=
    if negb (truthy_opt host) then missing_vars ++ ["OMNIVORE_HOST"]
    else missing_vars in
  if negb (truthy_opt graphql_path) then missing_vars ++ ["OMNIVORE_GRAPH_QL_PATH"]
  else missing_vars.

(** The string behind an environment value that passed the check above. *)
Definition checked (value : option string) : string :=
  match value with
  | Some s => s
  | None => EmptyString
  end.

(** Lines 200 to 210: the optional filter. *)
Definition filter_stage (subscriptions : list Subscription) : IO (list Subscription) :=
  if args_exclude_unfetched W then
    let original_count := length subscriptions in
    subscriptions <- lift (filter_unfetched subscriptions) ;;
    let filtered_count := Z.of_nat original_count - Z.of_nat (length subscriptions) in
    print_if (0 <? filtered_count)
      (nl +++ "Filtered out " +++ str_int filtered_count
          +++ " never-fetched subscriptions") ;;
    ret subscriptions
  else ret subscriptions.

(** Lines 195 to 246: the body of the [try]. *)
Definition run (token host graphql_path : string) : IO unit :=
  let client := new_client token host graphql_path in
  print "Fetching subscriptions..." ;;
  subscriptions <- get_subscriptions client ;;
  subscriptions <- filter_stage subscriptions ;;
  print (nl +++ "Found " +++ str_int (Z.of_nat (length subscriptions))
            +++ " RSS subscriptions:") ;;
  for_each subscriptions report ;;
  now <- datetime_now ;;
  let output_file := "omnivore_rss_export_" +++ strftime L now "%Y%m%d" +++ ".opml" in
  export_to_opml client subscriptions output_file ;;
  print (nl +++ "Exported subscriptions to " +++ output_file).

(** [except Exception as e]: print the message and raise [e] again. *)
Definition on_exception (e : exn) : IO unit :=
  print ("Error: " +++ exn_str e) ;; raise e.

Definition main : IO unit :=
  let token := getenv W "OMNIVORE_API_TOKEN" in
  let host := getenv W "OMNIVORE_HOST" in
  let graphql_path := getenv W "OMNIVORE_GRAPH_QL_PATH" in
  let missing := missing_vars token host graphql_path in
  match missing with
  | _ :: _ =>
      raise (ValueError ("Missing required environment variables: "
                           +++ Text.join ", " missing))
  | [] =>
      try_except
        (run (checked token) (checked host) (checked graphql_path))
        on_exception
  end.

End Program.

(* ================================================================== *)
(** * Part II. The vocabulary of the specification                     *)
(* ================================================================== *)

(** [needle] occurs in [hay], character for character. *)
Definition occurs (needle hay : string) : Prop :=
  exists before after, hay = before +++ needle +++ after.

(** [xs] is [ys] with some elements left out: same elements, same order,
    nothing added, nothing repeated. *)
Inductive subsequence {A : Type} : list A -> list A -> Prop :=
| subsequence_nil : subsequence [] []
| subsequence_keep x xs ys : subsequence xs ys -> subsequence (x :: xs) (x :: ys)
| subsequence_drop y xs ys : subsequence xs ys -> subsequence xs (y :: ys).

(** *** The filter *)

(** The two timestamps are present and less than 60 seconds apart. *)
Definition fetched_within_a_minute (sub : Subscription) : Prop :=
  exists created fetched gap,
    created_at sub = Some created /\
    last_fetched_at sub = Some fetched /\
    Datetime.sub fetched created = Ok gap /\
    Z.abs gap < 60 * microseconds_per_second.

(** The filter takes [sub] out of the list. *)
Definition dropped (sub : Subscription) : Prop :=
  fetched_since_creation sub = Ok false.

(** The difference of the two timestamps is defined: they are not one naive
    and one aware. *)
Definition comparable (sub : Subscription) : Prop :=
  match created_at sub, last_fetched_at sub with
  | Some created, Some fetched =>
      (utcoffset created = None <-> utcoffset fetched = None)
  | _, _ => True
  end.

(** *** The grouper *)

(** The key object a subscription is grouped under: its folder, or the
    reserved name when the folder is missing, empty or otherwise false. *)
Definition folder_of (sub : Subscription) : json :=
  or_default (folder sub) (JStr "Uncategorized").

(** The folder of the subscription can be the key of a dict: it is not a
    list or an object. *)
Definition hashable (sub : Subscription) : bool :=
  match hash_key (folder_of sub) with
  | inr _ => true
  | inl _ => false
  end.

(** The identity of the folder as a key. *)
Definition folder_key (sub : Subscription) : dict_key :=
  match hash_key (folder_of sub) with
  | inr key => key
  | inl _ => KNone
  end.

(** The distinct keys of a list, each at the place of its first occurrence. *)
Fixpoint first_seen (keys : list dict_key) : list dict_key :=
  match keys with
  | [] => []
  | k :: rest => k :: filter (fun k' => negb (key_eqb k' k)) (first_seen rest)
  end.

Definition in_folder (key : dict_key) (sub : Subscription) : bool :=
  key_eqb (folder_key sub) key.

(** The key object of a bucket: the folder of its first subscription. *)
Definition label_of (key : dict_key) (subscriptions : list Subscription) : json :=
  match filter (in_folder key) subscriptions with
  | first :: _ => folder_of first
  | [] => JNull
  end.

(** The partition the grouper is to compute: one bucket per folder, folders
    in first-seen order, each bucket in the order of the input. *)
Definition partition_by_folder (subscriptions : list Subscription) : Folders :=
  map (fun key => (key, label_of key subscriptions, filter (in_folder key) subscriptions))
      (first_seen (map folder_key subscriptions)).

(** The bucket is the reserved one. *)
Definition reserved (bucket : dict_key * json * list Subscription) : bool :=
  is_str "Uncategorized" (snd (fst bucket)).

(** *** The document *)

(** The URL is there and true: for a string, not empty. *)
Definition has_url (sub : Subscription) : bool := Json.truthy (url sub).

(** The text of the outline elements, as an OPML document spells them: an
    attribute is a space, the name, the equals sign and the value between
    double quotes. *)
Definition attribute (name value : string) : string :=
  " " +++ name +++ "=" +++ dq +++ value +++ dq.

(** The start tag of a folder element: four spaces deep, the label as
    [text] and as [title]. *)
Definition folder_start (label : string) : string :=
  "    <outline" +++ attribute "text" label +++ attribute "title" label +++ ">" +++ nl.

(** The end tag of a folder element. *)
Definition folder_end : string := "    </outline>" +++ nl.

(** The leaf element of a feed: six spaces deep, of type [rss], the name as
    [text] and as [title], the address as [xmlUrl]. *)
Definition feed_element (name url : string) : string :=
  "      <outline" +++ attribute "type" "rss" +++ attribute "text" name
    +++ attribute "title" name +++ attribute "xmlUrl" url +++ "/>" +++ nl.

(** The elements of the body of an OPML document, in document order. *)
Inductive element : Type :=
| FolderOpen (folder : json)
| Leaf (sub : Subscription)
| FolderClose.

Definition element_text (L : Library) (e : element) : string :=
  match e with
  | FolderOpen folder => folder_start (py_str L folder)
  | Leaf sub => feed_element (py_str L (name sub)) (py_str L (url sub))
  | FolderClose => folder_end
  end.

Fixpoint render (L : Library) (elements : list element) : string :=
  match elements with
  | [] => EmptyString
  | e :: rest => element_text L e +++ render L rest
  end.

(** The subscriptions that have a leaf element, one entry per element. *)
Fixpoint leaves (elements : list element) : list Subscription :=
  match elements with
  | [] => []
  | Leaf sub :: rest => sub :: leaves rest
  | _ :: rest => leaves rest
  end.

(** The elements of one bucket: a leaf per subscription with a URL, inside a
    folder element unless the bucket is the reserved one. *)
Definition bucket_elements (bucket : dict_key * json * list Subscription) : list element :=
  let inner := map Leaf (filter has_url (snd bucket)) in
  if reserved bucket then inner
  else FolderOpen (snd (fst bucket)) :: inner ++ [FolderClose].

Definition outline (subscriptions : list Subscription) : list element :=
  flat_map bucket_elements (partition_by_folder subscriptions).

Definition opml_tail : string := "  </body>" +++ nl +++ "</opml>".

(** *** Counting elements in the text *)

(** The number of places of [s] at which [marker] starts. *)
Fixpoint count_occurrences (marker s : string) : nat :=
  (if prefix marker s then 1 else 0)
  + match s with
    | EmptyString => 0
    | String _ rest => count_occurrences marker rest
    end.

(** How a leaf element, a folder start tag and a folder end tag begin. *)
Definition feed_marker : string := "<outline type=" +++ dq +++ "rss" +++ dq.
Definition folder_marker : string := "<outline text=".
Definition end_marker : string := "</outline>".

(** The three markers. *)
Definition markers : list string := [feed_marker; folder_marker; end_marker].

(** Every occurrence of [marker] that starts in the text [fixed] is settled
    by [fixed] alone, whatever text follows it: at each place the marker is
    there in full, or a character differs. *)
Fixpoint decided (marker fixed : string) : bool :=
  match fixed with
  | EmptyString => true
  | String _ rest =>
      (prefix marker fixed || negb (prefix fixed marker)) && decided marker rest
  end.

(** The text has no [<]. *)
Definition no_angle (s : string) : Prop :=
  ~ In "<"%char (list_ascii_of_string s).

(** The same as a test. *)
Definition angle_free (s : string) : bool :=
  negb (existsb (Ascii.eqb "<"%char) (list_ascii_of_string s)).

(** What the serializer writes of the subscription has no [<]: its name,
    its URL and its folder. *)
Definition plain (L : Library) (sub : Subscription) : Prop :=
  no_angle (py_str L (name sub)) /\
  no_angle (py_str L (url sub)) /\
  no_angle (py_str L (folder_of sub)).

(** The marker an element starts with, after its indentation. *)
Definition marker_of (e : element) : string :=
  match e with
  | FolderOpen _ => folder_marker
  | Leaf _ => feed_marker
  | FolderClose => end_marker
  end.

(** The values copied into the element have no [<]. *)
Definition plain_element (L : Library) (e : element) : Prop :=
  match e with
  | FolderOpen folder => no_angle (py_str L folder)
  | Leaf sub => no_angle (py_str L (name sub)) /\ no_angle (py_str L (url sub))
  | FolderClose => True
  end.

(** The element is the start tag of a folder. *)
Definition is_folder_start (e : element) : bool :=
  match e with
  | FolderOpen _ => true
  | _ => false
  end.

(** The element is the end tag of a folder. *)
Definition is_folder_end (e : element) : bool :=
  match e with
  | FolderClose => true
  | _ => false
  end.

(** The tags of folder elements. *)
Inductive tag : Type :=
| StartTag
| EndTag.

(** The folder tags of a text, in the order in which they start. *)
Fixpoint folder_tags (s : string) : list tag :=
  (if prefix folder_marker s then [StartTag]
   else if prefix end_marker s then [EndTag]
   else [])
  ++ match s with
     | EmptyString => []
     | String _ rest => folder_tags rest
     end.

(** The folder tags an element is. *)
Definition element_tags (e : element) : list tag :=
  match e with
  | FolderOpen _ => [StartTag]
  | Leaf _ => []
  | FolderClose => [EndTag]
  end.

(** The folder tags of a bucket: a start tag and then an end tag, unless
    the bucket is the reserved one. *)
Definition bucket_tags (bucket : dict_key * json * list Subscription) : list tag :=
  if reserved bucket then [] else [StartTag; EndTag].

(** *** The configuration *)

Definition required_vars : list string :=
  ["OMNIVORE_API_TOKEN"; "OMNIVORE_HOST"; "OMNIVORE_GRAPH_QL_PATH"].

(** A variable that is missing or empty. *)
Definition unset (W : World) (var : string) : bool :=
  negb (truthy_opt (getenv W var)).

(** [s.isspace()] for one character of ASCII white space. *)
Definition is_space (c : ascii) : bool :=
  match nat_of_ascii c with
  | 9%nat | 10%nat | 11%nat | 12%nat | 13%nat | 32%nat => true
  | _ => false
  end.

(** A variable that is missing, empty or made of white space only. *)
Definition blank (W : World) (var : string) : bool :=
  match getenv W var with
  | None => true
  | Some s => forallb is_space (list_ascii_of_string s)
  end.

(** *** The mapping step *)

(** A timestamp field of a record against the value the item has under the
    key: absent when that value is false, else the value is a string and
    the field is what [fromisoformat] makes of it with each [Z] spelled as
    the offset [+00:00]. *)
Definition parsed_from (L : Library) (source : json) (field : option datetime) : Prop :=
  (Json.truthy source = false /\ field = None) \/
  (exists s d,
      source = JStr s /\
      fromisoformat L (replace_char "Z"%char "+00:00" s) = Ok d /\
      field = Some d).

(** A record against the item it was made from. *)
Definition mapped_from (L : Library) (item : json) (sub : Subscription) : Prop :=
  exists fields,
    item = JDict fields /\
    parsed_from L (match lookup "createdAt" fields with Some v => v | None => JNull end)
                (created_at sub) /\
    parsed_from L (match lookup "lastFetchedAt" fields with Some v => v | None => JNull end)
                (last_fetched_at sub) /\
    parsed_from L (match lookup "refreshedAt" fields with Some v => v | None => JNull end)
                (refreshed_at sub) /\
    parsed_from L (match lookup "failedAt" fields with Some v => v | None => JNull end)
                (failed_at sub).

(** A value the mapping step takes for a timestamp: one that is false, or a
    string that [fromisoformat] parses once each [Z] is spelled [+00:00]. *)
Definition timestamp_value (L : Library) (v : json) : Prop :=
  Json.truthy v = false \/
  exists s d, v = JStr s /\ fromisoformat L (replace_char "Z"%char "+00:00" s) = Ok d.

(** The keys of the four timestamps. *)
Definition timestamp_keys : list string :=
  ["createdAt"; "lastFetchedAt"; "refreshedAt"; "failedAt"].

(** An item the mapping step can make a record of: an object with a name,
    of any type, and four timestamp values; the other fields are free. *)
Definition mappable (L : Library) (item : json) : Prop :=
  exists fields,
    item = JDict fields /\
    lookup "name" fields <> None /\
    forall key, In key timestamp_keys ->
      timestamp_value L (match lookup key fields with Some v => v | None => JNull end).

(** The request [get_subscriptions] sends. *)
Definition the_request (self : OmnivoreClient) : Http.request :=
  {| Http.req_url := base_url self;
     Http.req_headers := headers self;
     Http.req_json := JDict [("query", JStr query)] |}.

(** *** The console *)

(** The effects [s] with [lines] printed after it. *)
Definition printed (s : effects) (lines : list string) : effects :=
  {| stdout := stdout s ++ lines; sent := sent s;
     files := files s; clock_reads := clock_reads s |}.

(** A computation that prints [lines], returns, and does nothing else. *)
Definition prints (m : IO unit) (lines : list string) : Prop :=
  forall s, m s = (printed s lines, Ok tt).

(** The effects [s] with [req] sent after it. *)
Definition requested (s : effects) (req : Http.request) : effects :=
  {| stdout := stdout s; sent := sent s ++ [req];
     files := files s; clock_reads := clock_reads s |}.

(** The line the Reporter opens the summary of a subscription with. *)
Definition name_line (L : Library) (sub : Subscription) : string :=
  nl +++ "Name: " +++ py_str L (name sub).

(** *** The trace of a run *)

(** The effects [s] after one more reading of the clock. *)
Definition ticked (s : effects) : effects :=
  {| stdout := stdout s; sent := sent s; files := files s;
     clock_reads := S (clock_reads s) |}.

(** The effects [s] with one more file written. *)
Definition wrote (s : effects) (filename content : string) : effects :=
  {| stdout := stdout s; sent := sent s;
     files := files s ++ [(filename, content)];
     clock_reads := clock_reads s |}.

(** What the fetcher prints about an answer: the status code, and for a
    code other than 200 the headers and the start of the body. *)
Definition status_lines (L : Library) (response : Http.response) : list string :=
  ("Status Code: " +++ str_int (Http.status_code response))
  :: (if Http.status_code response =? 200 then []
      else [ "Response Headers: " +++ str_headers L (Http.headers response);
             "Response Text: " +++ Text.take 500 (Http.text response) +++ "..." ]).

(** The line for a field printed when its value is true. *)
Definition text_line (L : Library) (label : string) (value : json) : list string :=
  if Json.truthy value then [label +++ py_str L value] else [].

(** The line for a field printed when its value is not [None]. *)
Definition set_line (L : Library) (label : string) (value : json) : list string :=
  match value with
  | JNull => []
  | _ => [label +++ py_str L value]
  end.

(** The line for a timestamp: printed when the timestamp is there. *)
Definition date_line (L : Library) (label : string) (value : option datetime) : list string :=
  match value with
  | Some d => [label +++ strftime L d "%Y-%m-%d"]
  | None => []
  end.

(** The summary of one subscription. *)
Definition report_lines (L : Library) (sub : Subscription) : list string :=
  name_line L sub
  :: text_line L "URL: " (url sub)
  ++ text_line L "Folder: " (folder sub)
  ++ text_line L "Description: " (description sub)
  ++ text_line L "Newsletter email: " (newsletter_email sub)
  ++ date_line L "Created at: " (created_at sub)
  ++ date_line L "Last fetched at: " (last_fetched_at sub)
  ++ date_line L "Refreshed at: " (refreshed_at sub)
  ++ set_line L "Count: " (count sub)
  ++ text_line L "Icon: " (icon sub)
  ++ set_line L "Is private: " (is_private sub)
  ++ set_line L "Auto add to library: " (auto_add_to_library sub)
  ++ set_line L "Fetch content: " (fetch_content sub)
  ++ date_line L "Failed at: " (failed_at sub).

(** The line the filter stage prints about [dropped] subscriptions. *)
Definition filtered_line (dropped : nat) : string :=
  nl +++ "Filtered out " +++ str_int (Z.of_nat dropped) +++ " never-fetched subscriptions".

Definition found_line (n : nat) : string :=
  nl +++ "Found " +++ str_int (Z.of_nat n) +++ " RSS subscriptions:".

(** The name of the output file, given the clock reading it is stamped
    with. *)
Definition output_name (L : Library) (now : datetime) : string :=
  "omnivore_rss_export_" +++ strftime L now "%Y%m%d" +++ ".opml".

(** Every required variable has a non-empty value. *)
Definition configured (W : World) : Prop :=
  forall var, In var required_vars -> unset W var = false.

(** The client [main] builds from the environment. *)
Definition client_of (W : World) : OmnivoreClient :=
  new_client (checked (getenv W "OMNIVORE_API_TOKEN"))
             (checked (getenv W "OMNIVORE_HOST"))
             (checked (getenv W "OMNIVORE_GRAPH_QL_PATH")).

(** *** Scalar fields *)

(** What [sub.get(key)] gives for an item with these fields. *)
Definition value_under (key : string) (fields : list (string * json)) : json :=
  match lookup key fields with
  | Some v => v
  | None => JNull
  end.

(** ** Sample inputs *)

Module Sample.

(** 2024-01-01T00:00:00, in microseconds from 0001-01-01T00:00:00. *)
Definition new_year_2024 : Z := 738885 * 86400 * 1000000.

Definition utc (wall : Z) : datetime := {| wall := wall; utcoffset := Some 0 |}.
Definition naive (wall : Z) : datetime := {| wall := wall; utcoffset := None |}.

(** An optional text as the answer holds it: the string, or [None]. *)
Definition text (value : option string) : json :=
  match value with
  | Some s => JStr s
  | None => JNull
  end.

(** A record with the fields the filter and the serializer look at. *)
Definition feed (name : string) (url folder : option string)
    (created fetched : option datetime) : Subscription :=
  {| name := JStr name; url := text url; folder := text folder;
     created_at := created; last_fetched_at := fetched;
     description := JNull; newsletter_email := JNull; refreshed_at := None;
     count := JNull; icon := JNull; is_private := JNull;
     auto_add_to_library := JNull; fetch_content := JNull; failed_at := None |}.

(** Created and fetched five seconds later. *)
Definition tech_news : Subscription :=
  feed "Tech News" (Some "https://example.com/feed") (Some "News")
       (Some (utc new_year_2024)) (Some (utc (new_year_2024 + 5000000))).

(** Fetched a day after its creation. *)
Definition daily : Subscription :=
  feed "Daily" (Some "https://example.com/daily") (Some "News")
       (Some (utc new_year_2024)) (Some (utc (new_year_2024 + 86400000000))).

(** Created and fetched at the same instant. *)
Definition just_added : Subscription :=
  feed "Just added" (Some "https://example.com/new") None
       (Some (utc new_year_2024)) (Some (utc new_year_2024)).

(** A newsletter: no URL, and a name with reserved XML characters. *)
Definition newsletter : Subscription :=
  feed "News & <Views>" None None
       (Some (utc new_year_2024)) (Some (utc (new_year_2024 + 86400000000))).

(** A naive creation time next to an aware fetch time. *)
Definition mixed : Subscription :=
  feed "Mixed" (Some "https://example.com/mixed") None
       (Some (naive new_year_2024)) (Some (utc new_year_2024)).

(** Folders A, none, A, B. *)
Definition four_feeds : list Subscription :=
  [ feed "a1" (Some "https://a.example/1") (Some "A") None None;
    feed "u1" (Some "https://u.example/1") None None None;
    feed "a2" (Some "https://a.example/2") (Some "A") None None;
    feed "b1" (Some "https://b.example/1") (Some "B") None None ].

(** A library for the samples: it parses the two timestamps they use,
    formats every date as the second of January 2024, and abbreviates what
    it dumps. *)
Definition library : Library :=
  {| fromisoformat := fun s =>
       if String.eqb s "2024-01-01T00:00:00+00:00" then Ok (utc new_year_2024)
       else if String.eqb s "2024-01-01T00:00:05+00:00"
            then Ok (utc (new_year_2024 + 5000000))
            else Raise (ValueError ("Invalid isoformat string: '" +++ s +++ "'"));
     strftime := fun _ format =>
       if String.eqb format "%Y%m%d" then "20240102" else "2024-01-02";
     json_dumps := fun _ => "[...]";
     str_json := fun _ => "[...]";
     str_headers := fun _ => "{...}" |}.

(** The item of the scenario of the specification. *)
Definition tech_news_item : json :=
  JDict [ ("name", JStr "Tech News");
          ("url", JStr "https://example.com/feed");
          ("folder", JStr "News");
          ("createdAt", JStr "2024-01-01T00:00:00Z");
          ("lastFetchedAt", JStr "2024-01-01T00:00:05Z") ].

Definition success_body (items : list json) : json :=
  JDict [("data", JDict [("subscriptions", JDict [("subscriptions", JList items)])])].

Definition answer (status : Z) (reason : string) (text : string)
    (decoded : string + json) : Http.response :=
  {| Http.status_code := status; Http.reason := reason;
     Http.url := "https://api.example.com/api/graphql";
     Http.headers := [("Content-Type", "application/json")];
     Http.text := text; Http.decoded := decoded |}.

(** A world with the three variables set as given and a server that always
    gives the same answer. *)
Definition world (token host graphql_path : option string) (flag : bool)
    (response : Http.response) : World :=
  {| getenv := fun var =>
       if String.eqb var "OMNIVORE_API_TOKEN" then token
       else if String.eqb var "OMNIVORE_HOST" then host
       else if String.eqb var "OMNIVORE_GRAPH_QL_PATH" then graphql_path
       else None;
     args_exclude_unfetched := flag;
     clock := fun _ => utc (new_year_2024 + 86400000000);
     network := fun _ => inr response;
     open_error := fun _ => None |}.

Definition configured (flag : bool) (response : Http.response) : World :=
  world (Some "secret") (Some "api.example.com") (Some "/api/graphql") flag response.

Definition client : OmnivoreClient := new_client "secret" "api.example.com" "/api/graphql".

Definition ok_answer (items : list json) : Http.response :=
  answer 200 "OK" "{...}" (inr (success_body items)).

(** A 304 answer whose body is a well-formed, empty result. *)
Definition not_modified : Http.response :=
  answer 304 "Not Modified" "{...}" (inr (success_body [])).

Definition not_found : Http.response :=
  answer 404 "Not Found" "<html>no such page</html>" (inl "Expecting value").

(** A 200 answer with a top-level [errors] field next to the data. *)
Definition refused : Http.response :=
  answer 200 "OK" "{...}"
    (inr (JDict [ ("errors", JList [JDict [("message", JStr "Unauthorized")]]);
                  ("data", JDict [("subscriptions",
                                   JDict [("errorCodes", JList [JStr "UNAUTHORIZED"])])]) ])).

(** [OMNIVORE_HOST] is missing. *)
Definition no_host : World :=
  world (Some "secret") None (Some "/api/graphql") false (ok_answer []).

(** [OMNIVORE_HOST] is a single space. *)
Definition blank_host : World :=
  world (Some "secret") (Some " ") (Some "/api/graphql") false (ok_answer []).

End Sample.

(** ** More sample inputs *)

Module Case.

(** A world whose network is down. *)
Definition offline : World :=
  {| getenv := getenv (Sample.configured false (Sample.ok_answer []));
     args_exclude_unfetched := false;
     clock := fun _ => Sample.utc Sample.new_year_2024;
     network := fun _ => inl "Connection refused";
     open_error := fun _ => None |}.

(** A 200 answer whose body is a page of HTML. *)
Definition garbled : Http.response :=
  Sample.answer 200 "OK" "<html>maintenance</html>" (inl "Expecting value").

(** An item whose creation time is a number of milliseconds. *)
Definition epoch_item : list (string * json) :=
  [ ("name", JStr "Epoch"); ("createdAt", JInt 1704067200000) ].

(** A subscription in a folder of its own and without a URL. *)
Definition paper : Subscription :=
  Sample.feed "Paper" None (Some "Print") None None.

(** A subscription that counts no item and is not private. *)
Definition unread : Subscription :=
  {| name := JStr "Unread"; url := JStr EmptyString; folder := JNull;
     created_at := None; last_fetched_at := None;
     description := JNull; newsletter_email := JNull; refreshed_at := None;
     count := JInt 0; icon := JNull; is_private := JBool false;
     auto_add_to_library := JNull; fetch_content := JNull; failed_at := None |}.

(** Two feeds without a folder. *)
Definition pair : list Subscription :=
  [ Sample.feed "x" (Some "https://example.com/x") None None None;
    Sample.feed "y" (Some "https://example.com/y") None None None ].

(** One subscription whose URL ends the attribute and the element it is
    written in, and goes on with the start of a second element. *)
Definition forged : Subscription :=
  Sample.feed "x"
    (Some ("https://example.com/x" +++ dq +++ "/>" +++ nl
             +++ "      <outline type=" +++ dq +++ "rss" +++ dq
             +++ " text=" +++ dq +++ "y" +++ dq
             +++ " title=" +++ dq +++ "y" +++ dq
             +++ " xmlUrl=" +++ dq +++ "https://example.com/y"))
    None None None.

(** An item whose count is a string and whose name is a number. *)
Definition loose_item : json :=
  JDict [ ("name", JInt 42);
          ("url", JStr "https://example.com/loose");
          ("count", JStr "7") ].

(** The record Python makes of it. *)
Definition loose : Subscription :=
  {| name := JInt 42; url := JStr "https://example.com/loose"; folder := JNull;
     created_at := None; last_fetched_at := None;
     description := JNull; newsletter_email := JNull; refreshed_at := None;
     count := JStr "7"; icon := JNull; is_private := JNull;
     auto_add_to_library := JNull; fetch_content := JNull; failed_at := None |}.

(** A subscription whose folder is a list of tags. *)
Definition tagged : Subscription :=
  {| name := JStr "Tagged"; url := JStr "https://example.com/tagged";
     folder := JList [JStr "a"; JStr "b"];
     created_at := None; last_fetched_at := None;
     description := JNull; newsletter_email := JNull; refreshed_at := None;
     count := JNull; icon := JNull; is_private := JNull;
     auto_add_to_library := JNull; fetch_content := JNull; failed_at := None |}.

End Case.

(* ================================================================== *)
(** * Part III. Properties                                             *)
(* ================================================================== *)

(** ** The result type *)

Lemma rbind_Ok {A B : Type} (m : result A) (k : A -> result B) (b : B) :
  rbind m k = Ok b -> exists a, m = Ok a /\ k a = Ok b.
Proof.
  destruct m as [e | a]; simpl; intros H.
  - discriminate H.
  - exists a. split; [reflexivity | exact H].
Qed.

Ltac rbind_inv H :=
  let a := fresh "a" in
  let Ha := fresh "Ha" in
  apply rbind_Ok in H; destruct H as (a & Ha & H).

(** ** The filter *)

Lemma sub_self_instant (a b : datetime) :
  Datetime.eqb a b = true -> Datetime.sub b a = Ok 0.
Proof.
  unfold Datetime.eqb, Datetime.sub.
  destruct (utcoffset a) as [oa |], (utcoffset b) as [ob |]; try discriminate.
  - intros H. apply Z.eqb_eq in H. f_equal. lia.
  - intros H. apply Z.eqb_eq in H. f_equal. lia.
Qed.

Lemma sub_defined (a b : datetime) :
  (utcoffset b = None <-> utcoffset a = None) -> exists gap, Datetime.sub a b = Ok gap.
Proof.
  unfold Datetime.sub.
  destruct (utcoffset a) as [oa |], (utcoffset b) as [ob |]; intros [H1 H2]; eauto.
  - specialize (H1 eq_refl). discriminate.
  - specialize (H2 eq_refl). discriminate.
Qed.

Lemma dropped_iff (sub : Subscription) :
  dropped sub <-> last_fetched_at sub = None \/ fetched_within_a_minute sub.
Proof.
  unfold dropped, fetched_within_a_minute, fetched_since_creation, abs_total_seconds_lt.
  destruct (last_fetched_at sub) as [fetched |]; [| split; auto].
  destruct (created_at sub) as [created |].
  - destruct (Datetime.sub fetched created) as [e | gap] eqn:Hgap; unfold rbind.
    + split; [discriminate |].
      intros [H | (c & f & g & Hc & Hf & Hg & _)]; [discriminate |].
      inversion Hc; inversion Hf; subst c f. rewrite Hgap in Hg. discriminate.
    + split.
      * intros H. right. exists created, fetched, gap.
        split; [reflexivity |]. split; [reflexivity |]. split; [exact Hgap |].
        apply Z.ltb_lt.
        destruct (Z.abs gap <? 60 * microseconds_per_second); [reflexivity | discriminate].
      * intros [H | (c & f & g & Hc & Hf & Hg & Hlt)]; [discriminate |].
        inversion Hc; inversion Hf; subst c f. rewrite Hgap in Hg.
        inversion Hg; subst g.
        apply Z.ltb_lt in Hlt. rewrite Hlt. reflexivity.
  - split; [discriminate |].
    intros [H | (c & f & g & Hc & _)]; discriminate.
Qed.

Lemma same_instant_dropped (sub : Subscription) (created fetched : datetime) :
  created_at sub = Some created ->
  last_fetched_at sub = Some fetched ->
  Datetime.eqb created fetched = true ->
  dropped sub.
Proof.
  intros Hc Hf Heq. apply dropped_iff. right.
  exists created, fetched, 0.
  split; [exact Hc |]. split; [exact Hf |]. split.
  - apply sub_self_instant. exact Heq.
  - unfold microseconds_per_second. simpl. lia.
Qed.

(** The comprehension is [List.filter] wherever every test has a value. *)
Lemma filter_unfetched_Ok (subscriptions kept : list Subscription) :
  filter_unfetched subscriptions = Ok kept ->
  Forall (fun sub => exists b, fetched_since_creation sub = Ok b) subscriptions /\
  kept = filter (fun sub => match fetched_since_creation sub with
                            | inr true => true
                            | _ => false
                            end) subscriptions.
Proof.
  revert kept. induction subscriptions as [| sub rest IH]; simpl; intros kept H.
  - inversion H. split; [constructor | reflexivity].
  - rbind_inv H. rename a into keep. rbind_inv H. rename a into kept'.
    destruct (IH kept' Ha0) as [Hall Hkept].
    inversion H; subst kept. split.
    + constructor; [exists keep; assumption | assumption].
    + rewrite Ha. destruct keep; subst kept'; reflexivity.
Qed.

Lemma filter_unfetched_member (subscriptions kept : list Subscription) (sub : Subscription) :
  filter_unfetched subscriptions = Ok kept ->
  (In sub kept <-> In sub subscriptions /\ ~ dropped sub).
Proof.
  intros H. apply filter_unfetched_Ok in H. destruct H as [Hall ->].
  rewrite filter_In. rewrite Forall_forall in Hall. unfold dropped.
  split; intros [Hin Hk]; split; try assumption.
  - intros Hd. rewrite Hd in Hk. discriminate Hk.
  - destruct (Hall sub Hin) as [[] Hb]; rewrite Hb in *; [reflexivity | contradiction].
Qed.

Lemma filter_stage_result (W : World) (subscriptions : list Subscription) (s : effects) :
  snd (filter_stage W subscriptions s) =
  if args_exclude_unfetched W then filter_unfetched subscriptions else Ok subscriptions.
Proof.
  unfold filter_stage. destruct (args_exclude_unfetched W); [| reflexivity].
  unfold bind, lift, print_if, ret.
  destruct (filter_unfetched subscriptions) as [e | kept]; [reflexivity |].
  destruct (0 <? _); reflexivity.
Qed.

(** C1. With [--exclude-unfetched] set, the filter takes a subscription out
    exactly when its [last_fetched_at] is absent, or both timestamps are
    present and less than 60 seconds apart; a subscription created and last
    fetched at the same instant is always taken out. *)
Theorem filter_drops_exactly_the_unfetched (sub : Subscription) :
  (dropped sub <-> last_fetched_at sub = None \/ fetched_within_a_minute sub) /\
  (forall created fetched,
      created_at sub = Some created ->
      last_fetched_at sub = Some fetched ->
      Datetime.eqb created fetched = true ->
      dropped sub) /\
  (forall W subscriptions s kept,
      args_exclude_unfetched W = true ->
      snd (filter_stage W subscriptions s) = Ok kept ->
      (In sub kept <-> In sub subscriptions /\ ~ dropped sub)).
Proof.
  split; [apply dropped_iff |].
  split; [apply same_instant_dropped |].
  intros W subscriptions s kept Hflag H.
  rewrite filter_stage_result, Hflag in H.
  apply filter_unfetched_member. exact H.
Qed.

Lemma filter_unfetched_fixed (kept : list Subscription) :
  Forall (fun sub => fetched_since_creation sub = Ok true) kept ->
  filter_unfetched kept = Ok kept.
Proof.
  induction 1 as [| sub rest Hsub _ IH]; simpl.
  - reflexivity.
  - rewrite Hsub, IH. reflexivity.
Qed.

Lemma filter_unfetched_survivors (subscriptions kept : list Subscription) :
  filter_unfetched subscriptions = Ok kept ->
  Forall (fun sub => fetched_since_creation sub = Ok true) kept.
Proof.
  intros H. apply filter_unfetched_Ok in H. destruct H as [_ ->].
  apply Forall_forall. intros sub Hin. apply filter_In in Hin.
  destruct Hin as [_ Hk].
  destruct (fetched_since_creation sub) as [e | []]; [discriminate | reflexivity | discriminate].
Qed.

Lemma filter_unfetched_twice (subscriptions : list Subscription) :
  rbind (filter_unfetched subscriptions) filter_unfetched = filter_unfetched subscriptions.
Proof.
  destruct (filter_unfetched subscriptions) as [e | kept] eqn:H; simpl.
  - reflexivity.
  - apply filter_unfetched_fixed. eapply filter_unfetched_survivors. exact H.
Qed.

(** C9. The filter is idempotent: filtering the filtered list gives the
    filtered list, for the comprehension and for the filter stage of
    [main] under either setting of the flag. *)
Theorem filter_idempotent (subscriptions : list Subscription) :
  rbind (filter_unfetched subscriptions) filter_unfetched = filter_unfetched subscriptions /\
  (forall W s,
      snd (bind (filter_stage W subscriptions) (filter_stage W) s) =
      snd (filter_stage W subscriptions s)).
Proof.
  split; [apply filter_unfetched_twice |].
  intros W s. unfold bind.
  pose proof (filter_stage_result W subscriptions s) as H1.
  destruct (filter_stage W subscriptions s) as [s' [e | kept]]; simpl in *.
  - reflexivity.
  - rewrite filter_stage_result.
    destruct (args_exclude_unfetched W); [| reflexivity].
    symmetry in H1. apply filter_unfetched_survivors in H1.
    apply filter_unfetched_fixed. exact H1.
Qed.

Lemma filter_subsequence {A : Type} (p : A -> bool) (xs : list A) :
  subsequence (filter p xs) xs.
Proof.
  induction xs as [| x xs IH]; simpl.
  - constructor.
  - destruct (p x); constructor; exact IH.
Qed.

Lemma comparable_tested (sub : Subscription) :
  comparable sub -> exists b, fetched_since_creation sub = Ok b.
Proof.
  unfold comparable, fetched_since_creation.
  destruct (last_fetched_at sub) as [fetched |]; [| eauto].
  destruct (created_at sub) as [created |]; [| eauto].
  intros H. destruct (sub_defined fetched created H) as [gap ->]. simpl. eauto.
Qed.

Lemma filter_unfetched_total (subscriptions : list Subscription) :
  Forall comparable subscriptions -> exists kept, filter_unfetched subscriptions = Ok kept.
Proof.
  induction 1 as [| sub rest Hsub _ [kept IH]]; simpl.
  - eauto.
  - destruct (comparable_tested sub Hsub) as [b ->]. rewrite IH. simpl. eauto.
Qed.

(** C10. The output of the filter is a subsequence of its input: the
    surviving records are records of the input, unchanged, in their
    original order, none repeated and none added.  The filter has an output
    whenever no record pairs a naive timestamp with an aware one. *)
Theorem filter_output_is_subsequence (subscriptions : list Subscription) :
  (Forall comparable subscriptions -> exists kept, filter_unfetched subscriptions = Ok kept) /\
  (forall kept, filter_unfetched subscriptions = Ok kept -> subsequence kept subscriptions).
Proof.
  split; [apply filter_unfetched_total |].
  intros kept H. apply filter_unfetched_Ok in H. destruct H as [_ ->].
  apply filter_subsequence.
Qed.

(** ** The grouper *)

Lemma key_eqb_spec (a b : dict_key) : reflect (a = b) (key_eqb a b).
Proof.
  destruct a as [| s | m e], b as [| t | n f]; simpl;
    try (constructor; congruence).
  - destruct (String.eqb_spec s t); constructor; congruence.
  - destruct (Z.eqb_spec m n), (Z.eqb_spec e f); simpl; constructor; congruence.
Qed.

Lemma key_eqb_refl (a : dict_key) : key_eqb a a = true.
Proof. destruct (key_eqb_spec a a); congruence. Qed.

Lemma key_eq_dec (a b : dict_key) : {a = b} + {a <> b}.
Proof. destruct (key_eqb_spec a b); [left | right]; assumption. Qed.

Lemma first_seen_In (k : dict_key) (keys : list dict_key) :
  In k (first_seen keys) <-> In k keys.
Proof.
  induction keys as [| a keys IH]; simpl; [tauto |].
  rewrite filter_In, IH.
  destruct (key_eqb_spec k a) as [-> | Hne].
  - tauto.
  - split.
    + intros [H | [H _]]; auto.
    + intros [H | H]; [congruence |]. right. split; [exact H | reflexivity].
Qed.

Lemma first_seen_NoDup (keys : list dict_key) : NoDup (first_seen keys).
Proof.
  induction keys as [| a keys IH]; simpl; constructor.
  - rewrite filter_In. intros [_ H]. rewrite key_eqb_refl in H. discriminate.
  - apply NoDup_filter. exact IH.
Qed.

(** A key seen again changes nothing; a new key goes last. *)
Lemma first_seen_snoc (k : dict_key) (keys : list dict_key) :
  first_seen (keys ++ [k]) =
  if in_dec key_eq_dec k keys then first_seen keys else first_seen keys ++ [k].
Proof.
  induction keys as [| a keys IH]; simpl; [reflexivity |].
  rewrite IH. clear IH.
  destruct (key_eq_dec a k) as [-> | Hne].
  - destruct (in_dec key_eq_dec k keys) as [Hin | Hout]; [reflexivity |].
    rewrite filter_app. simpl. rewrite key_eqb_refl. simpl.
    rewrite app_nil_r. reflexivity.
  - destruct (in_dec key_eq_dec k keys) as [Hin | Hout]; [reflexivity |].
    rewrite filter_app. simpl.
    destruct (key_eqb_spec k a) as [Heq | _]; [congruence |]. reflexivity.
Qed.

(** The dict operations on a dict listed key by key. *)
Section Buckets.

Variable entry_of : dict_key -> json * list Subscription.

Let listed (keys : list dict_key) : Folders :=
  map (fun key => (key, fst (entry_of key), snd (entry_of key))) keys.

Lemma has_key_listed (k : dict_key) (keys : list dict_key) :
  has_key k (listed keys) = true <-> In k keys.
Proof.
  induction keys as [| a keys IH]; simpl; [split; [discriminate | tauto] |].
  rewrite orb_true_iff, IH.
  destruct (key_eqb_spec a k); split; intros [H | H]; auto; discriminate.
Qed.

Lemma getitem_listed (k : dict_key) (keys : list dict_key) :
  In k keys -> getitem k (listed keys) = Some (snd (entry_of k)).
Proof.
  induction keys as [| a keys IH]; simpl; [tauto |].
  destruct (key_eqb_spec a k) as [-> | Hne]; [reflexivity |].
  intros [H | H]; [contradiction | exact (IH H)].
Qed.

Lemma setitem_new (k : dict_key) (label : json) (bucket : list Subscription)
    (folders : Folders) :
  has_key k folders = false -> setitem k label bucket folders = folders ++ [(k, label, bucket)].
Proof.
  induction folders as [| [[a stored] old] rest IH]; simpl; [reflexivity |].
  destruct (key_eqb a k); simpl; [discriminate |].
  intros H. rewrite IH by exact H. reflexivity.
Qed.

Lemma getitem_last (k : dict_key) (label : json) (bucket : list Subscription)
    (folders : Folders) :
  has_key k folders = false -> getitem k (folders ++ [(k, label, bucket)]) = Some bucket.
Proof.
  induction folders as [| [[a stored] old] rest IH]; simpl.
  - rewrite key_eqb_refl. reflexivity.
  - destruct (key_eqb a k); simpl; [discriminate | exact IH].
Qed.

Lemma setitem_last (k : dict_key) (label other : json) (old bucket : list Subscription)
    (folders : Folders) :
  has_key k folders = false ->
  setitem k other bucket (folders ++ [(k, label, old)]) = folders ++ [(k, label, bucket)].
Proof.
  induction folders as [| [[a stored] b] rest IH]; simpl.
  - rewrite key_eqb_refl. reflexivity.
  - destruct (key_eqb a k); simpl; [discriminate |].
    intros H. rewrite IH by exact H. reflexivity.
Qed.

End Buckets.

Lemma setitem_listed (f g : dict_key -> json * list Subscription) (k : dict_key)
    (other : json) (keys : list dict_key) :
  NoDup keys ->
  In k keys ->
  fst (g k) = fst (f k) ->
  (forall key, key <> k -> g key = f key) ->
  setitem k other (snd (g k)) (map (fun key => (key, fst (f key), snd (f key))) keys)
  = map (fun key => (key, fst (g key), snd (g key))) keys.
Proof.
  intros Hnd Hin Hlabel Hother.
  induction Hnd as [| a keys Ha Hnd IH]; simpl; [contradiction |].
  destruct (key_eqb_spec a k) as [-> | Hne].
  - rewrite Hlabel. f_equal. apply map_ext_in. intros key Hkey.
    rewrite Hother; [reflexivity |]. intros ->. contradiction.
  - rewrite (Hother a Hne). f_equal. apply IH.
    destruct Hin as [H | H]; [contradiction | exact H].
Qed.

Lemma bucket_snoc (key : dict_key) (done : list Subscription) (sub : Subscription) :
  filter (in_folder key) (done ++ [sub]) =
  filter (in_folder key) done ++ (if in_folder key sub then [sub] else []).
Proof.
  rewrite filter_app. simpl. destruct (in_folder key sub); reflexivity.
Qed.

Lemma bucket_empty (key : dict_key) (done : list Subscription) :
  ~ In key (map folder_key done) -> filter (in_folder key) done = [].
Proof.
  induction done as [| sub done IH]; simpl; [reflexivity |].
  intros H. unfold in_folder at 1.
  destruct (key_eqb_spec (folder_key sub) key) as [Heq | _]; [tauto |].
  apply IH. tauto.
Qed.

Lemma bucket_inhabited (key : dict_key) (done : list Subscription) :
  In key (map folder_key done) -> filter (in_folder key) done <> [].
Proof.
  intros H. apply in_map_iff in H. destruct H as (sub & Hkey & Hin).
  intros Hnil.
  assert (Hsub : In sub (filter (in_folder key) done)).
  { apply filter_In. split; [exact Hin |]. unfold in_folder. rewrite Hkey.
    apply key_eqb_refl. }
  rewrite Hnil in Hsub. exact Hsub.
Qed.

Lemma hashable_key (sub : Subscription) :
  hashable sub = true -> hash_key (folder_of sub) = Ok (folder_key sub).
Proof.
  unfold hashable, folder_key. destruct (hash_key (folder_of sub)); [discriminate | reflexivity].
Qed.

Lemma unhashable_raises (sub : Subscription) :
  hashable sub = false -> exists msg, hash_key (folder_of sub) = Raise (TypeError msg).
Proof.
  unfold hashable. destruct (folder_of sub); simpl; try discriminate; eauto.
Qed.

(** One turn of the grouping loop takes the partition of the records seen so
    far to the partition with the next record. *)
Lemma group_step_partition (L : Library) (done : list Subscription) (sub : Subscription) :
  hashable sub = true ->
  group_step L (partition_by_folder done) sub = Ok (partition_by_folder (done ++ [sub])).
Proof.
  intros Hhash. unfold group_step, partition_by_folder.
  fold (folder_of sub). rewrite (hashable_key sub Hhash). cbn [rbind Ok].
  set (k := folder_key sub).
  set (keys := first_seen (map folder_key done)).
  assert (Hown : in_folder k sub = true) by apply key_eqb_refl.
  assert (Hother : forall key, key <> k -> in_folder key sub = false).
  { intros key Hne. unfold in_folder. fold k.
    destruct (key_eqb_spec k key); congruence. }
  rewrite map_app. simpl map. fold k. rewrite first_seen_snoc. fold keys.
  set (f := fun key => (label_of key done, filter (in_folder key) done)).
  set (g := fun key => (label_of key (done ++ [sub]), filter (in_folder key) (done ++ [sub]))).
  change (map (fun key => (key, label_of key done, filter (in_folder key) done)) keys)
    with (map (fun key => (key, fst (f key), snd (f key))) keys).
  destruct (in_dec key_eq_dec k (map folder_key done)) as [Hin | Hout].
  - assert (Hk : In k keys) by (apply first_seen_In; exact Hin).
    rewrite (proj2 (has_key_listed f k keys) Hk). cbn [negb].
    rewrite (getitem_listed f k keys Hk).
    assert (Hb : snd (f k) ++ [sub] = snd (g k)).
    { unfold f, g. cbn [snd]. rewrite bucket_snoc, Hown. reflexivity. }
    rewrite Hb. f_equal.
    apply (setitem_listed f g).
    + apply first_seen_NoDup.
    + exact Hk.
    + unfold f, g, label_of. cbn [fst]. rewrite bucket_snoc, Hown.
      pose proof (bucket_inhabited k done Hin) as Hne.
      destruct (filter (in_folder k) done); [contradiction | reflexivity].
    + intros key Hne. unfold f, g, label_of.
      rewrite bucket_snoc, (Hother key Hne), app_nil_r. reflexivity.
  - assert (Hnew : ~ In k keys).
    { intros H. apply (proj1 (first_seen_In _ _)) in H. contradiction. }
    assert (Hk : has_key k (map (fun key => (key, fst (f key), snd (f key))) keys) = false).
    { destruct (has_key k _) eqn:H; [| reflexivity].
      apply has_key_listed in H. contradiction. }
    rewrite Hk. cbn [negb]. rewrite setitem_new by exact Hk.
    rewrite getitem_last by exact Hk. rewrite setitem_last by exact Hk.
    f_equal. rewrite map_app. cbn [map]. f_equal.
    + apply map_ext_in. intros key Hkey.
      assert (Hne : key <> k) by (intros ->; contradiction).
      unfold f, label_of. cbn [fst snd].
      rewrite bucket_snoc, (Hother key Hne), app_nil_r. reflexivity.
    + unfold label_of. rewrite bucket_snoc, Hown, bucket_empty by exact Hout.
      reflexivity.
Qed.

Lemma group_loop_partition (L : Library) (rest done : list Subscription) :
  Forall (fun sub => hashable sub = true) rest ->
  group_loop L rest (partition_by_folder done) = Ok (partition_by_folder (done ++ rest)).
Proof.
  intros Hall. revert done. induction Hall as [| sub rest Hsub _ IH]; intros done; simpl.
  - rewrite app_nil_r. reflexivity.
  - rewrite (group_step_partition L done sub Hsub). cbn [rbind Ok].
    rewrite IH, <- app_assoc. reflexivity.
Qed.

(** The grouping loop computes the partition. *)
Lemma group_by_folder_partition (L : Library) (subscriptions : list Subscription) :
  Forall (fun sub => hashable sub = true) subscriptions ->
  group_by_folder L subscriptions = Ok (partition_by_folder subscriptions).
Proof.
  exact (@group_loop_partition L subscriptions []).
Qed.

Lemma group_loop_unhashable (L : Library) (rest done : list Subscription) :
  ~ Forall (fun sub => hashable sub = true) rest ->
  exists msg, group_loop L rest (partition_by_folder done) = Raise (TypeError msg).
Proof.
  revert done. induction rest as [| sub rest IH]; intros done Hnot.
  - exfalso. apply Hnot. constructor.
  - simpl. destruct (hashable sub) eqn:Hsub.
    + rewrite (group_step_partition L done sub Hsub). cbn [rbind Ok].
      apply IH. intros Hrest. apply Hnot. constructor; assumption.
    + destruct (unhashable_raises sub Hsub) as [msg Hmsg].
      exists msg. unfold group_step. fold (folder_of sub). rewrite Hmsg. reflexivity.
Qed.

(** A list or an object in the place of a folder stops the grouping with
    Python's [TypeError]. *)
Lemma group_by_folder_unhashable (L : Library) (subscriptions : list Subscription) :
  ~ Forall (fun sub => hashable sub = true) subscriptions ->
  exists msg, group_by_folder L subscriptions = Raise (TypeError msg).
Proof.
  exact (@group_loop_unhashable L subscriptions []).
Qed.

Lemma all_hashable_dec (subscriptions : list Subscription) :
  {Forall (fun sub => hashable sub = true) subscriptions}
  + {~ Forall (fun sub => hashable sub = true) subscriptions}.
Proof.
  apply Forall_dec. intros sub. destruct (hashable sub); [left | right]; congruence.
Qed.

Lemma group_by_folder_Ok (L : Library) (subscriptions : list Subscription) (folders : Folders) :
  group_by_folder L subscriptions = Ok folders ->
  Forall (fun sub => hashable sub = true) subscriptions /\
  folders = partition_by_folder subscriptions.
Proof.
  intros H. destruct (all_hashable_dec subscriptions) as [Hall | Hnot].
  - split; [exact Hall |]. rewrite (@group_by_folder_partition L subscriptions Hall) in H.
    unfold Ok in H. congruence.
  - destruct (@group_by_folder_unhashable L subscriptions Hnot) as [msg Hmsg].
    rewrite Hmsg in H. discriminate H.
Qed.

(** ** Text *)

Lemma append_assoc (a b c : string) : (a +++ b) +++ c = a +++ b +++ c.
Proof.
  induction a as [| ch a IH]; simpl; [reflexivity | rewrite IH; reflexivity].
Qed.

Lemma append_nil_r (a : string) : a +++ EmptyString = a.
Proof.
  induction a as [| ch a IH]; simpl; [reflexivity | rewrite IH; reflexivity].
Qed.

Lemma occurs_refl (s : string) : occurs s s.
Proof. exists EmptyString, EmptyString. simpl. rewrite append_nil_r. reflexivity. Qed.

Lemma occurs_trans (a b c : string) : occurs a b -> occurs b c -> occurs a c.
Proof.
  intros (p1 & q1 & ->) (p2 & q2 & ->).
  exists (p2 +++ p1), (q1 +++ q2). rewrite !append_assoc. reflexivity.
Qed.

Lemma occurs_left (a b c : string) : occurs a b -> occurs a (b +++ c).
Proof.
  intros H. apply (occurs_trans H). exists EmptyString, c. reflexivity.
Qed.

Lemma occurs_right (a b c : string) : occurs a c -> occurs a (b +++ c).
Proof.
  intros H. apply (occurs_trans H). exists b, EmptyString.
  rewrite append_nil_r. reflexivity.
Qed.

Lemma prefix_append (a b : string) : prefix a (a +++ b) = true.
Proof.
  induction a as [| ch a IH]; simpl.
  - destruct b; reflexivity.
  - destruct (ascii_dec ch ch) as [_ | Hne]; [exact IH | contradiction].
Qed.

(** The substring test finds every occurrence. *)
Lemma occurs_contains (needle hay : string) :
  occurs needle hay -> Text.contains needle hay = true.
Proof.
  intros (p & q & ->). induction p as [| ch p IH].
  - simpl append. pose proof (prefix_append needle q) as H.
    destruct (needle +++ q); cbn -[prefix]; rewrite H; reflexivity.
  - simpl. rewrite IH. apply orb_true_r.
Qed.

(** ** Counting in a text put together from fixed and copied parts *)

Lemma prefix_settled (marker fixed rest : string) :
  prefix marker fixed = true -> prefix marker (fixed +++ rest) = true.
Proof.
  revert fixed. induction marker as [| a marker IH]; intros fixed.
  - intros _. destruct (fixed +++ rest); reflexivity.
  - destruct fixed as [| b fixed]; simpl; [discriminate |].
    destruct (ascii_dec a b); [apply IH | discriminate].
Qed.

Lemma prefix_differs (marker fixed rest : string) :
  prefix marker fixed = false -> prefix fixed marker = false ->
  prefix marker (fixed +++ rest) = false.
Proof.
  revert fixed. induction marker as [| a marker IH]; intros fixed.
  - destruct fixed; discriminate.
  - destruct fixed as [| b fixed]; simpl; [discriminate |].
    destruct (ascii_dec a b) as [-> | Hne]; [| reflexivity].
    destruct (ascii_dec b b) as [_ | Hne]; [apply IH | contradiction].
Qed.

Lemma count_occurrences_String (marker : string) (c : ascii) (s : string) :
  count_occurrences marker (String c s) =
  ((if prefix marker (String c s) then 1 else 0) + count_occurrences marker s)%nat.
Proof. reflexivity. Qed.

(** Occurrences in a fixed text count the same whatever follows it. *)
Lemma count_fixed (marker fixed rest : string) :
  marker <> EmptyString ->
  decided marker fixed = true ->
  count_occurrences marker (fixed +++ rest) =
  (count_occurrences marker fixed + count_occurrences marker rest)%nat.
Proof.
  intros Hmarker. induction fixed as [| c fixed IH]; intros Hd.
  - destruct marker; [contradiction | reflexivity].
  - cbn [append]. rewrite !count_occurrences_String.
    cbn [decided] in Hd. apply andb_true_iff in Hd. destruct Hd as [Hhere Hd].
    rewrite (IH Hd).
    change (String c (fixed +++ rest)) with (String c fixed +++ rest).
    apply orb_true_iff in Hhere. destruct Hhere as [Hyes | Hno].
    + rewrite (prefix_settled _ _ rest Hyes), Hyes. lia.
    + apply negb_true_iff in Hno.
      destruct (prefix marker (String c fixed)) eqn:Hp.
      * rewrite (prefix_settled _ _ rest Hp). lia.
      * rewrite (prefix_differs _ _ rest Hp Hno). lia.
Qed.

(** No marker starts in a text without [<]. *)
Lemma count_copied (marker copied rest : string) :
  In marker markers ->
  no_angle copied ->
  count_occurrences marker (copied +++ rest) = count_occurrences marker rest.
Proof.
  intros Hm. unfold no_angle. induction copied as [| c copied IH]; intros Hc.
  - reflexivity.
  - cbn [append]. rewrite count_occurrences_String.
    cbn [list_ascii_of_string In] in Hc.
    rewrite IH by tauto.
    assert (Hp : prefix marker (String c (copied +++ rest)) = false).
    { destruct Hm as [<- | [<- | [<- | []]]]; cbn [feed_marker folder_marker end_marker append prefix];
        (destruct (ascii_dec "<" c) as [Heq | _]; [exfalso; apply Hc; left; symmetry; exact Heq | reflexivity]). }
    rewrite Hp. reflexivity.
Qed.

Lemma angle_free_sound (s : string) : angle_free s = true -> no_angle s.
Proof.
  unfold angle_free, no_angle. intros H Hin.
  apply negb_true_iff in H.
  assert (Hex : existsb (Ascii.eqb "<"%char) (list_ascii_of_string s) = true).
  { apply existsb_exists. exists "<"%char. split; [exact Hin | apply Ascii.eqb_refl]. }
  congruence.
Qed.

Lemma marker_inhabited (marker : string) : In marker markers -> marker <> EmptyString.
Proof. intros [<- | [<- | [<- | []]]]; discriminate. Qed.

(** ** The text of the elements *)

Lemma folder_open_text (folder : string) : folder_open folder = folder_start folder.
Proof. unfold folder_open, folder_start, attribute. rewrite !append_assoc. reflexivity. Qed.

Lemma leaf_text (name url : string) : leaf name url = feed_element name url.
Proof. unfold leaf, feed_element, attribute. rewrite !append_assoc. reflexivity. Qed.

Lemma folder_close_text : folder_close = folder_end.
Proof. reflexivity. Qed.

Lemma folder_start_parts (label rest : string) :
  folder_start label +++ rest =
  ("    <outline text=" +++ dq) +++ label +++ (dq +++ " title=" +++ dq) +++ label
    +++ (dq +++ ">" +++ nl) +++ rest.
Proof. unfold folder_start, attribute. rewrite !append_assoc. reflexivity. Qed.

Lemma feed_element_parts (name url rest : string) :
  feed_element name url +++ rest =
  ("      <outline type=" +++ dq +++ "rss" +++ dq +++ " text=" +++ dq) +++ name
    +++ (dq +++ " title=" +++ dq) +++ name
    +++ (dq +++ " xmlUrl=" +++ dq) +++ url
    +++ (dq +++ "/>" +++ nl) +++ rest.
Proof. unfold feed_element, attribute. rewrite !append_assoc. reflexivity. Qed.

Lemma opml_head_parts (date rest : string) :
  opml_head date +++ rest =
  ("<?xml version=" +++ dq +++ "1.0" +++ dq +++ " encoding=" +++ dq +++ "UTF-8" +++ dq
     +++ "?>" +++ nl +++ "<opml version=" +++ dq +++ "2.0" +++ dq +++ ">" +++ nl
     +++ "  <head>" +++ nl +++ "    <title>Omnivore RSS Subscriptions Export - ")
    +++ date +++ ("</title>" +++ nl +++ "  </head>" +++ nl +++ "  <body>" +++ nl) +++ rest.
Proof. unfold opml_head. rewrite !append_assoc. reflexivity. Qed.

(** One fixed part of a text: its occurrences are counted on the spot. *)
Ltac fixed_part Hne part :=
  rewrite (@count_fixed _ part _ Hne) by reflexivity;
  match goal with
  | |- context [count_occurrences ?marker part] =>
      let n := eval vm_compute in (count_occurrences marker part) in
      change (count_occurrences marker part) with n
  end.

(** The head of the document holds no element. *)
Lemma count_head (marker date rest : string) :
  In marker markers ->
  no_angle date ->
  count_occurrences marker (opml_head date +++ rest) = count_occurrences marker rest.
Proof.
  intros Hm Hdate. pose proof (marker_inhabited Hm) as Hne.
  rewrite opml_head_parts. pose proof Hm as Hcase.
  destruct Hcase as [<- | [<- | [<- | []]]];
    fixed_part Hne
      ("<?xml version=" +++ dq +++ "1.0" +++ dq +++ " encoding=" +++ dq +++ "UTF-8" +++ dq
         +++ "?>" +++ nl +++ "<opml version=" +++ dq +++ "2.0" +++ dq +++ ">" +++ nl
         +++ "  <head>" +++ nl +++ "    <title>Omnivore RSS Subscriptions Export - ");
    rewrite (@count_copied _ _ _ Hm Hdate);
    fixed_part Hne ("</title>" +++ nl +++ "  </head>" +++ nl +++ "  <body>" +++ nl);
    reflexivity.
Qed.

(** Neither does its tail. *)
Lemma count_tail (marker : string) :
  In marker markers -> count_occurrences marker opml_tail = 0%nat.
Proof. intros [<- | [<- | [<- | []]]]; reflexivity. Qed.

(** An element whose values have no [<] holds its own marker once and no
    other marker. *)
Lemma count_element (L : Library) (marker : string) (e : element) (rest : string) :
  In marker markers ->
  plain_element L e ->
  count_occurrences marker (element_text L e +++ rest) =
  ((if String.eqb marker (marker_of e) then 1 else 0) + count_occurrences marker rest)%nat.
Proof.
  intros Hm Hplain. pose proof (marker_inhabited Hm) as Hne.
  destruct e as [folder | sub |]; cbn [element_text marker_of plain_element] in *.
  - rewrite folder_start_parts. pose proof Hm as Hcase.
    destruct Hcase as [<- | [<- | [<- | []]]];
      fixed_part Hne ("    <outline text=" +++ dq);
      rewrite (@count_copied _ _ _ Hm Hplain);
      fixed_part Hne (dq +++ " title=" +++ dq);
      rewrite (@count_copied _ _ _ Hm Hplain);
      fixed_part Hne (dq +++ ">" +++ nl);
      reflexivity.
  - destruct Hplain as [Hname Hurl]. rewrite feed_element_parts. pose proof Hm as Hcase.
    destruct Hcase as [<- | [<- | [<- | []]]];
      fixed_part Hne ("      <outline type=" +++ dq +++ "rss" +++ dq +++ " text=" +++ dq);
      rewrite (@count_copied _ _ _ Hm Hname);
      fixed_part Hne (dq +++ " title=" +++ dq);
      rewrite (@count_copied _ _ _ Hm Hname);
      fixed_part Hne (dq +++ " xmlUrl=" +++ dq);
      rewrite (@count_copied _ _ _ Hm Hurl);
      fixed_part Hne (dq +++ "/>" +++ nl);
      reflexivity.
  - unfold folder_end. pose proof Hm as Hcase.
    destruct Hcase as [<- | [<- | [<- | []]]];
      fixed_part Hne ("    </outline>" +++ nl);
      reflexivity.
Qed.

Lemma count_render (L : Library) (marker : string) (elements : list element) (rest : string) :
  In marker markers ->
  Forall (plain_element L) elements ->
  count_occurrences marker (render L elements +++ rest) =
  (length (filter (fun e => String.eqb marker (marker_of e)) elements)
   + count_occurrences marker rest)%nat.
Proof.
  intros Hm Hall. induction Hall as [| e elements He _ IH]; [reflexivity |].
  cbn [render filter]. rewrite append_assoc, (count_element L e _ Hm He), IH.
  destruct (String.eqb marker (marker_of e)); cbn [length]; lia.
Qed.

(** The markers of a document whose copied values have no [<], element by
    element. *)
Lemma count_document (L : Library) (marker date : string) (elements : list element) :
  In marker markers ->
  no_angle date ->
  Forall (plain_element L) elements ->
  count_occurrences marker (opml_head date +++ render L elements +++ opml_tail) =
  length (filter (fun e => String.eqb marker (marker_of e)) elements).
Proof.
  intros Hm Hdate Hall.
  rewrite (count_head _ Hm Hdate), (count_render _ Hm Hall), (count_tail Hm). lia.
Qed.

Lemma feed_marked (elements : list element) :
  length (filter (fun e => String.eqb feed_marker (marker_of e)) elements)
  = length (leaves elements).
Proof.
  induction elements as [| [folder | sub |] elements IH];
    cbn [filter leaves marker_of]; [reflexivity | | |].
  - change (String.eqb feed_marker folder_marker) with false. exact IH.
  - change (String.eqb feed_marker feed_marker) with true. cbn [length]. rewrite IH. reflexivity.
  - change (String.eqb feed_marker end_marker) with false. exact IH.
Qed.

Lemma folder_marked (elements : list element) :
  filter (fun e => String.eqb folder_marker (marker_of e)) elements
  = filter is_folder_start elements.
Proof. apply filter_ext. intros [folder | sub |]; reflexivity. Qed.

Lemma end_marked (elements : list element) :
  filter (fun e => String.eqb end_marker (marker_of e)) elements
  = filter is_folder_end elements.
Proof. apply filter_ext. intros [folder | sub |]; reflexivity. Qed.

(** ** The folder tags of a text put together from fixed and copied parts *)

Lemma prefix_decided (marker fixed rest : string) :
  prefix marker fixed || negb (prefix fixed marker) = true ->
  prefix marker (fixed +++ rest) = prefix marker fixed.
Proof.
  intros H. apply orb_true_iff in H. destruct H as [Hyes | Hno].
  - rewrite Hyes. apply prefix_settled. exact Hyes.
  - apply negb_true_iff in Hno. destruct (prefix marker fixed) eqn:Hp.
    + apply prefix_settled. exact Hp.
    + apply prefix_differs; assumption.
Qed.

Lemma folder_tags_fixed (fixed rest : string) :
  decided folder_marker fixed = true ->
  decided end_marker fixed = true ->
  folder_tags (fixed +++ rest) = folder_tags fixed ++ folder_tags rest.
Proof.
  induction fixed as [| c fixed IH]; intros Hs He; [reflexivity |].
  cbn [decided] in Hs, He.
  apply andb_true_iff in Hs. destruct Hs as [Hs Hs'].
  apply andb_true_iff in He. destruct He as [He He'].
  change (folder_tags (String c fixed +++ rest))
    with ((if prefix folder_marker (String c fixed +++ rest) then [StartTag]
           else if prefix end_marker (String c fixed +++ rest) then [EndTag]
           else []) ++ folder_tags (fixed +++ rest)).
  change (folder_tags (String c fixed))
    with ((if prefix folder_marker (String c fixed) then [StartTag]
           else if prefix end_marker (String c fixed) then [EndTag]
           else []) ++ folder_tags fixed).
  rewrite (prefix_decided _ _ rest Hs), (prefix_decided _ _ rest He), (IH Hs' He').
  rewrite app_assoc. reflexivity.
Qed.

Lemma folder_tags_copied (copied rest : string) :
  no_angle copied -> folder_tags (copied +++ rest) = folder_tags rest.
Proof.
  unfold no_angle. induction copied as [| c copied IH]; intros Hc; [reflexivity |].
  cbn [list_ascii_of_string In] in Hc.
  change (folder_tags (String c copied +++ rest))
    with ((if prefix folder_marker (String c (copied +++ rest)) then [StartTag]
           else if prefix end_marker (String c (copied +++ rest)) then [EndTag]
           else []) ++ folder_tags (copied +++ rest)).
  rewrite IH by tauto.
  cbn [folder_marker end_marker prefix].
  destruct (ascii_dec "<" c) as [Heq | _]; [| reflexivity].
  exfalso. apply Hc. left. symmetry. exact Heq.
Qed.

(** One fixed part of a text: its tags are found on the spot. *)
Ltac fixed_tags part :=
  rewrite (@folder_tags_fixed part _) by reflexivity;
  let found := eval vm_compute in (folder_tags part) in
  change (folder_tags part) with found.

Lemma folder_tags_head (date rest : string) :
  no_angle date -> folder_tags (opml_head date +++ rest) = folder_tags rest.
Proof.
  intros Hdate. rewrite opml_head_parts.
  fixed_tags
    ("<?xml version=" +++ dq +++ "1.0" +++ dq +++ " encoding=" +++ dq +++ "UTF-8" +++ dq
       +++ "?>" +++ nl +++ "<opml version=" +++ dq +++ "2.0" +++ dq +++ ">" +++ nl
       +++ "  <head>" +++ nl +++ "    <title>Omnivore RSS Subscriptions Export - ").
  rewrite (@folder_tags_copied _ _ Hdate).
  fixed_tags ("</title>" +++ nl +++ "  </head>" +++ nl +++ "  <body>" +++ nl).
  reflexivity.
Qed.

Lemma folder_tags_element (L : Library) (e : element) (rest : string) :
  plain_element L e ->
  folder_tags (element_text L e +++ rest) = element_tags e ++ folder_tags rest.
Proof.
  intros Hplain.
  destruct e as [folder | sub |]; cbn [element_text element_tags plain_element] in *.
  - rewrite folder_start_parts.
    fixed_tags ("    <outline text=" +++ dq).
    rewrite (@folder_tags_copied _ _ Hplain).
    fixed_tags (dq +++ " title=" +++ dq).
    rewrite (@folder_tags_copied _ _ Hplain).
    fixed_tags (dq +++ ">" +++ nl).
    reflexivity.
  - destruct Hplain as [Hname Hurl]. rewrite feed_element_parts.
    fixed_tags ("      <outline type=" +++ dq +++ "rss" +++ dq +++ " text=" +++ dq).
    rewrite (@folder_tags_copied _ _ Hname).
    fixed_tags (dq +++ " title=" +++ dq).
    rewrite (@folder_tags_copied _ _ Hname).
    fixed_tags (dq +++ " xmlUrl=" +++ dq).
    rewrite (@folder_tags_copied _ _ Hurl).
    fixed_tags (dq +++ "/>" +++ nl).
    reflexivity.
  - unfold folder_end. fixed_tags ("    </outline>" +++ nl). reflexivity.
Qed.

Lemma folder_tags_render (L : Library) (elements : list element) (rest : string) :
  Forall (plain_element L) elements ->
  folder_tags (render L elements +++ rest)
  = flat_map element_tags elements ++ folder_tags rest.
Proof.
  intros Hall. induction Hall as [| e elements He _ IH]; [reflexivity |].
  cbn [render flat_map].
  rewrite append_assoc, (@folder_tags_element L e _ He), IH, app_assoc. reflexivity.
Qed.

(** The folder tags of a document whose copied values have no [<] are
    those of its elements. *)
Lemma folder_tags_document (L : Library) (date : string) (elements : list element) :
  no_angle date ->
  Forall (plain_element L) elements ->
  folder_tags (opml_head date +++ render L elements +++ opml_tail)
  = flat_map element_tags elements.
Proof.
  intros Hdate Hall.
  rewrite (@folder_tags_head _ _ Hdate), (@folder_tags_render L _ _ Hall).
  change (folder_tags opml_tail) with (@nil tag). apply app_nil_r.
Qed.

(** ** The document *)

Lemma Ok_inj {A : Type} (a b : A) : Ok a = Ok b -> a = b.
Proof. intros H. injection H. auto. Qed.

Lemma render_app (L : Library) (xs ys : list element) :
  render L (xs ++ ys) = render L xs +++ render L ys.
Proof.
  induction xs as [| e xs IH]; cbn [app render]; [reflexivity |].
  rewrite IH, append_assoc. reflexivity.
Qed.

Lemma leaves_app (xs ys : list element) : leaves (xs ++ ys) = leaves xs ++ leaves ys.
Proof.
  induction xs as [| [folder | sub |] xs IH]; simpl; rewrite ?IH; reflexivity.
Qed.

Lemma leaves_Leaf (subs : list Subscription) : leaves (map Leaf subs) = subs.
Proof.
  induction subs as [| sub subs IH]; simpl; [reflexivity | rewrite IH; reflexivity].
Qed.

(** The inner loop appends the leaves of the subscriptions with a URL. *)
Lemma write_leaves (L : Library) (subs : list Subscription) (opml : string) :
  fold_left (write_leaf L) subs opml = opml +++ render L (map Leaf (filter has_url subs)).
Proof.
  revert opml. induction subs as [| sub subs IH]; intros opml; cbn [fold_left filter].
  - symmetry. apply append_nil_r.
  - rewrite IH. unfold write_leaf, has_url.
    destruct (Json.truthy (url sub)); [| reflexivity].
    cbn [map render element_text]. rewrite leaf_text, append_assoc. reflexivity.
Qed.

(** The outer loop body appends the elements of the bucket. *)
Lemma write_folder_elements (L : Library) (opml : string)
    (bucket : dict_key * json * list Subscription) :
  write_folder L opml bucket = opml +++ render L (bucket_elements bucket).
Proof.
  destruct bucket as [[key label] subs]. unfold write_folder, bucket_elements, reserved.
  cbn [fst snd]. destruct (is_str "Uncategorized" label); cbn [negb]; cbv iota.
  - apply write_leaves.
  - rewrite write_leaves. cbn [render element_text].
    rewrite render_app. cbn [render element_text].
    rewrite folder_open_text, folder_close_text, append_nil_r, !append_assoc. reflexivity.
Qed.

Lemma write_folders (L : Library) (folders : Folders) (opml : string) :
  fold_left (write_folder L) folders opml
  = opml +++ render L (flat_map bucket_elements folders).
Proof.
  revert opml. induction folders as [| bucket folders IH]; intros opml; cbn [fold_left flat_map].
  - symmetry. apply append_nil_r.
  - rewrite IH, write_folder_elements, render_app, append_assoc. reflexivity.
Qed.

(** The document is the head, the text of the outline, the tail. *)
Lemma opml_document_outline (L : Library) (date : string) (subscriptions : list Subscription) :
  Forall (fun sub => hashable sub = true) subscriptions ->
  opml_document L date subscriptions =
  Ok (opml_head date +++ render L (outline subscriptions) +++ opml_tail).
Proof.
  intros Hall. unfold opml_document.
  rewrite (@group_by_folder_partition L subscriptions Hall). cbn [rbind Ok].
  rewrite write_folders. unfold outline, opml_tail.
  rewrite !append_assoc. reflexivity.
Qed.

(** A folder that cannot be a key leaves no document. *)
Lemma opml_document_unhashable (L : Library) (date : string)
    (subscriptions : list Subscription) :
  ~ Forall (fun sub => hashable sub = true) subscriptions ->
  exists msg, opml_document L date subscriptions = Raise (TypeError msg).
Proof.
  intros Hnot. destruct (@group_by_folder_unhashable L subscriptions Hnot) as [msg Hmsg].
  exists msg. unfold opml_document. rewrite Hmsg. reflexivity.
Qed.

Lemma opml_document_Ok (L : Library) (date : string) (subscriptions : list Subscription)
    (document : string) :
  opml_document L date subscriptions = Ok document ->
  Forall (fun sub => hashable sub = true) subscriptions /\
  document = opml_head date +++ render L (outline subscriptions) +++ opml_tail.
Proof.
  intros H. destruct (all_hashable_dec subscriptions) as [Hall | Hnot].
  - split; [exact Hall |].
    rewrite (@opml_document_outline L date subscriptions Hall) in H.
    apply Ok_inj in H. symmetry. exact H.
  - destruct (@opml_document_unhashable L date subscriptions Hnot) as [msg Hmsg].
    rewrite Hmsg in H. discriminate H.
Qed.

(** Folders that are strings or missing can all be keys. *)
Lemma text_folders_hashable (subscriptions : list Subscription) :
  (forall sub, In sub subscriptions -> folder sub = JNull \/ exists f, folder sub = JStr f) ->
  Forall (fun sub => hashable sub = true) subscriptions.
Proof.
  intros H. apply Forall_forall. intros sub Hin. unfold hashable, folder_of, or_default.
  destruct (H sub Hin) as [-> | [f ->]]; [reflexivity |].
  destruct (Json.truthy (JStr f)); reflexivity.
Qed.

(** ** The partition *)

Lemma flat_map_nil {A B : Type} (f : A -> list B) (xs : list A) :
  (forall x, In x xs -> f x = []) -> flat_map f xs = [].
Proof.
  induction xs as [| x xs IH]; simpl; intros H; [reflexivity |].
  rewrite (H x) by (left; reflexivity). apply IH. intros y Hy. apply H. right. exact Hy.
Qed.

Lemma flat_map_agree {A B : Type} (f g : A -> list B) (xs : list A) :
  (forall x, In x xs -> f x = g x) -> flat_map f xs = flat_map g xs.
Proof.
  intros H. rewrite !flat_map_concat_map. f_equal. apply map_ext_in. exact H.
Qed.

(** Buckets keyed by distinct keys that cover the list hold each record
    once. *)
Lemma buckets_partition (keys : list dict_key) (subs : list Subscription) :
  NoDup keys ->
  (forall sub, In sub subs -> In (folder_key sub) keys) ->
  Permutation (flat_map (fun key => filter (in_folder key) subs) keys) subs.
Proof.
  intros Hnd. induction subs as [| sub subs IH]; intros Hcover.
  - rewrite flat_map_nil; [constructor | reflexivity].
  - assert (Hin : In (folder_key sub) keys) by (apply Hcover; left; reflexivity).
    destruct (in_split _ _ Hin) as (before & after & Hkeys).
    rewrite Hkeys in Hnd. pose proof (NoDup_remove_2 _ _ _ Hnd) as Hfresh.
    assert (Hsame : forall part, (forall key, In key part -> In key (before ++ after)) ->
              flat_map (fun key => filter (in_folder key) (sub :: subs)) part =
              flat_map (fun key => filter (in_folder key) subs) part).
    { intros part Hpart. apply flat_map_agree. intros key Hkey. simpl.
      unfold in_folder at 1.
      destruct (key_eqb_spec (folder_key sub) key) as [Heq | _]; [| reflexivity].
      subst key. exfalso. apply Hfresh. apply Hpart. exact Hkey. }
    specialize (IH (fun s Hs => Hcover s (or_intror Hs))).
    rewrite Hkeys in IH |- *. rewrite flat_map_app in IH |- *. cbn [flat_map] in IH |- *.
    rewrite (Hsame before) by (intros key Hkey; apply in_or_app; left; exact Hkey).
    rewrite (Hsame after) by (intros key Hkey; apply in_or_app; right; exact Hkey).
    cbn [filter]. unfold in_folder at 2. rewrite key_eqb_refl.
    simpl app. rewrite <- Permutation_middle. constructor. exact IH.
Qed.

Lemma partition_keys (subscriptions : list Subscription) :
  map (fun bucket => fst (fst bucket)) (partition_by_folder subscriptions)
  = first_seen (map folder_key subscriptions).
Proof.
  unfold partition_by_folder. rewrite map_map. cbn [fst]. apply map_id.
Qed.

Lemma partition_covers (subscriptions : list Subscription) :
  Permutation (concat (map snd (partition_by_folder subscriptions))) subscriptions.
Proof.
  unfold partition_by_folder. rewrite map_map. cbn [snd]. rewrite <- flat_map_concat_map.
  apply buckets_partition.
  - apply first_seen_NoDup.
  - intros sub Hin. apply first_seen_In. apply in_map. exact Hin.
Qed.

(** A bucket of the partition holds the subscriptions of its folder in the
    order of the list; it is not empty, and its label is the folder of the
    first of them. *)
Lemma partition_bucket (subscriptions : list Subscription) (key : dict_key) (label : json)
    (bucket : list Subscription) :
  In (key, label, bucket) (partition_by_folder subscriptions) ->
  bucket = filter (in_folder key) subscriptions /\
  exists first rest,
    bucket = first :: rest /\ label = folder_of first /\
    In first subscriptions /\ folder_key first = key.
Proof.
  unfold partition_by_folder. rewrite in_map_iff.
  intros (k & Heq & Hk). inversion Heq; subst k. split; [reflexivity |].
  apply (proj1 (first_seen_In _ _)) in Hk.
  pose proof (bucket_inhabited key subscriptions Hk) as Hne.
  unfold label_of.
  destruct (filter (in_folder key) subscriptions) as [| first rest] eqn:Hb; [contradiction |].
  exists first, rest. split; [reflexivity |]. split; [reflexivity |].
  assert (Hfirst : In first (filter (in_folder key) subscriptions))
    by (rewrite Hb; left; reflexivity).
  apply filter_In in Hfirst. destruct Hfirst as [Hin Hkey]. split; [exact Hin |].
  unfold in_folder in Hkey. destruct (key_eqb_spec (folder_key first) key); congruence.
Qed.

(** A number never has the identity of a string. *)
Lemma number_not_text (m e : Z) (s : string) : number m e <> KStr s.
Proof.
  unfold number. destruct m as [| p | p]; [discriminate | |];
    destruct (odd_part p); discriminate.
Qed.

Lemma number_not_none (m e : Z) : number m e <> KNone.
Proof.
  unfold number. destruct m as [| p | p]; [discriminate | |];
    destruct (odd_part p); discriminate.
Qed.

(** Only the string [s] has the identity of the string [s]. *)
Lemma hash_key_text (v : json) (s : string) : hash_key v = Ok (KStr s) <-> v = JStr s.
Proof.
  split.
  - destruct v; cbn [hash_key]; unfold Ok, Raise; intros H; try discriminate H;
      injection H as H; try discriminate H;
      try (exfalso; exact (@number_not_text _ _ _ H)).
    congruence.
  - intros ->. reflexivity.
Qed.

Lemma is_str_true (key : string) (v : json) : is_str key v = true -> v = JStr key.
Proof.
  destruct v; cbn [is_str]; try discriminate.
  intros H. apply String.eqb_eq in H. congruence.
Qed.

Lemma reserved_key (subscriptions : list Subscription) (key : dict_key) (label : json)
    (bucket : list Subscription) :
  Forall (fun sub => hashable sub = true) subscriptions ->
  In (key, label, bucket) (partition_by_folder subscriptions) ->
  (reserved (key, label, bucket) = true <-> key = KStr "Uncategorized") /\
  (key = KStr "Uncategorized" <-> label = JStr "Uncategorized").
Proof.
  intros Hall Hin.
  destruct (partition_bucket _ _ _ _ Hin) as (_ & first & rest & _ & -> & Hfirst & <-).
  rewrite Forall_forall in Hall.
  pose proof (hashable_key first (Hall first Hfirst)) as Hkey.
  assert (Hiff : folder_key first = KStr "Uncategorized" <-> folder_of first = JStr "Uncategorized").
  { rewrite <- hash_key_text, Hkey. split; [congruence | apply Ok_inj]. }
  split; [| exact Hiff].
  rewrite Hiff. unfold reserved. cbn [fst snd].
  destruct (folder_of first) as [| b | n | m e | s | l | d]; cbn [is_str];
    try (split; [discriminate | discriminate]).
  destruct (String.eqb_spec s "Uncategorized") as [-> | Hne].
  - split; reflexivity.
  - split; [discriminate | congruence].
Qed.

Lemma own_bucket_listed (subscriptions : list Subscription) (sub : Subscription) :
  In sub subscriptions ->
  In (folder_key sub, label_of (folder_key sub) subscriptions,
      filter (in_folder (folder_key sub)) subscriptions)
     (partition_by_folder subscriptions).
Proof.
  intros Hin. unfold partition_by_folder.
  apply (in_map (fun key => (key, label_of key subscriptions,
                             filter (in_folder key) subscriptions))).
  apply first_seen_In. apply in_map. exact Hin.
Qed.

(** The folder elements of the outline, bucket by bucket. *)
Lemma folder_starts (buckets : Folders) :
  length (filter is_folder_start (flat_map bucket_elements buckets))
  = length (filter (fun bucket => negb (reserved bucket)) buckets) /\
  length (filter is_folder_end (flat_map bucket_elements buckets))
  = length (filter (fun bucket => negb (reserved bucket)) buckets).
Proof.
  assert (Hleaves : forall subs,
            filter is_folder_start (map Leaf subs) = [] /\
            filter is_folder_end (map Leaf subs) = []).
  { induction subs as [| sub subs [IHs IHe]]; [split; reflexivity |]. split; assumption. }
  induction buckets as [| bucket buckets [IHs IHe]]; [split; reflexivity |].
  cbn [flat_map filter]. rewrite !filter_app, !length_app, IHs, IHe.
  unfold bucket_elements.
  destruct (Hleaves (filter has_url (snd bucket))) as [Hs He].
  destruct (reserved bucket); cbn [negb].
  - rewrite Hs, He. split; reflexivity.
  - cbn [filter is_folder_start is_folder_end]. rewrite !filter_app, Hs, He.
    split; reflexivity.
Qed.

(** The values written for a list without [<] have no [<]. *)
Lemma outline_plain (L : Library) (subscriptions : list Subscription) :
  Forall (plain L) subscriptions -> Forall (plain_element L) (outline subscriptions).
Proof.
  intros Hall. rewrite Forall_forall in Hall. apply Forall_forall. intros e He.
  unfold outline in He. apply in_flat_map in He.
  destruct He as ([[key label] bucket] & Hbucket & He).
  destruct (partition_bucket _ _ _ _ Hbucket) as (Hb & first & rest & _ & -> & Hfirst & _).
  assert (Hinner : In e (map Leaf (filter has_url bucket)) -> plain_element L e).
  { intros H. apply in_map_iff in H. destruct H as (sub & <- & Hsub).
    apply filter_In in Hsub. destruct Hsub as [Hsub _].
    rewrite Hb in Hsub. apply filter_In in Hsub. destruct Hsub as [Hsub _].
    destruct (Hall sub Hsub) as (Hname & Hurl & _). split; assumption. }
  unfold bucket_elements in He. cbn [fst snd] in He.
  destruct (reserved _); [exact (Hinner He) |].
  destruct He as [<- | He].
  - destruct (Hall first Hfirst) as (_ & _ & Hfolder). exact Hfolder.
  - apply in_app_iff in He. destruct He as [He | [<- | []]]; [exact (Hinner He) | exact I].
Qed.

Lemma occurs_render (L : Library) (part whole : list element) (before after : list element) :
  whole = before ++ part ++ after -> occurs (render L part) (render L whole).
Proof.
  intros ->. rewrite !render_app. apply occurs_right, occurs_left, occurs_refl.
Qed.

Lemma bucket_in_outline (L : Library) (buckets : Folders)
    (bucket : dict_key * json * list Subscription) :
  In bucket buckets ->
  occurs (render L (bucket_elements bucket)) (render L (flat_map bucket_elements buckets)).
Proof.
  intros Hin. destruct (in_split _ _ Hin) as (before & after & ->).
  rewrite flat_map_app. cbn [flat_map].
  exact (@occurs_render L _ _ (flat_map bucket_elements before)
           (flat_map bucket_elements after) eq_refl).
Qed.

(** A bucket other than the reserved one is written between the tags of a
    folder element that carries its label. *)
Lemma wrapped_bucket_occurs (L : Library) (date : string) (buckets : Folders)
    (key : dict_key) (label : json) (bucket : list Subscription) :
  In (key, label, bucket) buckets ->
  label <> JStr "Uncategorized" ->
  occurs (folder_start (py_str L label)
            +++ render L (map Leaf (filter has_url bucket))
            +++ folder_end)
         (opml_head date +++ render L (flat_map bucket_elements buckets) +++ opml_tail).
Proof.
  intros Hin Hne. apply occurs_right, occurs_left.
  pose proof (bucket_in_outline L _ _ Hin) as H.
  unfold bucket_elements at 1, reserved in H. cbn [fst snd] in H.
  destruct (is_str "Uncategorized" label) eqn:Hlabel.
  - exfalso. apply Hne. apply is_str_true. exact Hlabel.
  - cbn [render element_text] in H. rewrite render_app in H.
    cbn [render element_text] in H. rewrite append_nil_r in H. exact H.
Qed.

(** The folder tags of the outline, bucket by bucket. *)
Lemma outline_tags (buckets : Folders) :
  flat_map element_tags (flat_map bucket_elements buckets) = flat_map bucket_tags buckets.
Proof.
  assert (Hleaves : forall subs, flat_map element_tags (map Leaf subs) = []).
  { induction subs as [| sub subs IH]; [reflexivity | exact IH]. }
  induction buckets as [| bucket buckets IH]; [reflexivity |].
  cbn [flat_map]. rewrite flat_map_app, IH. f_equal.
  unfold bucket_elements, bucket_tags. destruct (reserved bucket).
  - apply Hleaves.
  - cbn [flat_map element_tags app]. rewrite flat_map_app, Hleaves. reflexivity.
Qed.

(** The buckets other than the reserved one are those of the keys other
    than the string "Uncategorized". *)
Lemma unreserved_buckets (subscriptions : list Subscription) :
  Forall (fun sub => hashable sub = true) subscriptions ->
  length (filter (fun bucket => negb (reserved bucket)) (partition_by_folder subscriptions))
  = length (filter (fun key => negb (key_eqb key (KStr "Uncategorized")))
                   (first_seen (map folder_key subscriptions))).
Proof.
  intros Hall. rewrite <- partition_keys.
  assert (Hkey : forall bucket,
            In bucket (partition_by_folder subscriptions) ->
            reserved bucket = key_eqb (fst (fst bucket)) (KStr "Uncategorized")).
  { intros [[key label] bucket] Hin. cbn [fst].
    pose proof (proj1 (reserved_key _ _ _ Hall Hin)) as Hiff.
    destruct (key_eqb_spec key (KStr "Uncategorized")) as [Heq | Hne].
    - apply Hiff. exact Heq.
    - destruct (reserved (key, label, bucket)); [| reflexivity].
      exfalso. apply Hne. apply Hiff. reflexivity. }
  induction (partition_by_folder subscriptions) as [| bucket buckets IH]; [reflexivity |].
  cbn [map filter]. rewrite (Hkey bucket) by (left; reflexivity).
  assert (IH' := IH (fun b Hb => Hkey b (or_intror Hb))).
  destruct (key_eqb (fst (fst bucket)) (KStr "Uncategorized")); cbn [negb length];
    rewrite IH'; reflexivity.
Qed.

(** C2. Grouping is a function of the list, and where every folder can be
    the key of a dict it partitions the list into buckets: folders in
    first-seen order, each bucket in the order of the input and labelled
    with the folder of its first subscription, every record in one bucket.  A
    subscription whose folder is missing or empty is in the bucket
    "Uncategorized".  In the document the buckets follow each other in that
    order; every bucket but "Uncategorized" is written between the start
    tag and the end tag of a folder element that carries its label, and
    when no copied value holds a [<] the document has as many folder start
    tags, and as many end tags, as there are buckets other than
    "Uncategorized".  Folders that are strings or missing can always be
    keys; a list or an object in the place of a folder raises a
    [TypeError]. *)
Theorem grouping_is_an_ordered_partition (L : Library) (date : string)
    (subscriptions : list Subscription) :
  ((forall sub, In sub subscriptions -> folder sub = JNull \/ exists f, folder sub = JStr f) ->
   Forall (fun sub => hashable sub = true) subscriptions) /\
  (~ Forall (fun sub => hashable sub = true) subscriptions ->
   exists msg, group_by_folder L subscriptions = Raise (TypeError msg)) /\
  (Forall (fun sub => hashable sub = true) subscriptions ->
   group_by_folder L subscriptions = Ok (partition_by_folder subscriptions) /\
   map (fun bucket => fst (fst bucket)) (partition_by_folder subscriptions)
   = first_seen (map folder_key subscriptions) /\
   (forall key label bucket,
       In (key, label, bucket) (partition_by_folder subscriptions) ->
       bucket = filter (in_folder key) subscriptions /\
       (exists first rest, bucket = first :: rest /\ label = folder_of first) /\
       (key = KStr "Uncategorized" <-> label = JStr "Uncategorized")) /\
   Permutation (concat (map snd (partition_by_folder subscriptions))) subscriptions /\
   (forall sub,
       folder sub = JNull \/ folder sub = JStr EmptyString ->
       folder_of sub = JStr "Uncategorized" /\ folder_key sub = KStr "Uncategorized") /\
   (forall sub, Json.truthy (folder sub) = true -> folder_of sub = folder sub) /\
   exists document,
     opml_document L date subscriptions = Ok document /\
     document = opml_head date +++ render L (outline subscriptions) +++ opml_tail /\
     (forall key label bucket,
         In (key, label, bucket) (partition_by_folder subscriptions) ->
         label <> JStr "Uncategorized" ->
         occurs (folder_start (py_str L label)
                   +++ render L (map Leaf (filter has_url bucket))
                   +++ folder_end) document) /\
     (no_angle date ->
      Forall (plain L) subscriptions ->
      count_occurrences folder_marker document
      = length (filter (fun bucket => negb (reserved bucket))
                       (partition_by_folder subscriptions)) /\
      count_occurrences end_marker document
      = length (filter (fun bucket => negb (reserved bucket))
                       (partition_by_folder subscriptions)))).
Proof.
  split; [apply text_folders_hashable |].
  split; [apply group_by_folder_unhashable |].
  intros Hall.
  split; [apply group_by_folder_partition; exact Hall |].
  split; [apply partition_keys |].
  split.
  { intros key label bucket Hin.
    destruct (partition_bucket _ _ _ _ Hin) as (Hb & first & rest & Hcons & Hlabel & _ & _).
    split; [exact Hb |]. split; [exists first, rest; split; assumption |].
    exact (proj2 (reserved_key _ _ _ Hall Hin)). }
  split; [apply partition_covers |].
  split.
  { intros sub [H | H]; unfold folder_key, folder_of, or_default; rewrite H;
      split; reflexivity. }
  split.
  { intros sub H. unfold folder_of, or_default. rewrite H. reflexivity. }
  eexists. split; [apply opml_document_outline; exact Hall |]. split; [reflexivity |].
  split.
  - intros key label bucket Hin Hne.
    exact (@wrapped_bucket_occurs L date _ _ _ _ Hin Hne).
  - intros Hdate Hplain.
    pose proof (@outline_plain L subscriptions Hplain) as Hel.
    assert (Hf : In folder_marker markers) by (right; left; reflexivity).
    assert (He : In end_marker markers) by (right; right; left; reflexivity).
    rewrite (@count_document L _ _ _ Hf Hdate Hel), (@count_document L _ _ _ He Hdate Hel).
    rewrite folder_marked, end_marked. apply folder_starts.
Qed.

(** The example of the specification: folders A, none, A, B give the
    buckets A, Uncategorized, B, and only A and B get a folder element. *)
Example grouping_four_feeds :
  group_by_folder Sample.library Sample.four_feeds
  = Ok (partition_by_folder Sample.four_feeds) /\
  map (fun bucket => snd (fst bucket)) (partition_by_folder Sample.four_feeds)
  = [JStr "A"; JStr "Uncategorized"; JStr "B"] /\
  map (fun e => match e with
                | FolderOpen f => "<" +++ py_str Sample.library f +++ ">"
                | Leaf sub => py_str Sample.library (name sub)
                | FolderClose => "</>"
                end) (outline Sample.four_feeds)
  = ["<A>"; "a1"; "a2"; "</>"; "u1"; "<B>"; "b1"; "</>"].
Proof. repeat split; reflexivity. Qed.

(** ** The Reporter *)

Lemma printed_nil (s : effects) : printed s [] = s.
Proof. destruct s. unfold printed. simpl. rewrite app_nil_r. reflexivity. Qed.

Lemma printed_app (s : effects) (a b : list string) :
  printed (printed s a) b = printed s (a ++ b).
Proof. unfold printed. simpl. rewrite app_assoc. reflexivity. Qed.

Lemma prints_print (line : string) : prints (print line) [line].
Proof. intros s. reflexivity. Qed.

Lemma prints_ret : prints (ret tt) [].
Proof. intros s. unfold ret. rewrite printed_nil. reflexivity. Qed.

Lemma prints_bind (m k : IO unit) (a b : list string) :
  prints m a -> prints k b -> prints (m ;; k) (a ++ b).
Proof.
  intros Hm Hk s. unfold bind. rewrite Hm. simpl. rewrite Hk, printed_app. reflexivity.
Qed.

Lemma prints_text_line (L : Library) (label : string) (value : json) :
  prints (print_if_true L label value) (text_line L label value).
Proof.
  unfold print_if_true, text_line, print_if.
  destruct (Json.truthy value); [apply prints_print | apply prints_ret].
Qed.

Lemma prints_set_line (L : Library) (label : string) (value : json) :
  prints (print_if_set L label value) (set_line L label value).
Proof.
  unfold print_if_set, set_line, print_if.
  destruct value; cbn [is_none negb]; first [apply prints_print | apply prints_ret].
Qed.

Lemma prints_date_line (L : Library) (label : string) (value : option datetime) :
  prints (print_opt_date L label value) (date_line L label value).
Proof.
  destruct value; simpl; [apply prints_print | apply prints_ret].
Qed.

(** The Reporter prints the summary of a subscription and does nothing
    else. *)
Lemma report_lines_printed (L : Library) (sub : Subscription) :
  prints (report L sub) (report_lines L sub).
Proof.
  unfold report, report_lines.
  apply (prints_bind (a := [name_line L sub])); [apply prints_print |].
  repeat (apply prints_bind;
          [first [ apply prints_text_line | apply prints_date_line
                 | apply prints_set_line ] |]).
  apply prints_date_line.
Qed.

Lemma for_each_report_lines (L : Library) (subscriptions : list Subscription) :
  prints (for_each subscriptions (report L)) (flat_map (report_lines L) subscriptions).
Proof.
  induction subscriptions as [| sub rest IH]; cbn [for_each flat_map].
  - apply prints_ret.
  - exact (prints_bind (report_lines_printed L sub) IH).
Qed.

(** The name of every subscription is among the lines, whatever else the
    record holds. *)
Lemma name_line_reported (L : Library) (subscriptions : list Subscription)
    (sub : Subscription) :
  In sub subscriptions -> In (name_line L sub) (flat_map (report_lines L) subscriptions).
Proof.
  intros Hin. apply in_flat_map. exists sub. split; [exact Hin |]. left. reflexivity.
Qed.

(** ** The serializer *)

Lemma filter_swap {A : Type} (p q : A -> bool) (xs : list A) :
  filter p (filter q xs) = filter q (filter p xs).
Proof.
  induction xs as [| x xs IH]; simpl; [reflexivity |].
  destruct (p x) eqn:Hp, (q x) eqn:Hq; simpl; rewrite ?Hp, ?Hq, IH; reflexivity.
Qed.

Lemma leaves_outline (subscriptions : list Subscription) :
  leaves (outline subscriptions) =
  flat_map (fun key => filter (in_folder key) (filter has_url subscriptions))
           (first_seen (map folder_key subscriptions)).
Proof.
  unfold outline, partition_by_folder.
  induction (first_seen (map folder_key subscriptions)) as [| key keys IH];
    cbn [map flat_map].
  - reflexivity.
  - rewrite leaves_app, IH. f_equal.
    unfold bucket_elements. cbn [fst snd].
    destruct (reserved _); cbn [leaves]; rewrite ?leaves_app, leaves_Leaf;
      cbn [leaves]; rewrite ?app_nil_r; apply filter_swap.
Qed.

(** The leaf elements are the subscriptions with a URL, each once. *)
Lemma leaves_with_url (subscriptions : list Subscription) :
  Permutation (leaves (outline subscriptions)) (filter has_url subscriptions).
Proof.
  rewrite leaves_outline. apply buckets_partition.
  - apply first_seen_NoDup.
  - intros sub Hin. apply filter_In in Hin. destruct Hin as [Hin _].
    apply first_seen_In. apply in_map. exact Hin.
Qed.

(** C7, for values without [<].  For a list whose folders can be keys, and
    whose date, names, URLs and folder names hold no [<], the serializer
    returns a document that has exactly one leaf element for each
    subscription whose [url] is true, which for a string is to be not
    empty: the text with which a leaf element starts occurs as many times
    as there are such subscriptions.  The leaf elements are those of the
    subscriptions with a URL, each once; a subscription whose [url] is
    missing or empty has none, although the Reporter printed its name
    line. *)
Theorem one_leaf_per_subscription_with_url (L : Library) (date : string)
    (subscriptions : list Subscription) :
  Forall (fun sub => hashable sub = true) subscriptions ->
  no_angle date ->
  Forall (plain L) subscriptions ->
  exists document,
    opml_document L date subscriptions = Ok document /\
    document = opml_head date +++ render L (outline subscriptions) +++ opml_tail /\
    count_occurrences feed_marker document = length (filter has_url subscriptions) /\
    Permutation (leaves (outline subscriptions)) (filter has_url subscriptions) /\
    (forall sub, has_url sub = false -> ~ In sub (leaves (outline subscriptions))) /\
    (forall sub, url sub = JNull \/ url sub = JStr EmptyString -> has_url sub = false) /\
    (forall sub u, url sub = JStr u -> u <> EmptyString -> has_url sub = true) /\
    prints (for_each subscriptions (report L)) (flat_map (report_lines L) subscriptions) /\
    (forall sub,
        In sub subscriptions ->
        In (name_line L sub) (flat_map (report_lines L) subscriptions)).
Proof.
  intros Hall Hdate Hplain.
  eexists. split; [apply opml_document_outline; exact Hall |]. split; [reflexivity |].
  split.
  { assert (Hm : In feed_marker markers) by (left; reflexivity).
    rewrite (@count_document L _ _ _ Hm Hdate (@outline_plain L subscriptions Hplain)).
    rewrite feed_marked. apply Permutation_length, leaves_with_url. }
  split; [apply leaves_with_url |].
  split.
  { intros sub Hno Hin.
    apply (Permutation_in _ (leaves_with_url subscriptions)) in Hin.
    apply filter_In in Hin. destruct Hin as [_ Hyes]. congruence. }
  split.
  { intros sub [H | H]; unfold has_url; rewrite H; reflexivity. }
  split.
  { intros sub u H Hne. unfold has_url. rewrite H.
    destruct u; [contradiction | reflexivity]. }
  split; [apply for_each_report_lines |].
  intros sub Hin. apply name_line_reported. exact Hin.
Qed.

Lemma occurs_element (L : Library) (e : element) (elements : list element) :
  In e elements -> occurs (element_text L e) (render L elements).
Proof.
  induction elements as [| e' elements IH]; cbn [In render]; [tauto |].
  intros [-> | Hin].
  - apply occurs_left, occurs_refl.
  - apply occurs_right, IH, Hin.
Qed.

Lemma leaf_in_outline (subscriptions : list Subscription) (sub : Subscription) :
  In sub subscriptions -> has_url sub = true -> In (Leaf sub) (outline subscriptions).
Proof.
  intros Hin Hurl. unfold outline. apply in_flat_map.
  eexists. split; [apply own_bucket_listed; exact Hin |].
  assert (H : In (Leaf sub)
                 (map Leaf (filter has_url (filter (in_folder (folder_key sub)) subscriptions)))).
  { apply in_map. apply filter_In. split; [| exact Hurl].
    apply filter_In. split; [exact Hin | apply key_eqb_refl]. }
  unfold bucket_elements. cbn [fst snd]. destruct (reserved _); [exact H |].
  right. apply in_or_app. left. exact H.
Qed.

(** The folder element of a subscription carries the label of its bucket. *)
Lemma folder_in_outline (subscriptions : list Subscription) (sub : Subscription) :
  In sub subscriptions ->
  label_of (folder_key sub) subscriptions <> JStr "Uncategorized" ->
  In (FolderOpen (label_of (folder_key sub) subscriptions)) (outline subscriptions).
Proof.
  intros Hin Hne. unfold outline. apply in_flat_map.
  eexists. split; [apply own_bucket_listed; exact Hin |].
  unfold bucket_elements, reserved. cbn [fst snd].
  destruct (is_str "Uncategorized" _) eqn:Hlabel.
  - exfalso. apply Hne. apply is_str_true. exact Hlabel.
  - left. reflexivity.
Qed.

(** The bucket of a folder that is a string is labelled with that string. *)
Lemma label_of_text (subscriptions : list Subscription) (sub : Subscription) (f : string) :
  Forall (fun sub => hashable sub = true) subscriptions ->
  In sub subscriptions ->
  folder_of sub = JStr f ->
  label_of (folder_key sub) subscriptions = JStr f.
Proof.
  intros Hall Hin Hf.
  destruct (partition_bucket _ _ _ _ (own_bucket_listed subscriptions sub Hin))
    as (_ & first & rest & _ & -> & Hfirst & Hkey).
  rewrite Forall_forall in Hall.
  pose proof (hashable_key sub (Hall sub Hin)) as Hsub.
  rewrite Hf in Hsub. cbn [hash_key] in Hsub. apply Ok_inj in Hsub.
  apply hash_key_text. rewrite (hashable_key first (Hall first Hfirst)).
  congruence.
Qed.

Lemma occurs_attribute (name value : string) : occurs value (attribute name value).
Proof.
  unfold attribute. do 4 apply occurs_right. apply occurs_left, occurs_refl.
Qed.

Lemma occurs_name_in_feed (name url : string) : occurs name (feed_element name url).
Proof.
  unfold feed_element. do 2 apply occurs_right. apply occurs_left, occurs_attribute.
Qed.

Lemma occurs_url_in_feed (name url : string) : occurs url (feed_element name url).
Proof.
  unfold feed_element. do 4 apply occurs_right. apply occurs_left, occurs_attribute.
Qed.

Lemma occurs_label_in_start (label : string) : occurs label (folder_start label).
Proof.
  unfold folder_start. apply occurs_right, occurs_left, occurs_attribute.
Qed.

(** C3, as the code has it.  The serializer copies names, URLs and folder
    names into the attribute values unchanged.  For a list whose folders
    can be keys it returns a document in which, for every subscription
    whose [url] is true (for a string: not empty), the leaf element with the
    raw name and URL, hence the name and the URL themselves, occur; and in
    which the start tag of the folder element of every subscription outside
    "Uncategorized" occurs with the raw folder name.  A subscription
    without a URL is not written, so its name need not occur. *)
Theorem attribute_values_are_verbatim (L : Library) (date : string)
    (subscriptions : list Subscription) :
  Forall (fun sub => hashable sub = true) subscriptions ->
  exists document,
    opml_document L date subscriptions = Ok document /\
    (forall sub,
        In sub subscriptions -> has_url sub = true ->
        occurs (feed_element (py_str L (name sub)) (py_str L (url sub))) document /\
        occurs (py_str L (name sub)) document /\
        occurs (py_str L (url sub)) document) /\
    (forall sub n u,
        In sub subscriptions -> name sub = JStr n -> url sub = JStr u -> u <> EmptyString ->
        occurs (feed_element n u) document /\
        occurs n document /\
        occurs u document) /\
    (forall sub f,
        In sub subscriptions -> folder_of sub = JStr f -> f <> "Uncategorized" ->
        occurs (folder_start f) document /\
        occurs f document).
Proof.
  intros Hall.
  eexists. split; [apply opml_document_outline; exact Hall |].
  assert (Hbody : forall e, In e (outline subscriptions) ->
            occurs (element_text L e)
                   (opml_head date +++ render L (outline subscriptions) +++ opml_tail)).
  { intros e He. apply occurs_right, occurs_left, occurs_element, He. }
  assert (Hleaf : forall sub,
            In sub subscriptions -> has_url sub = true ->
            occurs (feed_element (py_str L (name sub)) (py_str L (url sub)))
                   (opml_head date +++ render L (outline subscriptions) +++ opml_tail) /\
            occurs (py_str L (name sub))
                   (opml_head date +++ render L (outline subscriptions) +++ opml_tail) /\
            occurs (py_str L (url sub))
                   (opml_head date +++ render L (outline subscriptions) +++ opml_tail)).
  { intros sub Hin Hurl.
    pose proof (Hbody _ (leaf_in_outline subscriptions sub Hin Hurl)) as H.
    cbn [element_text] in H.
    split; [exact H |]. split.
    - exact (occurs_trans (occurs_name_in_feed _ _) H).
    - exact (occurs_trans (occurs_url_in_feed _ _) H). }
  split; [exact Hleaf |]. split.
  - intros sub n u Hin Hn Hu Hne.
    assert (Hurl : has_url sub = true).
    { unfold has_url. rewrite Hu. destruct u; [contradiction | reflexivity]. }
    pose proof (Hleaf sub Hin Hurl) as H. rewrite Hn, Hu in H. exact H.
  - intros sub f Hin Hf Hne.
    pose proof (@label_of_text subscriptions sub f Hall Hin Hf) as Hlabel.
    assert (Hopen : In (FolderOpen (JStr f)) (outline subscriptions)).
    { rewrite <- Hlabel. apply folder_in_outline; [exact Hin |].
      rewrite Hlabel. congruence. }
    pose proof (Hbody _ Hopen) as H. cbn [element_text py_str] in H.
    split; [exact H |].
    exact (occurs_trans (occurs_label_in_start f) H).
Qed.
(** ** The fetcher *)

Section Fetcher.

Variable L : Library.
Variable W : World.
Variable self : OmnivoreClient.

Lemma on_request_exception_reraises (e : exn) (s : effects) :
  snd (on_request_exception e s) = Raise e.
Proof.
  destruct e; try reflexivity.
  destruct resp; reflexivity.
Qed.

(** The [except] clause does not change what the call returns or raises. *)
Lemma get_subscriptions_result (s : effects) :
  snd (get_subscriptions L W self s) = snd (fetch L W self s).
Proof.
  unfold get_subscriptions, try_except.
  destruct (fetch L W self s) as [s' [e | subscriptions]]; simpl.
  - apply on_request_exception_reraises.
  - reflexivity.
Qed.

Lemma fetch_request (s : effects) :
  requests_post W (base_url self) (headers self) (JDict [("query", JStr query)]) s =
  (requested s (the_request self),
   match network W (the_request self) with
   | inl fault => Raise (RequestException ConnectionFault fault None)
   | inr response => Ok response
   end).
Proof.
  unfold requests_post. fold (the_request self).
  destruct (network W (the_request self)); reflexivity.
Qed.

(** What the call returns or raises once the network has answered. *)
Lemma fetch_answered (s : effects) (response : Http.response) :
  network W (the_request self) = inr response ->
  snd (fetch L W self s) =
  (let? _ := raise_for_status response in
   let? data := response_json response in
   read_body L data).
Proof.
  intros Hnet. unfold fetch, bind at 1. rewrite fetch_request, Hnet.
  unfold bind, print, lift, ret, rbind, Ok, Raise. cbv beta iota.
  destruct (negb (Http.status_code response =? 200));
    destruct (raise_for_status response) as [? | []]; cbv beta iota; try reflexivity;
    destruct (response_json response) as [? | ?]; reflexivity.
Qed.

Lemma get_subscriptions_answered (s : effects) (response : Http.response) (data : json) :
  network W (the_request self) = inr response ->
  raise_for_status response = Ok tt ->
  Http.decoded response = inr data ->
  snd (get_subscriptions L W self s) = read_body L data.
Proof.
  intros Hnet Hstatus Hdata.
  rewrite get_subscriptions_result, (fetch_answered s Hnet), Hstatus.
  unfold response_json. rewrite Hdata. reflexivity.
Qed.

(** A returned list comes from an answer that passed every check. *)
Lemma get_subscriptions_Ok (s : effects) (subscriptions : list Subscription) :
  snd (get_subscriptions L W self s) = Ok subscriptions ->
  exists response data,
    network W (the_request self) = inr response /\
    raise_for_status response = Ok tt /\
    Http.decoded response = inr data /\
    read_body L data = Ok subscriptions.
Proof.
  rewrite get_subscriptions_result. intros H.
  destruct (network W (the_request self)) as [fault | response] eqn:Hnet.
  - exfalso. revert H. unfold fetch, bind at 1. rewrite fetch_request, Hnet.
    discriminate.
  - rewrite (fetch_answered s Hnet) in H.
    rbind_inv H. destruct a. rbind_inv H. rename a into data.
    exists response, data. repeat split; try assumption.
    unfold response_json in Ha0. destruct (Http.decoded response); [discriminate |].
    inversion Ha0. reflexivity.
Qed.

Lemma read_body_Ok (data : json) (subscriptions : list Subscription) :
  read_body L data = Ok subscriptions ->
  contains_key "errors" data = Ok false /\
  exists payload result listed items,
    subscript data "data" = Ok payload /\
    subscript payload "subscriptions" = Ok result /\
    contains_key "errorCodes" result = Ok false /\
    subscript result "subscriptions" = Ok listed /\
    iterate listed = Ok items /\
    to_subscriptions L items = Ok subscriptions.
Proof.
  unfold read_body. intros H.
  rbind_inv H. destruct a.
  - rbind_inv H. discriminate.
  - split; [exact Ha |].
    rbind_inv H. rename a into payload. rbind_inv H. rename a into result.
    rbind_inv H. destruct a.
    + rbind_inv H. discriminate.
    + rbind_inv H. rename a into listed. rbind_inv H. rename a into items.
      exists payload, result, listed, items. repeat split; assumption.
Qed.

End Fetcher.

Lemma raise_for_status_error (response : Http.response) :
  400 <= Http.status_code response < 600 ->
  exists kind,
    raise_for_status response =
    Raise (RequestException HTTPError
             (str_int (Http.status_code response) +++ kind +++ Http.reason response
                +++ " for url: " +++ Http.url response)
             (Some response)).
Proof.
  intros [Hlo Hhi]. unfold raise_for_status.
  apply Z.leb_le in Hlo. apply Z.ltb_lt in Hhi. rewrite Hlo. simpl andb.
  destruct (Http.status_code response <? 500) eqn:H4.
  - exists " Client Error: ". reflexivity.
  - destruct (500 <=? Http.status_code response) eqn:H5.
    + rewrite Hhi. exists " Server Error: ". reflexivity.
    + apply Z.ltb_ge in H4. apply Z.leb_gt in H5. lia.
Qed.

Lemma raise_for_status_passes (response : Http.response) :
  ~ (400 <= Http.status_code response < 600) -> raise_for_status response = Ok tt.
Proof.
  intros H. unfold raise_for_status.
  destruct (Z.leb_spec 400 (Http.status_code response));
    destruct (Z.ltb_spec (Http.status_code response) 500);
    destruct (Z.leb_spec 500 (Http.status_code response));
    destruct (Z.ltb_spec (Http.status_code response) 600);
    simpl; try reflexivity; exfalso; apply H; lia.
Qed.

(** C5, as the code has it.  For every answer whose status code is from
    400 to 599, the fetch fails with an HTTP error whose message starts
    with the status code and which carries the response; the status code
    and the first 500 characters of the body are printed before the
    failure, the whole body after it; nothing is returned and nothing else
    happens. *)
Theorem error_status_fails_the_fetch (L : Library) (W : World) (self : OmnivoreClient)
    (s : effects) (response : Http.response) :
  network W (the_request self) = inr response ->
  400 <= Http.status_code response < 600 ->
  exists msg,
    get_subscriptions L W self s =
    (printed (requested s (the_request self))
       [ "Status Code: " +++ str_int (Http.status_code response);
         "Response Headers: " +++ str_headers L (Http.headers response);
         "Response Text: " +++ Text.take 500 (Http.text response) +++ "...";
         "Request failed: " +++ msg;
         "Error response: " +++ Http.text response ],
     Raise (RequestException HTTPError msg (Some response))) /\
    exists rest, msg = str_int (Http.status_code response) +++ rest.
Proof.
  intros Hnet Hcode.
  destruct (raise_for_status_error response Hcode) as [kind Hraise].
  eexists. split; [| eexists; reflexivity].
  assert (Hne : negb (Http.status_code response =? 200) = true).
  { destruct (Z.eqb_spec (Http.status_code response) 200); [lia | reflexivity]. }
  unfold get_subscriptions, try_except, fetch, bind at 1.
  rewrite fetch_request, Hnet.
  unfold bind, print, lift, ret, Ok. cbv beta iota.
  rewrite Hne, Hraise. unfold Raise. cbv beta iota.
  unfold on_request_exception, bind, print, raise, Raise, printed, requested.
  cbn [stdout sent files clock_reads]. rewrite <- !app_assoc. reflexivity.
Qed.

(** C6. After a status that does not raise, the checks come in a fixed
    order: a body with a top-level [errors] field fails the fetch with the
    GraphQL error that carries the server's list; otherwise a subscriptions
    result with an [errorCodes] field fails it with the error that carries
    the codes; and records are returned only when neither field is there. *)
Theorem response_checks_come_in_order (L : Library) (W : World) (self : OmnivoreClient)
    (s : effects) (response : Http.response) (data : json) :
  network W (the_request self) = inr response ->
  raise_for_status response = Ok tt ->
  Http.decoded response = inr data ->
  (forall fields errors,
      data = JDict fields ->
      lookup "errors" fields = Some errors ->
      snd (get_subscriptions L W self s) =
      Raise (Exception ("GraphQL errors: " +++ json_dumps L errors))) /\
  (forall fields payload result_fields codes,
      data = JDict fields ->
      lookup "errors" fields = None ->
      lookup "data" fields = Some payload ->
      subscript payload "subscriptions" = Ok (JDict result_fields) ->
      lookup "errorCodes" result_fields = Some codes ->
      snd (get_subscriptions L W self s) =
      Raise (Exception ("Subscription error: " +++ str_json L codes))) /\
  (forall subscriptions,
      snd (get_subscriptions L W self s) = Ok subscriptions ->
      contains_key "errors" data = Ok false /\
      exists payload result listed items,
        subscript data "data" = Ok payload /\
        subscript payload "subscriptions" = Ok result /\
        contains_key "errorCodes" result = Ok false /\
        subscript result "subscriptions" = Ok listed /\
        iterate listed = Ok items /\
        to_subscriptions L items = Ok subscriptions).
Proof.
  intros Hnet Hstatus Hdata.
  rewrite (@get_subscriptions_answered L W self s response data Hnet Hstatus Hdata).
  split; [| split].
  - intros fields errors -> Herrors. unfold read_body. simpl. rewrite Herrors.
    reflexivity.
  - intros fields payload result_fields codes -> Hnone Hpayload Hresult Hcodes.
    unfold read_body. simpl. rewrite Hnone, Hpayload. simpl.
    rewrite Hresult. simpl. rewrite Hcodes. reflexivity.
  - intros subscriptions H. apply read_body_Ok. exact H.
Qed.

(** ** The mapping step *)

Lemma parse_timestamp_Ok (L : Library) (item : json) (key : string)
    (field : option datetime) :
  parse_timestamp L item key = Ok field ->
  exists fields,
    item = JDict fields /\
    parsed_from L (match lookup key fields with Some v => v | None => JNull end) field.
Proof.
  unfold parse_timestamp, get.
  destruct item as [| b | n | m e | str | items | fields]; try discriminate.
  simpl. intros H. exists fields. split; [reflexivity |].
  destruct (lookup key fields) as [v |]; simpl in H.
  - destruct (Json.truthy v) eqn:Hv.
    + destruct v as [| b | n | m e | str | items | fs]; try discriminate.
      right. rbind_inv H. exists str, a. inversion H. auto.
    + left. inversion H. auto.
  - left. inversion H. auto.
Qed.

Lemma to_subscription_mapped (L : Library) (item : json) (sub : Subscription) :
  to_subscription L item = Ok sub -> mapped_from L item sub.
Proof.
  unfold to_subscription. intros H.
  rbind_inv H. rename a into created, Ha into Hcreated.
  rbind_inv H. rename a into fetched, Ha into Hfetched.
  rbind_inv H. rename a into refreshed, Ha into Hrefreshed.
  rbind_inv H. rename a into failed, Ha into Hfailed.
  do 10 (let Hx := fresh "Hx" in
         apply rbind_Ok in H; destruct H as (? & Hx & H); clear Hx).
  inversion H. simpl.
  destruct (parse_timestamp_Ok _ _ _ Hcreated) as (fields & -> & Hc).
  destruct (parse_timestamp_Ok _ _ _ Hfetched) as (f2 & E2 & Hf).
  destruct (parse_timestamp_Ok _ _ _ Hrefreshed) as (f3 & E3 & Hr).
  destruct (parse_timestamp_Ok _ _ _ Hfailed) as (f4 & E4 & Hx).
  inversion E2; inversion E3; inversion E4; subst f2 f3 f4.
  exists fields. unfold mapped_from. simpl. auto 10.
Qed.

Lemma to_subscriptions_mapped (L : Library) (items : list json)
    (subscriptions : list Subscription) :
  to_subscriptions L items = Ok subscriptions ->
  Forall2 (mapped_from L) items subscriptions.
Proof.
  revert subscriptions. induction items as [| item items IH]; simpl; intros subscriptions H.
  - inversion H. constructor.
  - rbind_inv H. rename a into sub. rbind_inv H. rename a into rest.
    inversion H. constructor.
    + apply to_subscription_mapped. exact Ha.
    + apply IH. exact Ha0.
Qed.

Lemma parse_timestamp_returns (L : Library) (fields : list (string * json)) (key : string) :
  timestamp_value L (match lookup key fields with Some v => v | None => JNull end) ->
  exists field, parse_timestamp L (JDict fields) key = Ok field.
Proof.
  unfold parse_timestamp, timestamp_value. cbn [get subscript rbind Ok].
  destruct (lookup key fields) as [v |]; [| intros _; exists None; reflexivity].
  destruct (Json.truthy v) eqn:Hv; [| intros _; exists None; reflexivity].
  intros [H | (s & d & -> & Hd)]; [discriminate H |].
  exists (Some d). cbn [rbind Ok]. rewrite Hd. reflexivity.
Qed.

(** The mapping step returns for every item that is an object with a name
    and four timestamp values, whatever its other fields hold. *)
Lemma to_subscription_returns (L : Library) (item : json) :
  mappable L item -> exists sub, to_subscription L item = Ok sub.
Proof.
  intros (fields & -> & Hname & Hstamps). unfold to_subscription.
  destruct (@parse_timestamp_returns L fields "createdAt") as [created Hc];
    [apply Hstamps; cbn; tauto |].
  destruct (@parse_timestamp_returns L fields "lastFetchedAt") as [fetched Hf];
    [apply Hstamps; cbn; tauto |].
  destruct (@parse_timestamp_returns L fields "refreshedAt") as [refreshed Hr];
    [apply Hstamps; cbn; tauto |].
  destruct (@parse_timestamp_returns L fields "failedAt") as [failed Hx];
    [apply Hstamps; cbn; tauto |].
  rewrite Hc, Hf, Hr, Hx. cbn [rbind Ok subscript get].
  destruct (lookup "name" fields) as [n |]; [| contradiction].
  eexists. reflexivity.
Qed.

Lemma to_subscriptions_returns (L : Library) (items : list json) :
  Forall (mappable L) items -> exists subscriptions, to_subscriptions L items = Ok subscriptions.
Proof.
  induction 1 as [| item items Hitem _ [rest Hrest]]; cbn [to_subscriptions].
  - exists []. reflexivity.
  - destruct (to_subscription_returns Hitem) as [sub Hsub].
    exists (sub :: rest). rewrite Hsub, Hrest. reflexivity.
Qed.

Lemma replace_char_absent (c : ascii) (by_ s : string) :
  ~ In c (list_ascii_of_string s) -> replace_char c by_ s = s.
Proof.
  induction s as [| a s IH]; simpl; [reflexivity |].
  intros H. destruct (Ascii.eqb_spec a c) as [-> | _]; [tauto |].
  rewrite IH by tauto. reflexivity.
Qed.

Lemma replace_char_app (c : ascii) (by_ s t : string) :
  replace_char c by_ (s +++ t) = replace_char c by_ s +++ replace_char c by_ t.
Proof.
  induction s as [| a s IH]; simpl; [reflexivity |].
  destruct (Ascii.eqb a c); rewrite IH; [rewrite append_assoc |]; reflexivity.
Qed.

(** C8. Every record the fetch returns was made from an item of the
    answer, one record per item in order, and each of its four timestamp
    fields is either absent, the item having nothing true under the key, or
    the value [fromisoformat] parsed from the item's string with [Z]
    written as the offset of UTC: a trailing [Z] becomes [+00:00].  The
    record holds the parsed value, never the string.  The mapping returns
    such records for every list of items that are objects with a name and
    four timestamp values, whatever the other fields hold. *)
Theorem timestamps_are_absent_or_parsed (L : Library) (W : World) (self : OmnivoreClient)
    (s : effects) (subscriptions : list Subscription) :
  (snd (get_subscriptions L W self s) = Ok subscriptions ->
   exists response data payload result listed items,
     network W (the_request self) = inr response /\
     Http.decoded response = inr data /\
     subscript data "data" = Ok payload /\
     subscript payload "subscriptions" = Ok result /\
     subscript result "subscriptions" = Ok listed /\
     iterate listed = Ok items /\
     Forall2 (mapped_from L) items subscriptions) /\
  (forall body,
      ~ In "Z"%char (list_ascii_of_string body) ->
      replace_char "Z"%char "+00:00" (body +++ "Z") = body +++ "+00:00") /\
  (forall items,
      Forall (mappable L) items ->
      exists mapped,
        to_subscriptions L items = Ok mapped /\ Forall2 (mapped_from L) items mapped).
Proof.
  split; [| split].
  - intros H. apply get_subscriptions_Ok in H.
    destruct H as (response & data & Hnet & _ & Hdata & Hbody).
    apply read_body_Ok in Hbody.
    destruct Hbody as (_ & payload & result & listed & items & H1 & H2 & _ & H3 & H4 & H5).
    exists response, data, payload, result, listed, items.
    repeat split; try assumption.
    apply to_subscriptions_mapped. exact H5.
  - intros body Hbody. rewrite replace_char_app, replace_char_absent by exact Hbody.
    reflexivity.
  - intros items Hitems.
    destruct (to_subscriptions_returns Hitems) as [mapped Hmapped].
    exists mapped. split; [exact Hmapped |].
    apply to_subscriptions_mapped. exact Hmapped.
Qed.

(** ** The configuration *)

Lemma unset_iff (W : World) (var : string) :
  unset W var = true <-> getenv W var = None \/ getenv W var = Some EmptyString.
Proof.
  unfold unset, truthy_opt. destruct (getenv W var) as [[| c v] |]; simpl.
  - split; auto.
  - split; [discriminate | intros [H | H]; discriminate].
  - split; auto.
Qed.

(** The three tests collect the unset variables in the order of the list. *)
Lemma missing_vars_unset (W : World) :
  missing_vars (getenv W "OMNIVORE_API_TOKEN") (getenv W "OMNIVORE_HOST")
               (getenv W "OMNIVORE_GRAPH_QL_PATH")
  = filter (unset W) required_vars.
Proof.
  unfold missing_vars, required_vars, unset. simpl.
  destruct (truthy_opt (getenv W "OMNIVORE_API_TOKEN"));
    destruct (truthy_opt (getenv W "OMNIVORE_HOST"));
    destruct (truthy_opt (getenv W "OMNIVORE_GRAPH_QL_PATH")); reflexivity.
Qed.

Lemma occurs_join (sep x : string) (parts : list string) :
  In x parts -> occurs x (Text.join sep parts).
Proof.
  unfold Text.join. induction parts as [| p parts IH]; simpl; [tauto |].
  intros [-> | Hin].
  - destruct parts; [apply occurs_refl | apply occurs_left, occurs_refl].
  - destruct parts as [| q parts]; [contradiction |].
    apply occurs_right, occurs_right, IH, Hin.
Qed.

(** C4, as the code has it.  Whenever one of the three variables is missing
    or empty, [main] raises the configuration error before anything else
    happens: nothing is printed, no request is sent, no value is put in the
    place of a missing one, and the message lists every missing or empty
    variable.  (A value of white space only counts as set.) *)
Theorem unset_variable_fails_the_configuration (L : Library) (W : World) (s : effects) :
  (exists var, In var required_vars /\ unset W var = true) ->
  exists msg,
    main L W s = (s, Raise (ValueError msg)) /\
    msg = "Missing required environment variables: "
            +++ Text.join ", " (filter (unset W) required_vars) /\
    (forall var, In var required_vars -> unset W var = true -> occurs var msg) /\
    (forall var, unset W var = true <->
                 getenv W var = None \/ getenv W var = Some EmptyString).
Proof.
  intros (var & Hvar & Hunset).
  eexists. split; [| split; [reflexivity | split]].
  - unfold main. rewrite missing_vars_unset.
    destruct (filter (unset W) required_vars) as [| v vs] eqn:Hmissing.
    + exfalso. assert (H : In var (filter (unset W) required_vars))
        by (apply filter_In; split; assumption).
      rewrite Hmissing in H. exact H.
    + reflexivity.
  - intros v Hv Hu. apply occurs_right. apply occurs_join.
    apply filter_In. split; assumption.
  - intros v. apply unset_iff.
Qed.

(* ================================================================== *)
(** * Part IV. Worked instances                                        *)
(* ================================================================== *)

(** ** The filter *)

(** A subscription created and fetched at the same instant is dropped, and
    of three subscriptions only the one fetched a day later survives. *)
Lemma just_added_is_dropped :
  dropped Sample.just_added /\
  (In Sample.daily [Sample.daily] <->
   In Sample.daily [Sample.tech_news; Sample.daily; Sample.just_added] /\
   ~ dropped Sample.daily).
Proof.
  split.
  - apply (proj1 (proj2 (filter_drops_exactly_the_unfetched Sample.just_added))
             (Sample.utc Sample.new_year_2024) (Sample.utc Sample.new_year_2024));
      reflexivity.
  - apply (proj2 (proj2 (filter_drops_exactly_the_unfetched Sample.daily))
             (Sample.configured true (Sample.ok_answer []))
             [Sample.tech_news; Sample.daily; Sample.just_added] no_effects
             [Sample.daily]);
      reflexivity.
Defined.

(** The five-second gap of the scenario of the specification. *)
Example tech_news_is_dropped : dropped Sample.tech_news.
Proof. reflexivity. Qed.

(** A naive creation time next to an aware fetch time stops the filter. *)
Example mixed_timestamps_raise :
  filter_unfetched [Sample.daily; Sample.mixed] =
  Raise (TypeError "can't subtract offset-naive and offset-aware datetimes").
Proof. reflexivity. Qed.

Lemma daily_survives :
  subsequence [Sample.daily] [Sample.tech_news; Sample.daily; Sample.just_added].
Proof.
  apply (proj2 (filter_output_is_subsequence
                  [Sample.tech_news; Sample.daily; Sample.just_added]) [Sample.daily]).
  reflexivity.
Defined.

(** ** The grouper and the serializer *)

(** The example of the specification, through the theorem: the four feeds
    are grouped, the document is written, and it has two folder elements,
    for A and for B. *)
Lemma four_feeds_are_grouped :
  exists document,
    group_by_folder Sample.library Sample.four_feeds
    = Ok (partition_by_folder Sample.four_feeds) /\
    opml_document Sample.library "2024-01-02" Sample.four_feeds = Ok document /\
    occurs (folder_start "A"
              +++ feed_element "a1" "https://a.example/1"
              +++ feed_element "a2" "https://a.example/2"
              +++ folder_end) document /\
    count_occurrences folder_marker document = 2%nat /\
    count_occurrences end_marker document = 2%nat.
Proof.
  destruct (proj2 (proj2 (grouping_is_an_ordered_partition
                            Sample.library "2024-01-02" Sample.four_feeds)))
    as (Hgroup & _ & _ & _ & _ & _ & document & Hdoc & _ & Hwrapped & Hcount).
  - repeat constructor.
  - exists document. split; [exact Hgroup |]. split; [exact Hdoc |]. split.
    + pose proof (Hwrapped (KStr "A") (JStr "A")
                    [ Sample.feed "a1" (Some "https://a.example/1") (Some "A") None None;
                      Sample.feed "a2" (Some "https://a.example/2") (Some "A") None None ])
        as H.
      cbn [filter has_url Sample.feed url Sample.text Json.truthy Text.truthy
           map render element_text py_str name] in H.
      rewrite append_nil_r, append_assoc in H.
      apply H; [left; reflexivity | discriminate].
    + apply Hcount.
      * apply angle_free_sound. reflexivity.
      * repeat constructor; apply angle_free_sound; reflexivity.
Defined.

(** A subscription without a URL has no leaf element, and its name line is
    printed. *)
Lemma paper_has_no_leaf :
  exists document,
    opml_document Sample.library "2024-01-02" [Sample.tech_news; Case.paper] = Ok document /\
    count_occurrences feed_marker document = 1%nat /\
    ~ In Case.paper (leaves (outline [Sample.tech_news; Case.paper])) /\
    In (name_line Sample.library Case.paper)
       (flat_map (report_lines Sample.library) [Sample.tech_news; Case.paper]).
Proof.
  destruct (@one_leaf_per_subscription_with_url Sample.library "2024-01-02"
              [Sample.tech_news; Case.paper])
    as (document & Hdoc & _ & Hcount & _ & Hnone & _ & _ & _ & Hname).
  - repeat constructor.
  - apply angle_free_sound. reflexivity.
  - repeat constructor; apply angle_free_sound; reflexivity.
  - exists document. split; [exact Hdoc |]. split; [exact Hcount |]. split.
    + apply Hnone. reflexivity.
    + apply Hname. right. left. reflexivity.
Defined.

(** C7 as stated fails: one subscription, whose URL ends the attribute and
    the element it is written in and goes on with the start of another
    element, gives character for character the document of two
    subscriptions, with two leaf elements. *)
Lemma one_subscription_two_leaves :
  exists document,
    opml_document Sample.library "2024-01-02" [Case.forged] = Ok document /\
    length (filter has_url [Case.forged]) = 1%nat /\
    count_occurrences feed_marker document = 2%nat /\
    opml_document Sample.library "2024-01-02" Case.pair = Ok document /\
    length (filter has_url Case.pair) = 2%nat.
Proof.
  eexists. split; [vm_compute; reflexivity |].
  vm_compute. repeat split.
Qed.

Lemma tech_news_is_written_verbatim :
  exists document,
    opml_document Sample.library "2024-01-02" [Sample.tech_news; Sample.newsletter]
    = Ok document /\
    occurs "Tech News" document /\
    occurs "https://example.com/feed" document /\
    occurs "News" document.
Proof.
  destruct (@attribute_values_are_verbatim Sample.library "2024-01-02"
              [Sample.tech_news; Sample.newsletter])
    as (document & Hdoc & _ & Hleaf & Hfolder).
  - repeat constructor.
  - exists document. split; [exact Hdoc |].
    destruct (Hleaf Sample.tech_news "Tech News" "https://example.com/feed")
      as (_ & Hname & Hurl).
    + left. reflexivity.
    + reflexivity.
    + reflexivity.
    + discriminate.
    + split; [exact Hname |]. split; [exact Hurl |].
      apply (Hfolder Sample.tech_news "News").
      * left. reflexivity.
      * reflexivity.
      * discriminate.
Defined.

(** C3 as stated fails: the name of a subscription without a URL is
    nowhere in the document. *)
Lemma name_without_url_is_not_written :
  exists document,
    opml_document Sample.library "2024-01-02" [Sample.tech_news; Sample.newsletter]
    = Ok document /\
    In Sample.newsletter [Sample.tech_news; Sample.newsletter] /\
    name Sample.newsletter = JStr "News & <Views>" /\
    ~ occurs "News & <Views>" document.
Proof.
  eexists. split; [apply opml_document_outline; repeat constructor |].
  split; [right; left; reflexivity |]. split; [reflexivity |].
  intros H. apply occurs_contains in H. vm_compute in H. discriminate H.
Qed.

(** ** The configuration *)

(** The scenario of the specification: without [OMNIVORE_HOST], [main]
    raises the error that names exactly that variable, and does nothing. *)
Lemma missing_host_is_named :
  main Sample.library Sample.no_host no_effects =
  (no_effects, Raise (ValueError "Missing required environment variables: OMNIVORE_HOST")).
Proof.
  destruct (unset_variable_fails_the_configuration Sample.library Sample.no_host no_effects)
    as (msg & Hmain & Hmsg & _).
  - exists "OMNIVORE_HOST". split; [right; left; reflexivity | reflexivity].
  - rewrite Hmain, Hmsg. reflexivity.
Defined.

(** C4 as stated fails: a host of white space only is blank, yet the run
    raises no configuration error and sends its request. *)
Lemma blank_host_is_accepted :
  blank Sample.blank_host "OMNIVORE_HOST" = true /\
  snd (main Sample.library Sample.blank_host no_effects) = Ok tt /\
  map Http.req_url (sent (fst (main Sample.library Sample.blank_host no_effects)))
  = ["https:// /api/graphql"].
Proof. vm_compute. repeat split. Qed.

(** ** The fetcher *)

Lemma not_found_fails :
  exists msg,
    get_subscriptions Sample.library (Sample.configured false Sample.not_found)
      Sample.client no_effects =
    (printed (requested no_effects (the_request Sample.client))
       [ "Status Code: 404";
         "Response Headers: {...}";
         "Response Text: <html>no such page</html>...";
         "Request failed: " +++ msg;
         "Error response: <html>no such page</html>" ],
     Raise (RequestException HTTPError msg (Some Sample.not_found))) /\
    exists rest, msg = "404" +++ rest.
Proof.
  apply (@error_status_fails_the_fetch Sample.library
           (Sample.configured false Sample.not_found) Sample.client no_effects
           Sample.not_found).
  - reflexivity.
  - simpl. lia.
Defined.

(** C5 as stated fails: 304 is not a 2xx code, and the fetch returns a
    list. *)
Lemma not_modified_is_read :
  ~ (200 <= Http.status_code Sample.not_modified < 300) /\
  snd (get_subscriptions Sample.library (Sample.configured false Sample.not_modified)
         Sample.client no_effects) = Ok [].
Proof.
  split.
  - simpl. lia.
  - reflexivity.
Qed.

(** A body with [errors] and [errorCodes] fails with the GraphQL error. *)
Lemma errors_field_comes_first :
  snd (get_subscriptions Sample.library (Sample.configured false Sample.refused)
         Sample.client no_effects) =
  Raise (Exception "GraphQL errors: [...]").
Proof.
  refine (proj1 (@response_checks_come_in_order Sample.library
                   (Sample.configured false Sample.refused) Sample.client no_effects
                   Sample.refused _ eq_refl eq_refl eq_refl) _ _ eq_refl eq_refl).
Defined.

(** The answer of the scenario, followed by an item whose name is a number
    and whose count is a string: both are mapped. *)
Lemma tech_news_is_mapped :
  exists items, Forall2 (mapped_from Sample.library) items [Sample.tech_news; Case.loose].
Proof.
  destruct (proj1 (timestamps_are_absent_or_parsed Sample.library
                     (Sample.configured false
                        (Sample.ok_answer [Sample.tech_news_item; Case.loose_item]))
                     Sample.client no_effects [Sample.tech_news; Case.loose]))
    as (response & data & payload & result & listed & items & _ & _ & _ & _ & _ & _ & H).
  - reflexivity.
  - exists items. exact H.
Defined.

(** ** The scenarios of the specification, run through [main] *)

(** With [--exclude-unfetched] the only subscription is dropped and the
    body of the document is empty. *)
Example scenario_filtered :
  let W := Sample.configured true (Sample.ok_answer [Sample.tech_news_item]) in
  let run := main Sample.library W no_effects in
  snd run = Ok tt /\
  files (fst run) =
  [("omnivore_rss_export_20240102.opml", opml_head "2024-01-02" +++ opml_tail)].
Proof. vm_compute. split; reflexivity. Qed.

(** Without the flag the document has the folder and its feed. *)
Example scenario_unfiltered :
  let W := Sample.configured false (Sample.ok_answer [Sample.tech_news_item]) in
  let run := main Sample.library W no_effects in
  snd run = Ok tt /\
  files (fst run) =
  [("omnivore_rss_export_20240102.opml",
    opml_head "2024-01-02"
      +++ folder_start "News"
      +++ feed_element "Tech News" "https://example.com/feed"
      +++ folder_end
      +++ opml_tail)].
Proof. vm_compute. split; reflexivity. Qed.

(** An answer that does not keep to the types of the record.  The name is
    a number and the count a string: nothing checks them, the Reporter
    prints them and the document has the number as the name. *)
Example scenario_loose :
  let W := Sample.configured false (Sample.ok_answer [Case.loose_item]) in
  let run := main Sample.library W no_effects in
  snd run = Ok tt /\
  stdout (fst run) =
  [ "Fetching subscriptions..."; "Status Code: 200"; found_line 1;
    nl +++ "Name: 42"; "URL: https://example.com/loose"; "Count: 7";
    nl +++ "Exported subscriptions to omnivore_rss_export_20240102.opml" ] /\
  files (fst run) =
  [("omnivore_rss_export_20240102.opml",
    opml_head "2024-01-02"
      +++ feed_element "42" "https://example.com/loose"
      +++ opml_tail)].
Proof. vm_compute. repeat split; reflexivity. Qed.

(** A folder that is a list of tags stops the export with the [TypeError]
    of the dict, after the report and before any file is written. *)
Example scenario_tagged :
  let W := Sample.configured false
             (Sample.ok_answer [JDict [ ("name", JStr "Tagged");
                                        ("url", JStr "https://example.com/tagged");
                                        ("folder", JList [JStr "a"; JStr "b"]) ]]) in
  let run := main Sample.library W no_effects in
  snd run = Raise (TypeError "unhashable type: 'list'") /\
  files (fst run) = [] /\
  group_by_folder Sample.library [Case.tagged] = Raise (TypeError "unhashable type: 'list'").
Proof. vm_compute. repeat split; reflexivity. Qed.

(* ================================================================== *)
(** * Part V. Further properties of the code                           *)
(* ================================================================== *)

(** ** Running a computation *)

Lemma bind_returned {A B : Type} (m : IO A) (k : A -> IO B) (s s' : effects) (a : A) :
  m s = (s', Ok a) -> bind m k s = k a s'.
Proof. intros H. unfold bind. rewrite H. reflexivity. Qed.

Lemma bind_raised {A B : Type} (m : IO A) (k : A -> IO B) (s s' : effects) (e : exn) :
  m s = (s', Raise e) -> bind m k s = (s', Raise e).
Proof. intros H. unfold bind. rewrite H. reflexivity. Qed.

Lemma print_run (line : string) (s : effects) : print line s = (printed s [line], Ok tt).
Proof. reflexivity. Qed.

(** ** The fetcher: what it prints, sends and raises *)

Section FetcherTrace.

Variable L : Library.
Variable W : World.
Variable self : OmnivoreClient.

(** The body of the [try] up to the status check. *)
Lemma fetch_run (s : effects) (response : Http.response) :
  network W (the_request self) = inr response ->
  fetch L W self s =
  (printed (requested s (the_request self)) (status_lines L response),
   let? _ := raise_for_status response in
   let? data := response_json response in
   read_body L data).
Proof.
  intros Hnet. unfold fetch, bind at 1. rewrite fetch_request, Hnet.
  unfold bind, print, lift, ret, rbind, Ok, Raise, status_lines, printed, requested.
  cbv beta iota. cbn [stdout sent files clock_reads].
  destruct (Http.status_code response =? 200); cbn [negb];
    destruct (raise_for_status response) as [? | []]; cbv beta iota;
    cbn [stdout sent files clock_reads]; rewrite <- ?app_assoc; try reflexivity;
    destruct (response_json response) as [? | ?]; reflexivity.
Qed.

Lemma fetch_unanswered (s : effects) (fault : string) :
  network W (the_request self) = inl fault ->
  fetch L W self s =
  (requested s (the_request self), Raise (RequestException ConnectionFault fault None)).
Proof.
  intros Hnet. unfold fetch, bind at 1. rewrite fetch_request, Hnet. reflexivity.
Qed.

(** X1. When the network gives no answer, [get_subscriptions] prints the
    fault once, prints no response text, and raises the fault it caught;
    the request went out once and nothing else happened. *)
Theorem network_fault_is_reported_and_raised (s : effects) (fault : string) :
  network W (the_request self) = inl fault ->
  get_subscriptions L W self s =
  (printed (requested s (the_request self)) ["Request failed: " +++ fault],
   Raise (RequestException ConnectionFault fault None)).
Proof.
  intros Hnet. unfold get_subscriptions, try_except.
  rewrite (fetch_unanswered s Hnet). reflexivity.
Qed.

(** X2. A body that is not JSON, under a status that does not raise, fails
    the fetch with the decoder's complaint: the status lines and one
    [Request failed] line are printed, and no [Error response] line, the
    exception carrying no response. *)
Theorem undecodable_body_fails_the_fetch (s : effects) (response : Http.response)
    (complaint : string) :
  network W (the_request self) = inr response ->
  raise_for_status response = Ok tt ->
  Http.decoded response = inl complaint ->
  get_subscriptions L W self s =
  (printed (requested s (the_request self))
     (status_lines L response ++ ["Request failed: " +++ complaint]),
   Raise (RequestException JSONDecodeError complaint None)).
Proof.
  intros Hnet Hstatus Hbody. unfold get_subscriptions, try_except.
  rewrite (fetch_run s Hnet), Hstatus. unfold response_json. rewrite Hbody.
  cbn [rbind Ok Raise on_request_exception].
  unfold bind, print, ret, raise, Raise.
  rewrite <- printed_app. reflexivity.
Qed.

Lemma get_subscriptions_returns (s : effects) (response : Http.response)
    (data : json) (subscriptions : list Subscription) :
  network W (the_request self) = inr response ->
  raise_for_status response = Ok tt ->
  Http.decoded response = inr data ->
  read_body L data = Ok subscriptions ->
  get_subscriptions L W self s =
  (printed (requested s (the_request self)) (status_lines L response), Ok subscriptions).
Proof.
  intros Hnet Hstatus Hbody Hread. unfold get_subscriptions, try_except.
  rewrite (fetch_run s Hnet), Hstatus. unfold response_json. rewrite Hbody.
  cbn [rbind Ok]. rewrite Hread. reflexivity.
Qed.

(** X3. With a status that does not raise and a body that decodes,
    [get_subscriptions] prints the status lines only and returns or raises
    exactly what the reading of the body does, so long as that is not a
    request exception: a GraphQL error, a missing key or a bad timestamp
    passes through the [except] clause unreported. *)
Theorem body_outcome_passes_through (s : effects) (response : Http.response)
    (data : json) :
  network W (the_request self) = inr response ->
  raise_for_status response = Ok tt ->
  Http.decoded response = inr data ->
  (forall e, read_body L data = Raise e -> is_request_exception e = false) ->
  get_subscriptions L W self s =
  (printed (requested s (the_request self)) (status_lines L response),
   read_body L data).
Proof.
  intros Hnet Hstatus Hbody Hkind. unfold get_subscriptions, try_except.
  rewrite (fetch_run s Hnet), Hstatus. unfold response_json. rewrite Hbody.
  cbn [rbind Ok]. destruct (read_body L data) as [e | subscriptions] eqn:Hread.
  - specialize (Hkind e eq_refl). destruct e; try discriminate Hkind; reflexivity.
  - reflexivity.
Qed.

Lemma get_subscriptions_effects (s : effects) :
  exists lines,
    fst (get_subscriptions L W self s) =
    printed (requested s (the_request self)) lines.
Proof.
  unfold get_subscriptions, try_except.
  destruct (network W (the_request self)) as [fault | response] eqn:Hnet.
  - rewrite (fetch_unanswered s Hnet). eexists. reflexivity.
  - rewrite (fetch_run s Hnet).
    destruct (let? _ := raise_for_status response in
              let? data := response_json response in read_body L data)
      as [e | subscriptions].
    + destruct e; try (eexists; reflexivity).
      destruct resp; unfold on_request_exception, bind, print, ret, raise;
        cbn; rewrite ?printed_app; eexists; unfold printed; cbn;
        rewrite <- ?app_assoc; reflexivity.
    + eexists. reflexivity.
Qed.

(** X4. Whatever the network does, [get_subscriptions] sends exactly one
    request, the one built from the client, writes no file and does not
    read the clock: its only other effect is printing. *)
Theorem get_subscriptions_sends_one_request (s : effects) :
  let after := fst (get_subscriptions L W self s) in
  sent after = sent s ++ [the_request self] /\
  files after = files s /\
  clock_reads after = clock_reads s /\
  exists lines, stdout after = stdout s ++ lines.
Proof.
  destruct (get_subscriptions_effects s) as [lines H]. cbv zeta. rewrite H.
  repeat split. exists lines. reflexivity.
Qed.

End FetcherTrace.

(** ** Reading the body: bodies of the wrong shape *)

(** X5. A decoded body that is not a JSON object never yields records and
    never counts as a GraphQL error: null, a boolean, a number, a string or
    a list makes the reading raise a [TypeError], also a string or a list
    in which [errors] occurs. *)
Theorem body_that_is_no_object_raises_type_error (L : Library) (data : json) :
  (forall fields, data <> JDict fields) ->
  exists msg, read_body L data = Raise (TypeError msg).
Proof.
  intros Hshape. unfold read_body.
  destruct data as [| b | n | m e | str | items | fields];
    try (eexists; reflexivity).
  - simpl. destruct (Text.contains "errors" str); eexists; reflexivity.
  - simpl. destruct (existsb (is_str "errors") items); eexists; reflexivity.
  - exfalso. apply (Hshape fields). reflexivity.
Qed.

(** X6. An object without the expected keys raises the [KeyError] of the
    first key that is missing: [data] when the body has neither [errors]
    nor [data], [subscriptions] when the data or the result inside it lacks
    that key. *)
Theorem missing_key_raises_key_error (L : Library) (fields : list (string * json)) :
  lookup "errors" fields = None ->
  (lookup "data" fields = None ->
   read_body L (JDict fields) = Raise (KeyError "data")) /\
  (forall inner,
      lookup "data" fields = Some (JDict inner) ->
      lookup "subscriptions" inner = None ->
      read_body L (JDict fields) = Raise (KeyError "subscriptions")) /\
  (forall inner result,
      lookup "data" fields = Some (JDict inner) ->
      lookup "subscriptions" inner = Some (JDict result) ->
      lookup "errorCodes" result = None ->
      lookup "subscriptions" result = None ->
      read_body L (JDict fields) = Raise (KeyError "subscriptions")).
Proof.
  intros Herrors. unfold read_body. simpl. rewrite Herrors. simpl.
  split; [| split].
  - intros H. rewrite H. reflexivity.
  - intros inner Hdata Hsubs. rewrite Hdata. simpl. rewrite Hsubs. reflexivity.
  - intros inner result Hdata Hsubs Hcodes Hlist.
    rewrite Hdata. simpl. rewrite Hsubs. simpl. rewrite Hcodes. simpl.
    rewrite Hlist. reflexivity.
Qed.

(** ** The mapping step: scalar fields, and items that fail *)

Lemma get_Ok (item : json) (key : string) (v : json) :
  get item key = Ok v ->
  exists fields,
    item = JDict fields /\
    v = match lookup key fields with Some x => x | None => JNull end.
Proof.
  destruct item; try discriminate. simpl. intros H. inversion H. eauto.
Qed.

(** X7. The record the mapping makes of an item holds, in each scalar
    field, the value the item has under the camel-case key of the field,
    unchanged and whatever its type: [name] is the value under ["name"],
    which must be there, and each other field is the value under its key,
    [None] when the key is missing.  Nothing is checked or converted: an item
    with a name and no true timestamp always gives a record. *)
Theorem scalar_fields_are_copied (L : Library) (item : json) :
  (forall sub,
      to_subscription L item = Ok sub ->
      exists fields,
        item = JDict fields /\
        lookup "name" fields = Some (name sub) /\
        url sub = value_under "url" fields /\
        folder sub = value_under "folder" fields /\
        description sub = value_under "description" fields /\
        newsletter_email sub = value_under "newsletterEmail" fields /\
        count sub = value_under "count" fields /\
        icon sub = value_under "icon" fields /\
        is_private sub = value_under "isPrivate" fields /\
        auto_add_to_library sub = value_under "autoAddToLibrary" fields /\
        fetch_content sub = value_under "fetchContent" fields) /\
  (forall fields n,
      item = JDict fields ->
      lookup "name" fields = Some n ->
      (forall key,
          In key ["createdAt"; "lastFetchedAt"; "refreshedAt"; "failedAt"] ->
          Json.truthy (value_under key fields) = false) ->
      to_subscription L item =
      Ok {| name := n;
            url := value_under "url" fields;
            folder := value_under "folder" fields;
            created_at := None;
            last_fetched_at := None;
            description := value_under "description" fields;
            newsletter_email := value_under "newsletterEmail" fields;
            refreshed_at := None;
            count := value_under "count" fields;
            icon := value_under "icon" fields;
            is_private := value_under "isPrivate" fields;
            auto_add_to_library := value_under "autoAddToLibrary" fields;
            fetch_content := value_under "fetchContent" fields;
            failed_at := None |}).
Proof.
  split.
  - unfold to_subscription. intros sub H.
    rbind_inv H. rename Ha into Hcreated.
    destruct (parse_timestamp_Ok _ _ _ Hcreated) as (fields & -> & _).
    exists fields. split; [reflexivity |].
    do 3 (let Hx := fresh "Hx" in
          apply rbind_Ok in H; destruct H as (? & Hx & H); clear Hx).
    cbn [subscript get] in H.
    apply rbind_Ok in H. destruct H as (n & Hn & H).
    fold (value_under "url" fields) (value_under "folder" fields)
         (value_under "description" fields) (value_under "newsletterEmail" fields)
         (value_under "count" fields) (value_under "icon" fields)
         (value_under "isPrivate" fields) (value_under "autoAddToLibrary" fields)
         (value_under "fetchContent" fields) in H.
    cbn [rbind Ok] in H. apply Ok_inj in H. subst sub. cbn.
    split.
    { destruct (lookup "name" fields) as [v |]; [| discriminate Hn].
      apply Ok_inj in Hn. congruence. }
    repeat split.
  - intros fields n -> Hname Hstamps.
    assert (Hstamp : forall key,
              In key ["createdAt"; "lastFetchedAt"; "refreshedAt"; "failedAt"] ->
              parse_timestamp L (JDict fields) key = Ok None).
    { intros key Hkey. specialize (Hstamps key Hkey).
      unfold parse_timestamp. cbn [get rbind Ok].
      fold (value_under key fields). rewrite Hstamps. reflexivity. }
    unfold to_subscription.
    rewrite !Hstamp by (cbn [In]; tauto).
    cbn [rbind Ok subscript get]. rewrite Hname. reflexivity.
Qed.

Lemma to_subscriptions_app (L : Library) (front back : list json) :
  to_subscriptions L (front ++ back) =
  (let? xs := to_subscriptions L front in
   let? ys := to_subscriptions L back in
   Ok (xs ++ ys)).
Proof.
  induction front as [| item front IH]; simpl.
  - destruct (to_subscriptions L back); reflexivity.
  - destruct (to_subscription L item) as [e | sub]; simpl; [reflexivity |].
    rewrite IH. destruct (to_subscriptions L front) as [e | xs]; simpl; [reflexivity |].
    destruct (to_subscriptions L back); reflexivity.
Qed.

(** X8. The mapping has no partial result: the first item that cannot be
    mapped fails the whole list with its own exception, whatever follows
    it, and the records of the items before it are discarded. *)
Theorem first_bad_item_fails_the_mapping (L : Library) (front rest : list json)
    (bad : json) (mapped : list Subscription) (e : exn) :
  to_subscriptions L front = Ok mapped ->
  to_subscription L bad = Raise e ->
  to_subscriptions L (front ++ bad :: rest) = Raise e.
Proof.
  intros Hfront Hbad. rewrite to_subscriptions_app, Hfront. simpl.
  rewrite Hbad. reflexivity.
Qed.

(** X9. A timestamp key decides as follows.  A value that Python takes for
    false (the key missing, null, the empty string, zero, [false], an empty
    list or object) gives an absent field, and [fromisoformat] is not
    called.  A non-empty string is parsed with [Z] replaced, and a parse
    error is the error of the mapping.  Any other true value, such as a
    number of milliseconds, raises an [AttributeError]. *)
Theorem timestamp_value_cases (L : Library) (fields : list (string * json)) (key : string) :
  let value := match lookup key fields with Some v => v | None => JNull end in
  (Json.truthy value = false -> parse_timestamp L (JDict fields) key = Ok None) /\
  (forall s,
      value = JStr s -> s <> EmptyString ->
      parse_timestamp L (JDict fields) key =
      (let? d := fromisoformat L (replace_char "Z"%char "+00:00" s) in Ok (Some d))) /\
  (Json.truthy value = true -> (forall s, value <> JStr s) ->
   exists msg, parse_timestamp L (JDict fields) key = Raise (AttributeError msg)).
Proof.
  unfold parse_timestamp. simpl.
  destruct (lookup key fields) as [v |]; cbn [rbind Ok].
  - split; [| split].
    + intros H. rewrite H. reflexivity.
    + intros s -> Hne. destruct s; [contradiction |]. reflexivity.
    + intros H Hshape. rewrite H.
      destruct v; try (eexists; reflexivity).
      exfalso. apply (Hshape s). reflexivity.
  - split; [| split].
    + reflexivity.
    + intros s H. discriminate H.
    + intros H. discriminate H.
Qed.

(** ** The filter: its console, its composition, its boundary *)

Lemma filter_unfetched_shorter (subscriptions kept : list Subscription) :
  filter_unfetched subscriptions = Ok kept ->
  (length kept <= length subscriptions)%nat.
Proof.
  intros H. apply filter_unfetched_Ok in H. destruct H as [_ ->].
  apply filter_length_le.
Qed.

Lemma filter_stage_filtered (W : World) (subscriptions kept : list Subscription)
    (s : effects) :
  args_exclude_unfetched W = true ->
  filter_unfetched subscriptions = Ok kept ->
  filter_stage W subscriptions s =
  (printed s (if (length kept <? length subscriptions)%nat
              then [filtered_line (length subscriptions - length kept)]
              else []),
   Ok kept).
Proof.
  intros Hflag Hkept. pose proof (filter_unfetched_shorter _ Hkept) as Hle.
  unfold filter_stage. rewrite Hflag.
  unfold bind, lift. rewrite Hkept. unfold Ok, print_if, ret, filtered_line.
  destruct (Nat.ltb_spec (length kept) (length subscriptions)) as [Hlt | Hge].
  - replace (0 <? Z.of_nat (length subscriptions) - Z.of_nat (length kept)) with true
      by (symmetry; apply Z.ltb_lt; lia).
    rewrite <- Nat2Z.inj_sub by exact Hle. reflexivity.
  - replace (0 <? Z.of_nat (length subscriptions) - Z.of_nat (length kept)) with false
      by (symmetry; apply Z.ltb_ge; lia).
    unfold Ok. rewrite printed_nil. reflexivity.
Qed.

(** X10. The filter stage and the console.  Without the flag the stage
    returns its input and prints nothing.  With the flag it returns the
    filtered list, never longer than the input, and prints the
    [Filtered out] line exactly when at least one subscription was taken
    out, the number in the line being the number taken out; when the filter
    raises, the stage raises the same exception and prints nothing. *)
Theorem filter_stage_console (W : World) (subscriptions : list Subscription) (s : effects) :
  (args_exclude_unfetched W = false ->
   filter_stage W subscriptions s = (s, Ok subscriptions)) /\
  (forall kept,
      args_exclude_unfetched W = true ->
      filter_unfetched subscriptions = Ok kept ->
      (length kept <= length subscriptions)%nat /\
      filter_stage W subscriptions s =
      (printed s (if (length kept <? length subscriptions)%nat
                  then [filtered_line (length subscriptions - length kept)]
                  else []),
       Ok kept)) /\
  (forall e,
      args_exclude_unfetched W = true ->
      filter_unfetched subscriptions = Raise e ->
      filter_stage W subscriptions s = (s, Raise e)).
Proof.
  split; [| split].
  - unfold filter_stage. intros ->. reflexivity.
  - intros kept Hflag Hkept. split.
    + apply filter_unfetched_shorter. exact Hkept.
    + apply filter_stage_filtered; assumption.
  - unfold filter_stage. intros e -> He. unfold bind, lift. rewrite He. reflexivity.
Qed.

(** X11. The filter works record by record: filtering a concatenation is
    filtering the parts and concatenating the results, and it raises as
    soon as one part does. *)
Theorem filter_unfetched_app (front back : list Subscription) :
  filter_unfetched (front ++ back) =
  (let? xs := filter_unfetched front in
   let? ys := filter_unfetched back in
   Ok (xs ++ ys)).
Proof.
  induction front as [| sub front IH]; simpl.
  - destruct (filter_unfetched back); reflexivity.
  - destruct (fetched_since_creation sub) as [e | keep]; simpl; [reflexivity |].
    rewrite IH. destruct (filter_unfetched front) as [e | xs]; simpl; [reflexivity |].
    destruct (filter_unfetched back) as [e | ys]; simpl; [reflexivity |].
    destruct keep; reflexivity.
Qed.

(** X12. For two aware timestamps the filter looks at the distance of the
    UTC instants only, in either direction: the subscription is kept
    exactly when the instants are 60 seconds or more apart, whatever the
    two offsets and whichever comes first; for two naive ones the same
    holds of the readings. *)
Theorem kept_when_a_minute_apart (sub : Subscription) (created fetched : datetime) :
  created_at sub = Some created ->
  last_fetched_at sub = Some fetched ->
  (forall oc of_,
      utcoffset created = Some oc -> utcoffset fetched = Some of_ ->
      (fetched_since_creation sub = Ok true <->
       60 * 1000000 <= Z.abs ((wall fetched - of_) - (wall created - oc)))) /\
  (utcoffset created = None -> utcoffset fetched = None ->
   (fetched_since_creation sub = Ok true <->
    60 * 1000000 <= Z.abs (wall fetched - wall created))).
Proof.
  intros Hc Hf. unfold fetched_since_creation, Datetime.sub, abs_total_seconds_lt,
    microseconds_per_second. rewrite Hc, Hf.
  split.
  - intros oc of_ Hoc Hof. rewrite Hoc, Hof. cbn [rbind Ok].
    replace (wall fetched - wall created + oc - of_)
      with (wall fetched - of_ - (wall created - oc)) by lia.
    destruct (Z.ltb_spec (Z.abs (wall fetched - of_ - (wall created - oc))) (60 * 1000000))
      as [Hlt | Hge];
      simpl; split; intros Hk; try reflexivity; try discriminate Hk; lia.
  - intros Hoc Hof. rewrite Hoc, Hof. cbn [rbind Ok].
    destruct (Z.ltb_spec (Z.abs (wall fetched - wall created)) (60 * 1000000))
      as [Hlt | Hge];
      simpl; split; intros Hk; try reflexivity; try discriminate Hk; lia.
Qed.

(** ** The document: folders *)

Lemma folder_of_reserved (sub : Subscription) :
  folder_of sub = JStr "Uncategorized" <->
  Json.truthy (folder sub) = false \/ folder sub = JStr "Uncategorized".
Proof.
  unfold folder_of, or_default. destruct (Json.truthy (folder sub)).
  - split; [intros H; right; exact H | intros [H | H]; [discriminate H | exact H]].
  - split; [intros _; left; reflexivity | reflexivity].
Qed.

Lemma first_seen_constant (key : dict_key) (keys : list dict_key) :
  Forall (fun k => k = key) keys -> keys <> [] -> first_seen keys = [key].
Proof.
  induction 1 as [| k keys -> Hrest IH]; intros Hne; [contradiction |].
  simpl. destruct keys as [| k' keys'].
  - reflexivity.
  - rewrite IH by discriminate. simpl. rewrite key_eqb_refl. reflexivity.
Qed.

Lemma filter_everything {A : Type} (p : A -> bool) (xs : list A) :
  Forall (fun x => p x = true) xs -> filter p xs = xs.
Proof.
  induction 1 as [| x xs Hx _ IH]; simpl; [reflexivity |].
  rewrite Hx, IH. reflexivity.
Qed.

Lemma reserved_folder_key (sub : Subscription) :
  folder_of sub = JStr "Uncategorized" ->
  folder_key sub = KStr "Uncategorized" /\ hashable sub = true.
Proof.
  intros H. unfold folder_key, hashable. rewrite H. split; reflexivity.
Qed.

Lemma outline_without_folders (subscriptions : list Subscription) :
  Forall (fun sub => folder_of sub = JStr "Uncategorized") subscriptions ->
  outline subscriptions = map Leaf (filter has_url subscriptions).
Proof.
  intros Hall. destruct subscriptions as [| sub rest]; [reflexivity |].
  assert (Hbucket : filter (in_folder (KStr "Uncategorized")) (sub :: rest) = sub :: rest).
  { apply filter_everything. apply Forall_forall. intros x Hx.
    rewrite Forall_forall in Hall. unfold in_folder.
    rewrite (proj1 (reserved_folder_key x (Hall x Hx))). reflexivity. }
  unfold outline, partition_by_folder.
  rewrite (first_seen_constant (key := KStr "Uncategorized")).
  - cbn [map flat_map]. rewrite app_nil_r.
    unfold bucket_elements, reserved, label_of. cbn [fst snd]. rewrite Hbucket.
    rewrite (Forall_inv Hall).
    change (is_str "Uncategorized" (JStr "Uncategorized")) with true. reflexivity.
  - apply Forall_forall. intros k Hk. apply in_map_iff in Hk.
    destruct Hk as (x & <- & Hx). rewrite Forall_forall in Hall.
    exact (proj1 (reserved_folder_key x (Hall x Hx))).
  - discriminate.
Qed.

(** X13. A folder named "Uncategorized" is the same as no folder.  When
    every subscription has no folder, an empty one or that name, the body
    of the document has no folder element at all: it is the leaves of the
    subscriptions with a URL, in the order of the input, and no folder tag
    starts anywhere in the text when the copied values have no [<]. *)
Theorem document_without_folders (L : Library) (subscriptions : list Subscription) :
  (forall sub,
      folder_of sub = JStr "Uncategorized" <->
      Json.truthy (folder sub) = false \/ folder sub = JStr "Uncategorized") /\
  (forall sub,
      folder sub = JNull \/ folder sub = JStr EmptyString \/
      folder sub = JStr "Uncategorized" ->
      folder_of sub = JStr "Uncategorized") /\
  (Forall (fun sub => folder_of sub = JStr "Uncategorized") subscriptions ->
   forall date,
     opml_document L date subscriptions =
     Ok (opml_head date
           +++ render L (map Leaf (filter has_url subscriptions))
           +++ opml_tail) /\
     (no_angle date ->
      Forall (plain L) subscriptions ->
      folder_tags (opml_head date
                     +++ render L (map Leaf (filter has_url subscriptions))
                     +++ opml_tail) = [])).
Proof.
  split; [apply folder_of_reserved |].
  split.
  { intros sub [H | [H | H]]; unfold folder_of, or_default; rewrite H; reflexivity. }
  intros Hall date.
  assert (Hhash : Forall (fun sub => hashable sub = true) subscriptions).
  { apply Forall_forall. intros sub Hin. rewrite Forall_forall in Hall.
    exact (proj2 (reserved_folder_key sub (Hall sub Hin))). }
  pose proof (outline_without_folders Hall) as Houtline.
  split.
  - rewrite (@opml_document_outline L date subscriptions Hhash), Houtline. reflexivity.
  - intros Hdate Hplain.
    pose proof (@outline_plain L subscriptions Hplain) as Hel. rewrite Houtline in Hel.
    rewrite (@folder_tags_document L date _ Hdate Hel).
    clear. induction (filter has_url subscriptions) as [| sub subs IH]; [reflexivity | exact IH].
Qed.

(** X14. Folder elements are never nested and never left open.  In the
    text of a document whose copied values have no [<], the folder tags
    come as a start tag and then an end tag for each bucket other than
    "Uncategorized", bucket after bucket, so there are as many folder
    elements as distinct folders other than "Uncategorized".  A folder none
    of whose subscriptions has a URL is written too, as an element with
    nothing inside. *)
Theorem folder_elements_are_well_nested (L : Library) (date : string)
    (subscriptions : list Subscription) :
  Forall (fun sub => hashable sub = true) subscriptions ->
  exists document,
    opml_document L date subscriptions = Ok document /\
    (no_angle date ->
     Forall (plain L) subscriptions ->
     folder_tags document = flat_map bucket_tags (partition_by_folder subscriptions) /\
     count_occurrences folder_marker document
     = length (filter (fun key => negb (key_eqb key (KStr "Uncategorized")))
                      (first_seen (map folder_key subscriptions))) /\
     count_occurrences end_marker document
     = length (filter (fun key => negb (key_eqb key (KStr "Uncategorized")))
                      (first_seen (map folder_key subscriptions)))) /\
    (forall sub f,
        In sub subscriptions ->
        folder_of sub = JStr f ->
        f <> "Uncategorized" ->
        Forall (fun other => in_folder (folder_key sub) other = true -> has_url other = false)
               subscriptions ->
        occurs (folder_start f +++ folder_end) document).
Proof.
  intros Hall.
  eexists. split; [apply opml_document_outline; exact Hall |]. split.
  - intros Hdate Hplain.
    pose proof (@outline_plain L subscriptions Hplain) as Hel.
    split.
    { rewrite (@folder_tags_document L date _ Hdate Hel). apply outline_tags. }
    assert (Hf : In folder_marker markers) by (right; left; reflexivity).
    assert (He : In end_marker markers) by (right; right; left; reflexivity).
    rewrite (@count_document L _ _ _ Hf Hdate Hel), (@count_document L _ _ _ He Hdate Hel).
    rewrite folder_marked, end_marked, <- (unreserved_buckets Hall).
    apply folder_starts.
  - intros sub f Hin Hf Hne Hnone.
    pose proof (@label_of_text subscriptions sub f Hall Hin Hf) as Hlabel.
    pose proof (own_bucket_listed subscriptions sub Hin) as Hbucket.
    rewrite Hlabel in Hbucket.
    assert (Hlabelled : JStr f <> JStr "Uncategorized") by congruence.
    pose proof (@wrapped_bucket_occurs L date _ _ _ _ Hbucket Hlabelled) as H.
    assert (Hempty : filter has_url (filter (in_folder (folder_key sub)) subscriptions) = []).
    { clear - Hnone. induction Hnone as [| x xs Hx _ IHx]; simpl; [reflexivity |].
      destruct (in_folder (folder_key sub) x) eqn:Hx'; [| exact IHx].
      simpl. rewrite (Hx eq_refl). exact IHx. }
    rewrite Hempty in H. cbn [map render py_str] in H. exact H.
Qed.

(** ** The serializer: its effects *)

Lemma export_run (L : Library) (W : World) (self : OmnivoreClient)
    (subscriptions : list Subscription) (filename : string) (s : effects) :
  (Forall (fun sub => hashable sub = true) subscriptions ->
   (open_error W filename = None ->
    export_to_opml L W self subscriptions filename s =
    (wrote (ticked s) filename
       (opml_head (strftime L (clock W (clock_reads s)) "%Y-%m-%d")
          +++ render L (outline subscriptions) +++ opml_tail),
     Ok tt)) /\
   (forall msg,
       open_error W filename = Some msg ->
       export_to_opml L W self subscriptions filename s = (ticked s, Raise (OSError msg)))) /\
  (~ Forall (fun sub => hashable sub = true) subscriptions ->
   exists msg,
     export_to_opml L W self subscriptions filename s = (ticked s, Raise (TypeError msg))).
Proof.
  unfold export_to_opml, bind, datetime_now, lift, Ok. cbv beta iota.
  split.
  - intros Hall.
    rewrite (@opml_document_outline L _ subscriptions Hall).
    unfold Ok, write_file, wrote, ticked. cbv beta iota.
    cbn [stdout sent files clock_reads].
    split.
    + intros H. rewrite H. reflexivity.
    + intros msg H. rewrite H. reflexivity.
  - intros Hnot.
    destruct (@opml_document_unhashable L (strftime L (clock W (clock_reads s)) "%Y-%m-%d")
                subscriptions Hnot) as [msg Hmsg].
    exists msg. rewrite Hmsg. reflexivity.
Qed.

(** X15. [export_to_opml] reads the clock once, for the date of the title,
    and then either writes the whole document as one file under the given
    name, or, when the file cannot be opened, raises the [OSError] and
    writes nothing, or, when a folder is a list or an object, raises the
    [TypeError] of the grouping before it opens the file.  It prints
    nothing, sends nothing, and can fail in no other way: grouping never
    raises a [KeyError]. *)
Theorem export_writes_one_file (L : Library) (W : World) (self : OmnivoreClient)
    (subscriptions : list Subscription) (filename : string) (s : effects) :
  (Forall (fun sub => hashable sub = true) subscriptions ->
   (open_error W filename = None ->
    export_to_opml L W self subscriptions filename s =
    (wrote (ticked s) filename
       (opml_head (strftime L (clock W (clock_reads s)) "%Y-%m-%d")
          +++ render L (outline subscriptions) +++ opml_tail),
     Ok tt)) /\
   (forall msg,
       open_error W filename = Some msg ->
       export_to_opml L W self subscriptions filename s = (ticked s, Raise (OSError msg)))) /\
  (~ Forall (fun sub => hashable sub = true) subscriptions ->
   exists msg,
     export_to_opml L W self subscriptions filename s = (ticked s, Raise (TypeError msg))).
Proof.
  destruct (export_run L W self subscriptions filename s) as [Hhashable Hnot].
  split.
  - exact Hhashable.
  - exact Hnot.
Qed.

(** ** The Reporter: the exact lines *)

(** X16. The Reporter prints, for each subscription in order, the name
    line and then one line for each populated field in a fixed order, and
    does nothing else.  A text field is populated when its value is true,
    for a string when it is not empty; a count or a flag whenever it is not
    [None], and a timestamp whenever it is there, so a count of 0 and a flag
    that is [False] are printed while an empty URL is not. *)
Theorem report_prints_the_populated_fields (L : Library)
    (subscriptions : list Subscription) :
  prints (for_each subscriptions (report L)) (flat_map (report_lines L) subscriptions) /\
  (forall sub, exists more, report_lines L sub = name_line L sub :: more) /\
  (forall sub n, count sub = JInt n -> In ("Count: " +++ str_int n) (report_lines L sub)) /\
  (forall sub b,
      is_private sub = JBool b ->
      In ("Is private: " +++ str_bool b) (report_lines L sub)) /\
  (forall sub,
      Json.truthy (url sub) = false ->
      Json.truthy (folder sub) = false ->
      Json.truthy (description sub) = false ->
      Json.truthy (newsletter_email sub) = false ->
      Json.truthy (icon sub) = false ->
      created_at sub = None -> last_fetched_at sub = None ->
      refreshed_at sub = None -> failed_at sub = None ->
      count sub = JNull -> is_private sub = JNull ->
      auto_add_to_library sub = JNull -> fetch_content sub = JNull ->
      report_lines L sub = [name_line L sub]).
Proof.
  split; [apply for_each_report_lines |].
  split; [intros sub; eexists; reflexivity |].
  split; [| split].
  - intros sub n H. unfold report_lines. rewrite H. right.
    rewrite !in_app_iff. do 7 right. left. left. reflexivity.
  - intros sub b H. unfold report_lines. rewrite H. right.
    rewrite !in_app_iff. do 9 right. left. left. reflexivity.
  - intros sub Hu Hf Hd Hn Hi Hc Hl Hr Hx Hcount Hp Ha Hfc. unfold report_lines, text_line.
    rewrite Hu, Hf, Hd, Hn, Hi, Hc, Hl, Hr, Hx, Hcount, Hp, Ha, Hfc. reflexivity.
Qed.

(** ** [main]: the whole run *)

Lemma filter_stage_effects (W : World) (subscriptions : list Subscription) (s : effects) :
  exists lines, fst (filter_stage W subscriptions s) = printed s lines.
Proof.
  unfold filter_stage. destruct (args_exclude_unfetched W).
  - unfold bind, lift. destruct (filter_unfetched subscriptions) as [e | kept].
    + exists []. rewrite printed_nil. reflexivity.
    + unfold Ok, print_if. destruct (0 <? _).
      * eexists. reflexivity.
      * exists []. rewrite printed_nil. reflexivity.
  - exists []. rewrite printed_nil. reflexivity.
Qed.

Lemma configured_nothing_missing (W : World) :
  configured W ->
  missing_vars (getenv W "OMNIVORE_API_TOKEN") (getenv W "OMNIVORE_HOST")
               (getenv W "OMNIVORE_GRAPH_QL_PATH") = [].
Proof.
  intros H. rewrite missing_vars_unset. unfold required_vars. simpl.
  rewrite !H; [reflexivity | | |]; simpl; auto.
Qed.

Lemma main_configured (L : Library) (W : World) (s : effects) :
  configured W ->
  main L W s =
  try_except (run L W (checked (getenv W "OMNIVORE_API_TOKEN"))
                      (checked (getenv W "OMNIVORE_HOST"))
                      (checked (getenv W "OMNIVORE_GRAPH_QL_PATH")))
             on_exception s.
Proof.
  intros H. unfold main. rewrite (configured_nothing_missing H). reflexivity.
Qed.

Lemma datetime_now_run (W : World) (s : effects) :
  datetime_now W s = (ticked s, Ok (clock W (clock_reads s))).
Proof. reflexivity. Qed.

(** The body of the [try], stage by stage. *)
Lemma run_trace (L : Library) (W : World) (token host graphql_path : string) (s : effects) :
  run L W token host graphql_path s =
  let client := new_client token host graphql_path in
  match get_subscriptions L W client (printed s ["Fetching subscriptions..."]) with
  | (s2, inl e) => (s2, inl e)
  | (s2, inr subscriptions) =>
      match filter_stage W subscriptions s2 with
      | (s3, inl e) => (s3, inl e)
      | (s3, inr kept) =>
          let s4 := printed s3 (found_line (length kept) :: flat_map (report_lines L) kept) in
          let filename := output_name L (clock W (clock_reads s4)) in
          match export_to_opml L W client kept filename (ticked s4) with
          | (s5, inl e) => (s5, inl e)
          | (s5, inr _) =>
              (printed s5 [nl +++ "Exported subscriptions to " +++ filename], Ok tt)
          end
      end
  end.
Proof.
  unfold run. cbv zeta.
  erewrite bind_returned by apply print_run.
  destruct (get_subscriptions L W (new_client token host graphql_path)
              (printed s ["Fetching subscriptions..."]))
    as [s2 [e | subscriptions]] eqn:Hfetch.
  { erewrite bind_raised by exact Hfetch. reflexivity. }
  erewrite bind_returned by exact Hfetch.
  destruct (filter_stage W subscriptions s2) as [s3 [e | kept]] eqn:Hfilter.
  { erewrite bind_raised by exact Hfilter. reflexivity. }
  erewrite bind_returned by exact Hfilter.
  erewrite bind_returned by apply print_run.
  erewrite bind_returned by apply for_each_report_lines.
  rewrite printed_app.
  erewrite bind_returned by apply datetime_now_run.
  change ([nl +++ "Found " +++ str_int (Z.of_nat (length kept)) +++ " RSS subscriptions:"]
          ++ flat_map (report_lines L) kept)
    with (found_line (length kept) :: flat_map (report_lines L) kept).
  fold (output_name L (clock W (clock_reads
          (printed s3 (found_line (length kept) :: flat_map (report_lines L) kept))))).
  destruct (export_to_opml L W (new_client token host graphql_path) kept _ _)
    as [s5 [e | []]] eqn:Hexport.
  { erewrite bind_raised by exact Hexport. reflexivity. }
  erewrite bind_returned by exact Hexport. reflexivity.
Qed.

(** How the body of the [try] ends: one request went out, the first line
    printed is the announcement, and a file was written exactly when the
    body returned. *)
Lemma run_outcome (L : Library) (W : World) (token host graphql_path : string)
    (s : effects) :
  let after := fst (run L W token host graphql_path s) in
  let outcome := snd (run L W token host graphql_path s) in
  sent after = sent s ++ [the_request (new_client token host graphql_path)] /\
  (exists lines, stdout after = stdout s ++ "Fetching subscriptions..." :: lines) /\
  ((exists e, outcome = Raise e /\ files after = files s) \/
   (outcome = Ok tt /\
    exists filename document, files after = files s ++ [(filename, document)])).
Proof.
  cbv zeta. rewrite run_trace. cbv zeta.
  set (client := new_client token host graphql_path).
  destruct (get_subscriptions_effects L W client (printed s ["Fetching subscriptions..."]))
    as [fetch_lines Hfetch].
  destruct (get_subscriptions L W client (printed s ["Fetching subscriptions..."]))
    as [s2 outcome2]. simpl in Hfetch. subst s2.
  destruct outcome2 as [e | subscriptions].
  { simpl. split; [reflexivity |]. split.
    - exists fetch_lines. rewrite <- app_assoc. reflexivity.
    - left. exists e. split; reflexivity. }
  destruct (filter_stage_effects W subscriptions
              (printed (requested (printed s ["Fetching subscriptions..."])
                                  (the_request client)) fetch_lines))
    as [filter_lines Hfilter].
  destruct (filter_stage W subscriptions _) as [s3 outcome3]. simpl in Hfilter. subst s3.
  destruct outcome3 as [e | kept].
  { simpl. split; [reflexivity |]. split.
    - eexists. rewrite <- !app_assoc. reflexivity.
    - left. exists e. split; reflexivity. }
  match goal with
  | |- context [export_to_opml L W client kept ?name ?before] =>
      destruct (export_run L W client kept name before) as [Hhashable Hnot];
      destruct (all_hashable_dec kept) as [Hall | Hsome];
      [ destruct (Hhashable Hall) as [Hwritten Hrefused];
        destruct (open_error W name) as [msg |]
      | destruct (Hnot Hsome) as [msg Hraised] ]
  end.
  - rewrite (Hrefused msg eq_refl). simpl. split; [reflexivity |]. split.
    + eexists. rewrite <- !app_assoc. reflexivity.
    + left. eexists. split; reflexivity.
  - rewrite (Hwritten eq_refl). simpl. split; [reflexivity |]. split.
    + eexists. rewrite <- !app_assoc. reflexivity.
    + right. split; [reflexivity |]. eexists. eexists. reflexivity.
  - rewrite Hraised. simpl. split; [reflexivity |]. split.
    + eexists. rewrite <- !app_assoc. reflexivity.
    + left. eexists. split; reflexivity.
Qed.

(** The two ways [main] starts. *)
Lemma main_cases (L : Library) (W : World) (s : effects) :
  (exists msg, main L W s = (s, Raise (ValueError msg))) \/
  main L W s =
  try_except (run L W (checked (getenv W "OMNIVORE_API_TOKEN"))
                      (checked (getenv W "OMNIVORE_HOST"))
                      (checked (getenv W "OMNIVORE_GRAPH_QL_PATH")))
             on_exception s.
Proof.
  unfold main.
  destruct (missing_vars _ _ _) as [| var vars]; [right | left; eexists]; reflexivity.
Qed.

Lemma try_except_reported (body : IO unit) (s : effects) :
  try_except body on_exception s =
  match snd (body s) with
  | inl e => (printed (fst (body s)) ["Error: " +++ exn_str e], Raise e)
  | inr a => (fst (body s), Ok a)
  end.
Proof.
  unfold try_except. destruct (body s) as [s' [e | a]]; reflexivity.
Qed.

(** X17. The output file is written exactly when the run succeeds.  If
    [main] raises, for a missing variable, a failed fetch, a filter that
    cannot compare two timestamps, a folder that cannot be a key or a file
    that cannot be opened, no file has been written; if it returns, exactly
    one file has been. *)
Theorem file_is_written_iff_the_run_succeeds (L : Library) (W : World) (s : effects) :
  (forall e, snd (main L W s) = Raise e -> files (fst (main L W s)) = files s) /\
  (snd (main L W s) = Ok tt ->
   exists filename document,
     files (fst (main L W s)) = files s ++ [(filename, document)]).
Proof.
  destruct (main_cases L W s) as [[msg Hmain] | Hmain]; rewrite Hmain.
  - split; [reflexivity | discriminate].
  - rewrite try_except_reported.
    destruct (run_outcome L W (checked (getenv W "OMNIVORE_API_TOKEN"))
                (checked (getenv W "OMNIVORE_HOST"))
                (checked (getenv W "OMNIVORE_GRAPH_QL_PATH")) s)
      as (_ & _ & [(e & He & Hfiles) | (Hok & filename & document & Hfiles)]).
    + rewrite He. split; [intros e' _; exact Hfiles | discriminate].
    + rewrite Hok. split; [discriminate |].
      intros _. exists filename, document. exact Hfiles.
Qed.

(** X18. With the three variables set, [main] sends exactly one request
    whatever happens afterwards: a POST of the fixed query to
    [https://] followed by the host and the path, with the token as the
    whole of the [Authorization] header. *)
Theorem configured_run_sends_one_request (L : Library) (W : World) (s : effects)
    (token host graphql_path : string) :
  getenv W "OMNIVORE_API_TOKEN" = Some token -> token <> EmptyString ->
  getenv W "OMNIVORE_HOST" = Some host -> host <> EmptyString ->
  getenv W "OMNIVORE_GRAPH_QL_PATH" = Some graphql_path -> graphql_path <> EmptyString ->
  sent (fst (main L W s)) =
  sent s ++ [ {| Http.req_url := "https://" +++ host +++ graphql_path;
                 Http.req_headers := [ ("Authorization", token);
                                       ("Content-Type", "application/json") ];
                 Http.req_json := JDict [("query", JStr query)] |} ].
Proof.
  intros Ht Htne Hh Hhne Hp Hpne.
  assert (Hconf : configured W).
  { intros var [<- | [<- | [<- | []]]]; unfold unset;
      [rewrite Ht | rewrite Hh | rewrite Hp]; simpl.
    - destruct token; [contradiction | reflexivity].
    - destruct host; [contradiction | reflexivity].
    - destruct graphql_path; [contradiction | reflexivity]. }
  rewrite (main_configured L s Hconf), try_except_reported, Ht, Hh, Hp.
  cbn [checked].
  destruct (run_outcome L W token host graphql_path s) as (Hsent & _ & _).
  destruct (snd (run L W token host graphql_path s)); exact Hsent.
Qed.

(** X19. With the three variables set, a run that fails announces the
    fetch first and reports the failure last: the final line printed is
    [Error: ] followed by the text of the exception, and that exception is
    the one [main] raises. *)
Theorem failure_is_reported_last (L : Library) (W : World) (s : effects) (e : exn) :
  configured W ->
  snd (main L W s) = Raise e ->
  exists lines,
    stdout (fst (main L W s)) =
    stdout s ++ ("Fetching subscriptions..." :: lines) ++ ["Error: " +++ exn_str e].
Proof.
  intros Hconf. rewrite (main_configured L s Hconf), try_except_reported.
  destruct (run_outcome L W (checked (getenv W "OMNIVORE_API_TOKEN"))
              (checked (getenv W "OMNIVORE_HOST"))
              (checked (getenv W "OMNIVORE_GRAPH_QL_PATH")) s)
    as (_ & (lines & Hout) & _).
  destruct (snd (run L W _ _ _ s)) as [e' | []]; simpl; [| discriminate].
  intros He. unfold Raise in He. injection He as ->.
  exists lines. rewrite Hout, <- app_assoc. reflexivity.
Qed.

(** X20. A run in which every stage succeeds, in full: the variables are
    set, the server answers with a passing status and a body that reads as
    a list of subscriptions, the filter returns, the folders kept can be
    keys and the file opens.  [main] returns; it has sent the one request,
    read the clock twice and written one file, named after the first
    reading and titled after the second, whose body is the text of the
    outline of the subscriptions that passed the filter; and it has printed,
    in this order, the announcement, the status lines, the [Filtered out]
    line if any subscription was dropped, the count found, the report of
    each subscription kept, and the name of the file. *)
Theorem successful_run (L : Library) (W : World) (s : effects)
    (response : Http.response) (data : json) (subscriptions kept : list Subscription) :
  configured W ->
  network W (the_request (client_of W)) = inr response ->
  raise_for_status response = Ok tt ->
  Http.decoded response = inr data ->
  read_body L data = Ok subscriptions ->
  (if args_exclude_unfetched W then filter_unfetched subscriptions
   else Ok subscriptions) = Ok kept ->
  Forall (fun sub => hashable sub = true) kept ->
  open_error W (output_name L (clock W (clock_reads s))) = None ->
  main L W s =
  ({| stdout :=
        stdout s
        ++ ["Fetching subscriptions..."]
        ++ status_lines L response
        ++ (if (length kept <? length subscriptions)%nat
            then [filtered_line (length subscriptions - length kept)]
            else [])
        ++ [found_line (length kept)]
        ++ flat_map (report_lines L) kept
        ++ [nl +++ "Exported subscriptions to "
               +++ output_name L (clock W (clock_reads s))];
      sent := sent s ++ [the_request (client_of W)];
      files :=
        files s
        ++ [(output_name L (clock W (clock_reads s)),
             opml_head (strftime L (clock W (S (clock_reads s))) "%Y-%m-%d")
               +++ render L (outline kept) +++ opml_tail)];
      clock_reads := S (S (clock_reads s)) |},
   Ok tt).
Proof.
  intros Hconf Hnet Hstatus Hbody Hread Hkept Hhash Hopen.
  rewrite (main_configured L s Hconf). unfold try_except. rewrite run_trace.
  fold (client_of W). cbv zeta.
  rewrite (@get_subscriptions_returns L W (client_of W) _ response data subscriptions
             Hnet Hstatus Hbody Hread).
  assert (Hstage : forall s0,
            filter_stage W subscriptions s0 =
            (printed s0 (if (length kept <? length subscriptions)%nat
                         then [filtered_line (length subscriptions - length kept)]
                         else []),
             Ok kept)).
  { intros s0. destruct (args_exclude_unfetched W) eqn:Hflag.
    - apply filter_stage_filtered; assumption.
    - apply Ok_inj in Hkept. subst kept. unfold filter_stage. rewrite Hflag.
      rewrite Nat.ltb_irrefl, printed_nil. reflexivity. }
  cbv beta iota delta [Ok]. rewrite Hstage. cbv beta iota delta [Ok].
  cbn [clock_reads printed requested].
  destruct (export_run L W (client_of W) kept
              (output_name L (clock W (clock_reads s)))
              (ticked (printed (printed (printed (requested
                 (printed s ["Fetching subscriptions..."]) (the_request (client_of W)))
                 (status_lines L response))
                 (if (length kept <? length subscriptions)%nat
                  then [filtered_line (length subscriptions - length kept)]
                  else []))
                 (found_line (length kept) :: flat_map (report_lines L) kept))))
    as [Hhashable _].
  destruct (Hhashable Hhash) as [Hwritten _].
  specialize (Hwritten Hopen). unfold Ok in Hwritten.
  cbn [clock_reads printed requested ticked] in Hwritten |- *.
  unfold ticked in Hwritten |- *. cbn [clock_reads stdout sent files] in Hwritten |- *.
  rewrite Hwritten.
  unfold printed, wrote, ticked, requested. cbn [stdout sent files clock_reads].
  rewrite <- !app_assoc. reflexivity.
Qed.

(* ================================================================== *)
(** * Part VI. Further worked instances                                *)
(* ================================================================== *)

(** ** The fetcher *)

Lemma offline_fetch :
  get_subscriptions Sample.library Case.offline Sample.client no_effects =
  (printed (requested no_effects (the_request Sample.client))
     ["Request failed: Connection refused"],
   Raise (RequestException ConnectionFault "Connection refused" None)).
Proof.
  apply (@network_fault_is_reported_and_raised Sample.library Case.offline Sample.client
           no_effects "Connection refused").
  reflexivity.
Defined.

Lemma garbled_fetch :
  get_subscriptions Sample.library (Sample.configured false Case.garbled)
    Sample.client no_effects =
  (printed (requested no_effects (the_request Sample.client))
     ["Status Code: 200"; "Request failed: Expecting value"],
   Raise (RequestException JSONDecodeError "Expecting value" None)).
Proof.
  apply (@undecodable_body_fails_the_fetch Sample.library
           (Sample.configured false Case.garbled) Sample.client no_effects
           Case.garbled "Expecting value"); reflexivity.
Defined.

Lemma refused_fetch :
  get_subscriptions Sample.library (Sample.configured false Sample.refused)
    Sample.client no_effects =
  (printed (requested no_effects (the_request Sample.client)) ["Status Code: 200"],
   Raise (Exception "GraphQL errors: [...]")).
Proof.
  refine (@body_outcome_passes_through Sample.library
            (Sample.configured false Sample.refused) Sample.client no_effects
            Sample.refused _ eq_refl eq_refl eq_refl _).
  intros e H. vm_compute in H. injection H as <-. reflexivity.
Defined.

(** ** Reading the body *)

Lemma list_body_raises :
  exists msg,
    read_body Sample.library (JList [JStr "errors"]) = Raise (TypeError msg).
Proof.
  apply body_that_is_no_object_raises_type_error. intros fields H. discriminate H.
Defined.

Lemma empty_object_raises :
  read_body Sample.library (JDict []) = Raise (KeyError "data").
Proof.
  apply (proj1 (@missing_key_raises_key_error Sample.library [] eq_refl)).
  reflexivity.
Defined.

(** ** The mapping step *)

(** An item whose name is a number and whose count is a string is stored
    as it is. *)
Lemma loose_item_is_stored :
  to_subscription Sample.library Case.loose_item = Ok Case.loose /\
  name Case.loose = JInt 42 /\
  count Case.loose = JStr "7".
Proof.
  split; [| split; reflexivity].
  apply (proj2 (scalar_fields_are_copied Sample.library Case.loose_item)
           [ ("name", JInt 42); ("url", JStr "https://example.com/loose");
             ("count", JStr "7") ] (JInt 42) eq_refl eq_refl).
  intros key [<- | [<- | [<- | [<- | []]]]]; reflexivity.
Defined.

Lemma number_after_tech_news_fails :
  exists e,
    to_subscriptions Sample.library [Sample.tech_news_item; JInt 3; Sample.tech_news_item]
    = Raise e.
Proof.
  eexists.
  apply (@first_bad_item_fails_the_mapping Sample.library [Sample.tech_news_item]
           [Sample.tech_news_item] (JInt 3) [Sample.tech_news]); reflexivity.
Defined.

Lemma epoch_timestamp_raises :
  exists msg,
    parse_timestamp Sample.library (JDict Case.epoch_item) "createdAt"
    = Raise (AttributeError msg).
Proof.
  apply (proj2 (proj2 (timestamp_value_cases Sample.library Case.epoch_item "createdAt"))).
  - reflexivity.
  - intros s H. discriminate H.
Defined.

(** ** The filter *)

Lemma two_of_three_filtered_out :
  filter_stage (Sample.configured true (Sample.ok_answer []))
    [Sample.tech_news; Sample.daily; Sample.just_added] no_effects =
  (printed no_effects [filtered_line 2], Ok [Sample.daily]).
Proof.
  apply (proj1 (proj2 (filter_stage_console
                         (Sample.configured true (Sample.ok_answer []))
                         [Sample.tech_news; Sample.daily; Sample.just_added]
                         no_effects)) [Sample.daily]); reflexivity.
Defined.

Lemma daily_is_kept : fetched_since_creation Sample.daily = Ok true.
Proof.
  apply (proj1 (@kept_when_a_minute_apart Sample.daily
                  (Sample.utc Sample.new_year_2024)
                  (Sample.utc (Sample.new_year_2024 + 86400000000))
                  eq_refl eq_refl) 0 0 eq_refl eq_refl).
  vm_compute. discriminate.
Defined.

(** ** The document *)

Lemma two_feeds_without_folder :
  opml_document Sample.library "2024-01-02" [Sample.just_added; Sample.newsletter] =
  Ok (opml_head "2024-01-02"
        +++ feed_element "Just added" "https://example.com/new"
        +++ opml_tail).
Proof.
  destruct (document_without_folders Sample.library [Sample.just_added; Sample.newsletter])
    as (_ & _ & H).
  assert (Hall : Forall (fun sub => folder_of sub = JStr "Uncategorized")
                        [Sample.just_added; Sample.newsletter])
    by (repeat constructor).
  exact (proj1 (H Hall "2024-01-02")).
Defined.

(** Two folders, the second without a feed: two folder elements, one after
    the other, the second with nothing inside. *)
Lemma empty_folder_is_written :
  exists document,
    opml_document Sample.library "2024-01-02" [Sample.tech_news; Case.paper] = Ok document /\
    folder_tags document = [StartTag; EndTag; StartTag; EndTag] /\
    occurs (folder_start "Print" +++ folder_end) document.
Proof.
  destruct (@folder_elements_are_well_nested Sample.library "2024-01-02"
              [Sample.tech_news; Case.paper])
    as (document & Hdoc & Htags & Hempty).
  - repeat constructor.
  - exists document. split; [exact Hdoc |]. split.
    + apply Htags.
      * apply angle_free_sound. reflexivity.
      * repeat constructor; apply angle_free_sound; reflexivity.
    + apply (Hempty Case.paper "Print").
      * right. left. reflexivity.
      * reflexivity.
      * discriminate.
      * constructor; [intros H; discriminate H |].
        constructor; [intros _; reflexivity | constructor].
Defined.

Lemma export_of_tech_news :
  export_to_opml Sample.library (Sample.configured false (Sample.ok_answer []))
    Sample.client [Sample.tech_news] "out.opml" no_effects =
  (wrote (ticked no_effects) "out.opml"
     (opml_head "2024-01-02"
        +++ render Sample.library (outline [Sample.tech_news]) +++ opml_tail),
   Ok tt).
Proof.
  destruct (export_writes_one_file Sample.library
              (Sample.configured false (Sample.ok_answer []))
              Sample.client [Sample.tech_news] "out.opml" no_effects)
    as [Hhashable _].
  assert (Hall : Forall (fun sub => hashable sub = true) [Sample.tech_news])
    by (repeat constructor).
  exact (proj1 (Hhashable Hall) eq_refl).
Defined.

(** ** The Reporter *)

Lemma zero_count_is_printed :
  In "Count: 0" (report_lines Sample.library Case.unread) /\
  In "Is private: False" (report_lines Sample.library Case.unread).
Proof.
  destruct (report_prints_the_populated_fields Sample.library [Case.unread])
    as (_ & _ & Hcount & Hflag & _).
  split.
  - apply (Hcount Case.unread 0). reflexivity.
  - apply (Hflag Case.unread false). reflexivity.
Defined.

(** ** [main] *)

Lemma not_found_writes_no_file :
  files (fst (main Sample.library (Sample.configured false Sample.not_found) no_effects))
  = [].
Proof.
  eapply (proj1 (file_is_written_iff_the_run_succeeds Sample.library
                   (Sample.configured false Sample.not_found) no_effects)).
  reflexivity.
Defined.

Lemma sample_request :
  sent (fst (main Sample.library (Sample.configured false Sample.not_found) no_effects)) =
  [ {| Http.req_url := "https://api.example.com/api/graphql";
       Http.req_headers := [ ("Authorization", "secret");
                             ("Content-Type", "application/json") ];
       Http.req_json := JDict [("query", JStr query)] |} ].
Proof.
  apply (@configured_run_sends_one_request Sample.library
           (Sample.configured false Sample.not_found) no_effects
           "secret" "api.example.com" "/api/graphql");
    first [reflexivity | discriminate].
Defined.

Lemma not_found_is_reported :
  exists lines,
    stdout (fst (main Sample.library (Sample.configured false Sample.not_found) no_effects))
    = "Fetching subscriptions..." :: lines
      ++ ["Error: 404 Client Error: Not Found for url: https://api.example.com/api/graphql"].
Proof.
  apply (@failure_is_reported_last Sample.library
           (Sample.configured false Sample.not_found) no_effects
           (RequestException HTTPError
              "404 Client Error: Not Found for url: https://api.example.com/api/graphql"
              (Some Sample.not_found))).
  - intros var [<- | [<- | [<- | []]]]; reflexivity.
  - reflexivity.
Defined.

Lemma filtered_scenario_in_full :
  main Sample.library
    (Sample.configured true (Sample.ok_answer [Sample.tech_news_item])) no_effects =
  ({| stdout := [ "Fetching subscriptions..."; "Status Code: 200"; filtered_line 1;
                  found_line 0;
                  nl +++ "Exported subscriptions to omnivore_rss_export_20240102.opml" ];
      sent := [the_request Sample.client];
      files := [("omnivore_rss_export_20240102.opml",
                 opml_head "2024-01-02" +++ opml_tail)];
      clock_reads := 2 |},
   Ok tt).
Proof.
  apply (@successful_run Sample.library
           (Sample.configured true (Sample.ok_answer [Sample.tech_news_item])) no_effects
           (Sample.ok_answer [Sample.tech_news_item])
           (Sample.success_body [Sample.tech_news_item])
           [Sample.tech_news] []); try reflexivity.
  - intros var [<- | [<- | [<- | []]]]; reflexivity.
  - constructor.
Defined.
